(** * mdify: the fetch-extract-persist pipeline, the sitemap reader and the
      static server, embedded from the Go sources

    - package scraper: [FetchWithRetries], [ExtractContent], [ScrapeURL],
      [GetOutputPath], [SaveMarkdown], [scrapeSequential], [worker],
      [scrapeConcurrent], [ScrapeURLs], and the mocks of its tests;
    - package sitemap: [FetchSitemap], [FilterURLs], [GetURLsFromSitemap];
    - package server: [MarkdownHandler.ServeHTTP] and the mocks of its
      tests.

    Go's [int] and [time.Duration] are 64-bit two's complement integers and
    are kept as [Z] with the wrap-around written out.  Strings are Go byte
    strings.  The functions of Go's standard library that the sources call
    ([strings], [path/filepath], [net/url]) are written out after their
    Unix implementations. *)

From Stdlib Require Import ZArith List Bool Ascii String Lia Permutation.
From stdpp Require Import base option list relations strings gmap.

Local Open Scope string_scope.
Local Open Scope Z_scope.

(** ** Machine integers *)

Module GoInt.

Definition wrap64 (z : Z) : Z := (z + 2 ^ 63) mod 2 ^ 64 - 2 ^ 63.

Definition add64 (a b : Z) : Z := wrap64 (a + b).
Definition mul64 (a b : Z) : Z := wrap64 (a * b).

(** [uint(x)] on a 64-bit platform. *)
Definition uint (x : Z) : Z := x mod 2 ^ 64.

(** [x << s] at type int64; a shift count of 64 or more leaves 0. *)
Definition shl64 (x s : Z) : Z := wrap64 (Z.shiftl x s).

End GoInt.

(** ** package time *)

Module GoTime.

(** [time.Duration] is an int64 count of nanoseconds. *)
Definition Duration : Type := Z.
Definition Second : Duration := 1000000000.

End GoTime.

(** ** package strings *)

Module GoStrings.

Fixpoint drop (n : nat) (s : string) : string :=
  match n, s with
  | O, _ => s
  | S n', String _ s' => drop n' s'
  | S _, EmptyString => EmptyString
  end.

Fixpoint take (n : nat) (s : string) : string :=
  match n, s with
  | O, _ => EmptyString
  | S n', String c s' => String c (take n' s')
  | S _, EmptyString => EmptyString
  end.

Definition HasPrefix (s pfx : string) : bool := String.prefix pfx s.

Definition TrimPrefix (s pfx : string) : string :=
  if HasPrefix s pfx then drop (String.length pfx) s else s.

Definition HasSuffix (s sfx : string) : bool :=
  (String.length sfx <=? String.length s)%nat
  && String.eqb (drop (String.length s - String.length sfx) s) sfx.

Fixpoint Contains (s substr : string) : bool :=
  HasPrefix s substr
  || match s with
     | EmptyString => false
     | String _ s' => Contains s' substr
     end.

(** [strings.Split(s, "/")] for a one-byte separator. *)
Fixpoint Split (s : string) (sep : ascii) : list string :=
  match s with
  | EmptyString => [EmptyString]
  | String c s' =>
      if Ascii.eqb c sep then EmptyString :: Split s' sep
      else match Split s' sep with
           | h :: t => String c h :: t
           | [] => [String c EmptyString]
           end
  end.

Fixpoint Join (elems : list string) (sep : string) : string :=
  match elems with
  | [] => EmptyString
  | [e] => e
  | e :: rest => e +:+ sep +:+ Join rest sep
  end.

(** [strings.Cut(s, sep)] for a one-byte separator: the text before the
    first separator, the text after it, and whether it was found. *)
Fixpoint Cut (s : string) (sep : ascii) : string * string * bool :=
  match s with
  | EmptyString => (EmptyString, EmptyString, false)
  | String c s' =>
      if Ascii.eqb c sep then (EmptyString, s', true)
      else let '(b, a, found) := Cut s' sep in (String c b, a, found)
  end.

End GoStrings.

(** ** package path/filepath (Unix) *)

Module GoFilepath.

(** The element stack of [Clean], innermost element first.  [..] backs up
    over a real element; at the start of a path that is not rooted it is
    kept, at the root it is dropped. *)
Fixpoint cleanElems (rooted : bool) (elems out : list string) : list string :=
  match elems with
  | [] => rev out
  | e :: rest =>
      if String.eqb e "" then cleanElems rooted rest out
      else if String.eqb e "." then cleanElems rooted rest out
      else if String.eqb e ".." then
        match out with
        | top :: out' =>
            if String.eqb top ".." then cleanElems rooted rest (e :: out)
            else cleanElems rooted rest out'
        | [] =>
            if rooted then cleanElems rooted rest out
            else cleanElems rooted rest (e :: out)
        end
      else cleanElems rooted rest (e :: out)
  end.

Definition Clean (path : string) : string :=
  let rooted := GoStrings.HasPrefix path "/" in
  let body := GoStrings.Join (cleanElems rooted (GoStrings.Split path "/") []) "/" in
  let out := if rooted then "/" +:+ body else body in
  if String.eqb out "" then "." else out.

(** [filepath.Join]: the first non-empty element and all that follow it,
    joined by the separator and cleaned. *)
Fixpoint Join (elem : list string) : string :=
  match elem with
  | [] => ""
  | e :: rest =>
      if String.eqb e "" then Join rest
      else Clean (GoStrings.Join (e :: rest) "/")
  end.

(** [path[:i+1]] for [i] the index of the last separator. *)
Definition dirPart (path : string) : string :=
  match rev (GoStrings.Split path "/") with
  | [] | [_] => ""
  | _ :: revinit => GoStrings.Join (rev revinit) "/" +:+ "/"
  end.

Definition Dir (path : string) : string := Clean (dirPart path).

(** An element that names a file or a directory: not empty, not [.] or
    [..], and without a separator. *)
Definition plainElem (e : string) : bool :=
  negb (String.eqb e "") && negb (String.eqb e ".") && negb (String.eqb e "..")
  && negb (GoStrings.Contains e "/").

(** The path that leads from the cleaned directory [dir] down the
    elements [rel]. *)
Definition below (dir : string) (rel : list string) : string :=
  if String.eqb dir "." then GoStrings.Join rel "/"
  else if String.eqb dir "/" then dir +:+ GoStrings.Join rel "/"
  else dir +:+ "/" +:+ GoStrings.Join rel "/".

End GoFilepath.

(** ** package net/url

    [Parse] follows [net/url.Parse]: the fragment is cut off, control bytes
    are refused, the scheme is split off, then the query, then the
    authority, and what remains is percent-decoded into [Path].  The
    validation of the characters of the userinfo and host inside the
    authority, the [ForceQuery], [RawPath] and [User] fields and the
    decoding of the fragment are left out; none of them feeds [Path]. *)

Module GoURL.

Record URL : Type := mkURL {
  Scheme : string;
  Opaque : string;
  Host : string;
  Path : string;
  RawQuery : string;
  Fragment : string;
}.

Inductive ParseError : Type :=
| InvalidControlCharacter
| MissingProtocolScheme
| FirstSegmentColon
| InvalidEscape.

Definition byte_in (lo hi : string) (c : ascii) : bool :=
  match lo, hi with
  | String l _, String h _ =>
      (nat_of_ascii l <=? nat_of_ascii c)%nat && (nat_of_ascii c <=? nat_of_ascii h)%nat
  | _, _ => false
  end.

Definition isAlpha (c : ascii) : bool := byte_in "a" "z" c || byte_in "A" "Z" c.
Definition isDigit (c : ascii) : bool := byte_in "0" "9" c.
Definition ishex (c : ascii) : bool :=
  isDigit c || byte_in "a" "f" c || byte_in "A" "F" c.

Definition unhex (c : ascii) : nat :=
  if isDigit c then nat_of_ascii c - 48
  else if byte_in "a" "f" c then nat_of_ascii c - 97 + 10
  else if byte_in "A" "F" c then nat_of_ascii c - 65 + 10
  else 0.

(** [unescape(s, encodePath)]: [%XX] becomes the byte XX, a [%] that is
    not followed by two hex digits is an error, [+] stays. *)
Fixpoint unescape (s : string) : option string :=
  match s with
  | EmptyString => Some EmptyString
  | String c rest =>
      if Ascii.eqb c "%" then
        match rest with
        | String a (String b rest') =>
            if ishex a && ishex b then
              String (ascii_of_nat (16 * unhex a + unhex b)) <$> unescape rest'
            else None
        | _ => None
        end
      else String c <$> unescape rest
  end.

Fixpoint stringContainsCTLByte (s : string) : bool :=
  match s with
  | EmptyString => false
  | String c s' =>
      (nat_of_ascii c <? 32)%nat || (nat_of_ascii c =? 127)%nat
      || stringContainsCTLByte s'
  end.

Inductive SchemeScan : Type :=
| NoScheme
| EmptyScheme
| FoundScheme (scheme rest : string).

Definition extendScheme (c : ascii) (r : SchemeScan) : SchemeScan :=
  match r with
  | FoundScheme scheme rest => FoundScheme (String c scheme) rest
  | _ => r
  end.

(** The loop of [getScheme]; [first] says that the index is 0. *)
Fixpoint scanScheme (first : bool) (s : string) : SchemeScan :=
  match s with
  | EmptyString => NoScheme
  | String c s' =>
      if isAlpha c then extendScheme c (scanScheme false s')
      else if isDigit c || Ascii.eqb c "+" || Ascii.eqb c "-" || Ascii.eqb c "." then
        if first then NoScheme else extendScheme c (scanScheme false s')
      else if Ascii.eqb c ":" then
        if first then EmptyScheme else FoundScheme EmptyString s'
      else NoScheme
  end.

Definition getScheme (rawURL : string) : ParseError + string * string :=
  match scanScheme true rawURL with
  | NoScheme => inr (EmptyString, rawURL)
  | EmptyScheme => inl MissingProtocolScheme
  | FoundScheme scheme rest => inr (scheme, rest)
  end.

Definition toLowerByte (c : ascii) : ascii :=
  if byte_in "A" "Z" c then ascii_of_nat (nat_of_ascii c + 32) else c.

Fixpoint ToLower (s : string) : string :=
  match s with
  | EmptyString => EmptyString
  | String c s' => String (toLowerByte c) (ToLower s')
  end.

(** The host of an authority: what follows the last [@]. *)
Definition hostOf (authority : string) : string :=
  match rev (GoStrings.Split authority "@") with
  | h :: _ => h
  | [] => authority
  end.

(** [authority[:i]] and [authority[i:]] for [i] the index of the first
    ["/"], or the whole text and nothing when there is none. *)
Definition splitAuthority (s : string) : string * string :=
  let '(before, after, found) := GoStrings.Cut s "/" in
  if found then (before, String "/" after) else (s, EmptyString).

Definition parse (rawURL : string) : ParseError + URL :=
  if stringContainsCTLByte rawURL then inl InvalidControlCharacter
  else if String.eqb rawURL "*" then inr (mkURL "" "" "" "*" "" "")
  else
    match getScheme rawURL with
    | inl e => inl e
    | inr (scheme0, rest0) =>
        let scheme := ToLower scheme0 in
        let '(rest, rawQuery, _) := GoStrings.Cut rest0 "?" in
        if negb (GoStrings.HasPrefix rest "/") && negb (String.eqb scheme "") then
          inr (mkURL scheme rest "" "" rawQuery "")
        else if negb (GoStrings.HasPrefix rest "/")
                && GoStrings.Contains (GoStrings.Cut rest "/").1.1 ":" then
          inl FirstSegmentColon
        else
          let '(host, rest') :=
            if (negb (String.eqb scheme "") || negb (GoStrings.HasPrefix rest "///"))
               && GoStrings.HasPrefix rest "//"
            then let '(authority, r) := splitAuthority (GoStrings.drop 2 rest) in
                 (hostOf authority, r)
            else (EmptyString, rest) in
          match unescape rest' with
          | None => inl InvalidEscape
          | Some path => inr (mkURL scheme "" host path rawQuery "")
          end
    end.

Definition Parse (rawURL : string) : ParseError + URL :=
  let '(u, frag, _) := GoStrings.Cut rawURL "#" in
  match parse u with
  | inl e => inl e
  | inr url =>
      inr (mkURL (Scheme url) (Opaque url) (Host url) (Path url) (RawQuery url) frag)
  end.

End GoURL.

(** ** package fmt: error values

    An error made by [fmt.Errorf] is kept as its format and arguments; [%w]
    wraps the error passed for it.  An error made outside the repository (by
    the network client, the file system, a parser) is [Foreign] and carries
    its message. *)

Module GoFmt.

Inductive value (E : Type) : Type :=
| VString (s : string)
| VInt (n : Z)
| VDuration (d : GoTime.Duration)
| VError (e : E)
| VNil.

Arguments VString {E} s.
Arguments VInt {E} n.
Arguments VDuration {E} d.
Arguments VError {E} e.
Arguments VNil {E}.

#[warnings="-register-all"] Inductive error : Type :=
| Errorf (format : string) (args : list (value error))
| Foreign (msg : string).

(** The argument for an [error] variable that may be nil. *)
Definition VErr (e : option error) : value error :=
  match e with
  | Some err => VError err
  | None => VNil
  end.

End GoFmt.

(** ** The collaborators

    The services reach the network, the file system, the clock and the log
    through interfaces.  A collaborator acts on a state [W] that a service
    does not look into.  The reader of a response body and the writer of a
    created file are interface values too ([io.ReadCloser],
    [io.WriteCloser]); their methods are listed with the collaborator that
    hands them out. *)

Module Collab.

Import GoFmt GoTime.

(** [http.Response], as far as the services read it. *)
Record Response (B : Type) : Type := mkResponse {
  StatusCode : Z;
  Body : B;
}.
Arguments mkResponse {B} _ _.
Arguments StatusCode {B} _.
Arguments Body {B} _.

Record HTTPClient (W B : Type) : Type := {
  Get : string -> W -> (error + Response B) * W;
  ReadAll : B -> W -> (error + string) * W;
  BodyClose : B -> W -> W;
}.
Arguments Get {W B} _ _ _.
Arguments ReadAll {W B} _ _ _.
Arguments BodyClose {W B} _ _ _.

Record FileSystem (W F : Type) : Type := {
  Create : string -> W -> (error + F) * W;
  MkdirAll : string -> Z -> W -> option error * W;
  WriteString : F -> string -> W -> option error * W;
  FileClose : F -> W -> W;
}.
Arguments Create {W F} _ _ _.
Arguments MkdirAll {W F} _ _ _ _.
Arguments WriteString {W F} _ _ _ _.
Arguments FileClose {W F} _ _ _.

Record Sleeper (W : Type) : Type := {
  Sleep : Duration -> W -> W;
}.
Arguments Sleep {W} _ _ _.

Record Logger (W : Type) : Type := {
  Printf : string -> list (value error) -> W -> W;
}.
Arguments Printf {W} _ _ _ _.

(** One call across a collaborator interface, with what it returned. *)
Inductive Event (B F : Type) : Type :=
| EvGet (url : string) (r : error + Response B)
| EvReadAll (b : B) (r : error + string)
| EvBodyClose (b : B)
| EvSleep (d : Duration)
| EvPrintf (format : string) (args : list (value error))
| EvMkdirAll (path : string) (perm : Z) (r : option error)
| EvCreate (name : string) (r : error + F)
| EvWriteString (f : F) (content : string) (r : option error)
| EvFileClose (f : F)
| EvReadFile (name : string) (r : error + string)
| EvStat (name : string) (r : error + bool).
Arguments EvGet {B F} _ _.
Arguments EvReadAll {B F} _ _.
Arguments EvBodyClose {B F} _.
Arguments EvSleep {B F} _.
Arguments EvPrintf {B F} _ _.
Arguments EvMkdirAll {B F} _ _ _.
Arguments EvCreate {B F} _ _.
Arguments EvWriteString {B F} _ _ _.
Arguments EvFileClose {B F} _.
Arguments EvReadFile {B F} _ _.
Arguments EvStat {B F} _ _.

Section Monad.

Context {W B F : Type}.

(** A method of a service: it runs from a state of the collaborators
    and leaves a value, their next state and the calls it made, in
    order. *)
Definition M (A : Type) : Type := W -> A * W * list (Event B F).

Definition ret {A : Type} (a : A) : M A := fun w => (a, w, []).

Definition bind {A C : Type} (m : M A) (k : A -> M C) : M C :=
  fun w =>
    let '(a, w1, t1) := m w in
    let '(c, w2, t2) := k a w1 in
    (c, w2, (t1 ++ t2)%list).

Definition call_Get (c : HTTPClient W B) (url : string) : M (error + Response B) :=
  fun w => let '(r, w') := Get c url w in (r, w', [EvGet url r]).
Definition call_ReadAll (c : HTTPClient W B) (b : B) : M (error + string) :=
  fun w => let '(r, w') := ReadAll c b w in (r, w', [EvReadAll b r]).
Definition call_BodyClose (c : HTTPClient W B) (b : B) : M unit :=
  fun w => (tt, BodyClose c b w, [EvBodyClose b]).
Definition call_Sleep (sl : Sleeper W) (d : Duration) : M unit :=
  fun w => (tt, Sleep sl d w, [EvSleep d]).
Definition call_Printf (l : Logger W) (format : string) (args : list (value error))
  : M unit :=
  fun w => (tt, Printf l format args w, [EvPrintf format args]).
Definition call_MkdirAll (f : FileSystem W F) (path : string) (perm : Z)
  : M (option error) :=
  fun w => let '(r, w') := MkdirAll f path perm w in (r, w', [EvMkdirAll path perm r]).
Definition call_Create (f : FileSystem W F) (name : string) : M (error + F) :=
  fun w => let '(r, w') := Create f name w in (r, w', [EvCreate name r]).
Definition call_WriteString (f : FileSystem W F) (file : F) (content : string)
  : M (option error) :=
  fun w => let '(r, w') := WriteString f file content w in
           (r, w', [EvWriteString file content r]).
Definition call_FileClose (f : FileSystem W F) (file : F) : M unit :=
  fun w => (tt, FileClose f file w, [EvFileClose file]).

End Monad.

(** *** What a trace shows *)

Section Observers.

Context {B F : Type}.

Definition isGet (e : Event B F) : bool :=
  match e with EvGet _ _ => true | _ => false end.

(** The number of fetch attempts: the calls of [Get]. *)
Definition attempts (t : list (Event B F)) : nat := length (List.filter isGet t).

(** The durations slept, in order. *)
Definition sleeps (t : list (Event B F)) : list Duration :=
  flat_map (fun e => match e with EvSleep d => [d] | _ => [] end) t.

(** The fetch attempts and the sleeps, in the order they happened. *)
Inductive Tick : Type :=
| Attempt
| Pause (d : Duration).

Definition isAttempt (k : Tick) : bool :=
  match k with Attempt => true | Pause _ => false end.

Definition pauseOf (k : Tick) : list Duration :=
  match k with Attempt => [] | Pause d => [d] end.

Definition schedule (t : list (Event B F)) : list Tick :=
  flat_map (fun e => match e with
                     | EvGet _ _ => [Attempt]
                     | EvSleep d => [Pause d]
                     | _ => []
                     end) t.

(** The calls on the file system. *)
Definition isFileSystemCall (e : Event B F) : bool :=
  match e with
  | EvMkdirAll _ _ _ | EvCreate _ _ | EvWriteString _ _ _ | EvFileClose _
  | EvReadFile _ _ | EvStat _ _ => true
  | _ => false
  end.

Definition fileSystemCalls (t : list (Event B F)) : list (Event B F) :=
  List.filter isFileSystemCall t.

(** The lines logged, as format and arguments. *)
Definition logged (t : list (Event B F)) : list (string * list (value error)) :=
  flat_map (fun e => match e with EvPrintf f a => [(f, a)] | _ => [] end) t.

(** The URLs requested, in order. *)
Definition requested (t : list (Event B F)) : list string :=
  flat_map (fun e => match e with EvGet url _ => [url] | _ => [] end) t.

(** The bodies of the responses received, the bodies read and the
    bodies closed, in order. *)
Definition bodiesReceived (t : list (Event B F)) : list B :=
  flat_map (fun e => match e with EvGet _ (inr resp) => [Body resp] | _ => [] end) t.

Definition bodiesRead (t : list (Event B F)) : list B :=
  flat_map (fun e => match e with EvReadAll b _ => [b] | _ => [] end) t.

Definition bodiesClosed (t : list (Event B F)) : list B :=
  flat_map (fun e => match e with EvBodyClose b => [b] | _ => [] end) t.

(** The files that [Create] handed out, with their names, and the
    files closed, in order. *)
Definition filesOpened (t : list (Event B F)) : list (string * F) :=
  flat_map (fun e => match e with EvCreate name (inr f) => [(name, f)] | _ => [] end) t.

Definition filesClosed (t : list (Event B F)) : list F :=
  flat_map (fun e => match e with EvFileClose f => [f] | _ => [] end) t.

(** The writes that succeeded: the file and the content. *)
Definition written (t : list (Event B F)) : list (F * string) :=
  flat_map (fun e => match e with
                     | EvWriteString f content None => [(f, content)]
                     | _ => []
                     end) t.

(** The files that were created and then written with success: the
    name and the content. *)
Fixpoint stored (t : list (Event B F)) : list (string * string) :=
  match t with
  | [] => []
  | EvCreate name (inr _) :: rest =>
      match rest with
      | EvWriteString _ content None :: _ => (name, content) :: stored rest
      | _ => stored rest
      end
  | _ :: rest => stored rest
  end.

(** The directories that [MkdirAll] was asked for. *)
Definition dirsAsked (t : list (Event B F)) : list string :=
  flat_map (fun e => match e with EvMkdirAll path _ _ => [path] | _ => [] end) t.

(** The directories that [MkdirAll] made: the calls that succeeded. *)
Definition dirsMade (t : list (Event B F)) : list string :=
  flat_map (fun e => match e with EvMkdirAll path _ None => [path] | _ => [] end) t.

End Observers.

Arguments M : clear implicits.

Module Notations.
Notation "'do' x <- m ; k" := (bind m (fun x => k))
  (at level 10, x name, m at level 100, k at level 200).
Notation "m ;; k" := (bind m (fun _ => k))
  (at level 100, k at level 200, right associativity).
End Notations.

End Collab.

(** ** package scraper *)

Module Scraper.

Import GoFmt GoTime Collab Collab.Notations.

(** [md.Converter], used through [ConvertString] only. *)
Record Converter : Type := {
  ConvertString : string -> error + string;
}.

Record Config : Type := mkConfig {
  Timeout : Duration;
  MaxRetries : Z;
  Workers : Z;
}.

Record Service (W B F : Type) : Type := mkService {
  client : HTTPClient W B;
  converter : Converter;
  fs : FileSystem W F;
  sleeper : Sleeper W;
  logger : Logger W;
  config : Config;
}.
Arguments mkService {W B F} _ _ _ _ _ _.
Arguments client {W B F} _.
Arguments converter {W B F} _.
Arguments fs {W B F} _.
Arguments sleeper {W B F} _.
Arguments logger {W B F} _.
Arguments config {W B F} _.

Record Job : Type := mkJob {
  job_URL : string;
  job_Selector : string;
  job_Output : string;
}.

Record Result : Type := mkResult {
  URL : string;
  Success : bool;
  Error : option error;
  OutputPath : string;
}.

(** The packages the scraper imports and the repository does not hold:
    [net/url.Parse], and of goquery a document, [Find] (the matched nodes
    in document order, [Selection.Nodes]), the children of a node and
    [html.Render]. *)
Record Packages (Doc Node : Type) : Type := {
  url_Parse : string -> error + GoURL.URL;
  NewDocumentFromReader : string -> error + Doc;
  Find : Doc -> string -> list Node;
  children : Node -> list Node;
  html_Render : Node -> error + string;
}.
Arguments url_Parse {Doc Node} _ _.
Arguments NewDocumentFromReader {Doc Node} _ _.
Arguments Find {Doc Node} _ _ _.
Arguments children {Doc Node} _ _.
Arguments html_Render {Doc Node} _ _.

Section WithService.

Context {W B F Doc Node : Type}.
Variable pkg : Packages Doc Node.
Variable s : Service W B F.

Abbreviation M := (Collab.M W B F).

(** *** FetchWithRetries

    [for attempt := 0; attempt <= s.config.MaxRetries; attempt++].  The
    body runs for attempt 0, 1, ..., MaxRetries unless it returns; [n]
    counts the iterations that are left, [MaxRetries + 1] at the start,
    and the guard is the source's.  The counter stays below [2^63], so
    its increment does not wrap, for every [MaxRetries] but the largest
    [int]. *)
Definition backoffDuration (attempt : Z) : Duration :=
  GoInt.mul64 (GoInt.shl64 1 (GoInt.uint (attempt - 1))) Second.

Definition exhausted (lastErr : option error) : error :=
  Errorf "failed after %d retries: %w"
    [VInt (GoInt.add64 (MaxRetries (config s)) 1); VErr lastErr].

Fixpoint fetchLoop (url : string) (n : nat) (attempt : Z) (lastErr : option error)
  : M (error + Response B) :=
  match n with
  | O => ret (inl (exhausted lastErr))
  | S n' =>
      if attempt <=? MaxRetries (config s) then
        (if 0 <? attempt then
           call_Printf (logger s) "Retrying %s in %v (attempt %d/%d)"
             [VString url; VDuration (backoffDuration attempt);
              VInt (GoInt.add64 attempt 1);
              VInt (GoInt.add64 (MaxRetries (config s)) 1)] ;;
           call_Sleep (sleeper s) (backoffDuration attempt)
         else ret tt) ;;
        do r <- call_Get (client s) url ;
        match r with
        | inl err => fetchLoop url n' (attempt + 1) (Some err)
        | inr resp =>
            if (200 <=? StatusCode resp) && (StatusCode resp <? 300) then
              ret (inr resp)
            else if StatusCode resp =? 404 then
              call_BodyClose (client s) (Body resp) ;;
              ret (inl (Errorf "404 not found: %s" [VString url]))
            else
              call_BodyClose (client s) (Body resp) ;;
              fetchLoop url n' (attempt + 1)
                (Some (Errorf "HTTP %d: %s" [VInt (StatusCode resp); VString url]))
        end
      else ret (inl (exhausted lastErr))
  end.

Definition FetchWithRetries (url : string) : M (error + Response B) :=
  fetchLoop url (Z.to_nat (MaxRetries (config s) + 1)) 0 None.

(** *** ExtractContent

    [Selection.Length] and [Selection.Html] are goquery's: the number of
    matched nodes, and the rendering of the children of the first
    matched node (the empty text for an empty selection). *)
Fixpoint renderAll (ns : list Node) : error + string :=
  match ns with
  | [] => inr ""
  | c :: rest =>
      match html_Render pkg c with
      | inl e => inl e
      | inr r =>
          match renderAll rest with
          | inl e => inl e
          | inr t => inr (r +:+ t)
          end
      end
  end.

Definition Selection_Length (sel : list Node) : Z := Z.of_nat (length sel).

Definition Selection_Html (sel : list Node) : error + string :=
  match sel with
  | [] => inr ""
  | first :: _ => renderAll (children pkg first)
  end.

Definition ExtractContent (htmlContent selector : string) : error + string :=
  match NewDocumentFromReader pkg htmlContent with
  | inl err => inl (Errorf "failed to parse HTML: %w" [VError err])
  | inr doc =>
      let selection := Find pkg doc selector in
      if Selection_Length selection =? 0 then
        inl (Errorf "selector '%s' matched no elements" [VString selector])
      else
        match Selection_Html selection with
        | inl err => inl (Errorf "failed to extract HTML: %w" [VError err])
        | inr html =>
            match ConvertString (converter s) html with
            | inl err => inl (Errorf "failed to convert to markdown: %w" [VError err])
            | inr markdown => inr markdown
            end
        end
  end.

(** The markup that [ExtractContent] hands to the converter, when it
    gets that far. *)
Definition convertedMarkup (htmlContent selector : string) : option string :=
  match NewDocumentFromReader pkg htmlContent with
  | inl _ => None
  | inr doc =>
      match Find pkg doc selector with
      | [] => None
      | first :: _ =>
          match renderAll (children pkg first) with
          | inl _ => None
          | inr html => Some html
          end
      end
  end.

(** What [ExtractContent] makes of a first matched node. *)
Definition convertFirst (first : Node) : error + string :=
  match renderAll (children pkg first) with
  | inl err => inl (Errorf "failed to extract HTML: %w" [VError err])
  | inr html =>
      match ConvertString (converter s) html with
      | inl err => inl (Errorf "failed to convert to markdown: %w" [VError err])
      | inr markdown => inr markdown
      end
  end.

(** *** ScrapeURL *)
Definition ScrapeURL (rawURL selector : string) : M (error + string) :=
  call_Printf (logger s) "Scraping: %s" [VString rawURL] ;;
  do r <- FetchWithRetries rawURL ;
  match r with
  | inl err => ret (inl err)
  | inr resp =>
      do b <- call_ReadAll (client s) (Body resp) ;
      match b with
      | inl err =>
          call_BodyClose (client s) (Body resp) ;;
          ret (inl (Errorf "failed to read response body: %w" [VError err]))
      | inr htmlBytes =>
          let out := ExtractContent htmlBytes selector in
          call_BodyClose (client s) (Body resp) ;;
          ret out
      end
  end.

(** *** GetOutputPath *)
Definition outputPathOf (parsedPath baseDir : string) : string :=
  let urlPath := GoStrings.TrimPrefix parsedPath "/" in
  let urlPath := if String.eqb urlPath "" then "index" else urlPath in
  let urlPath := if negb (GoStrings.HasSuffix urlPath ".md")
                 then urlPath +:+ ".md" else urlPath in
  GoFilepath.Join [baseDir; urlPath].

Definition GetOutputPath (rawURL baseDir : string) : M (error + string) :=
  match url_Parse pkg rawURL with
  | inl err => ret (inl (Errorf "invalid URL %s: %w" [VString rawURL; VError err]))
  | inr parsedURL =>
      let outputPath := outputPathOf (GoURL.Path parsedURL) baseDir in
      let dir := GoFilepath.Dir outputPath in
      do e <- call_MkdirAll (fs s) dir 493 (* 0755 *) ;
      match e with
      | Some err =>
          ret (inl (Errorf "failed to create directory %s: %w" [VString dir; VError err]))
      | None => ret (inr outputPath)
      end
  end.

(** The resolver in the words of its contract: [name] is the decoded
    path without its leading separator, or [index] when nothing is
    left, with [.md] appended unless it ends in it already. *)
Definition stripLeadingSeparator (p : string) : string :=
  match p with
  | String c rest => if Ascii.eqb c "/" then rest else p
  | EmptyString => p
  end.

Definition resolvedName (decodedPath name : string) : Prop :=
  let stripped := stripLeadingSeparator decodedPath in
  let base := if String.eqb stripped "" then "index" else stripped in
  ((exists stem, base = stem +:+ ".md") /\ name = base)
  \/ ((forall stem, base <> stem +:+ ".md") /\ name = base +:+ ".md").

(** *** SaveMarkdown *)
Definition SaveMarkdown (content filePath : string) : M (option error) :=
  do r <- call_Create (fs s) filePath ;
  match r with
  | inl err =>
      ret (Some (Errorf "failed to create file %s: %w" [VString filePath; VError err]))
  | inr file =>
      do e <- call_WriteString (fs s) file content ;
      match e with
      | Some err =>
          call_FileClose (fs s) file ;;
          ret (Some (Errorf "failed to write to file %s: %w"
                       [VString filePath; VError err]))
      | None => call_FileClose (fs s) file ;; ret None
      end
  end.

(** *** scrapeSequential

    The body of the loop over [urls], from the counters before the item
    to the counters after it.  The counters never exceed [len(urls)], an
    [int], so their increments do not wrap. *)
Definition sequentialItem (selector output : string) (counts : Z * Z) (rawURL : string)
  : M (Z * Z) :=
  let '(successCount, errorCount) := counts in
  do r <- ScrapeURL rawURL selector ;
  match r with
  | inl err =>
      call_Printf (logger s) "Error scraping %s: %v" [VString rawURL; VError err] ;;
      ret (successCount, errorCount + 1)
  | inr markdown =>
      do p <- GetOutputPath rawURL output ;
      match p with
      | inl err =>
          call_Printf (logger s) "Error determining output path for %s: %v"
            [VString rawURL; VError err] ;;
          ret (successCount, errorCount + 1)
      | inr outputPath =>
          do e <- SaveMarkdown markdown outputPath ;
          match e with
          | Some err =>
              call_Printf (logger s) "Error saving %s: %v" [VString outputPath; VError err] ;;
              ret (successCount, errorCount + 1)
          | None =>
              call_Printf (logger s) "✓ Saved: %s" [VString outputPath] ;;
              ret (successCount + 1, errorCount)
          end
      end
  end.

Fixpoint sequentialLoop (selector output : string) (counts : Z * Z) (urls : list string)
  : M (Z * Z) :=
  match urls with
  | [] => ret counts
  | rawURL :: rest =>
      do counts' <- sequentialItem selector output counts rawURL ;
      sequentialLoop selector output counts' rest
  end.

Definition scrapeSequential (urls : list string) (selector output : string)
  : M (option error) :=
  do counts <- sequentialLoop selector output (0, 0) urls ;
  call_Printf (logger s) "Completed: %d successful, %d errors" [VInt counts.1; VInt counts.2] ;;
  ret None.

(** *** worker

    The body of [for job := range jobs]: the result sent for one job. *)
Definition processJob (job : Job) : M Result :=
  do r <- ScrapeURL (job_URL job) (job_Selector job) ;
  match r with
  | inl err => ret (mkResult (job_URL job) false (Some err) "")
  | inr markdown =>
      do p <- GetOutputPath (job_URL job) (job_Output job) ;
      match p with
      | inl err =>
          ret (mkResult (job_URL job) false
                 (Some (Errorf "error determining output path: %w" [VError err])) "")
      | inr outputPath =>
          do e <- SaveMarkdown markdown outputPath ;
          match e with
          | Some err =>
              ret (mkResult (job_URL job) false
                     (Some (Errorf "error saving file: %w" [VError err])) "")
          | None => ret (mkResult (job_URL job) true None outputPath)
          end
      end
  end.

(** *** scrapeConcurrent

    The goroutines of [scrapeConcurrent] as a transition system.  The
    main goroutine sends the jobs, closes [jobs], starts the goroutine
    that closes [results] once the wait group is at zero, and collects.
    Both channels have room for [len(urls)] elements, so no send blocks.
    A worker takes the job at the head of [jobs], runs [processJob] and
    sends the result; it leaves its loop when [jobs] is closed and
    empty.  The workers run the same code, so the state keeps their
    number (the wait group counter).  One job is one step: the calls of
    two workers are not interleaved inside a job. *)
Inductive MainPC : Type :=
| Sending
| Collecting
| Returned (err : option error).

Record Pool : Type := mkPool {
  pc : MainPC;
  unsent : list string;
  jobs : list Job;
  jobsClosed : bool;
  running : nat;
  results : list Result;
  resultsClosed : bool;
  successCount : Z;
  errorCount : Z;
  collected : list Result;
  world : W;
  trace : list (Event B F);
}.

Definition numWorkersOf (urls : list string) : Z :=
  if Z.of_nat (length urls) <? Workers (config s)
  then Z.of_nat (length urls) else Workers (config s).

(** The state after the workers are started. *)
Definition startPool (urls : list string) (w : W) : Pool :=
  let numWorkers := numWorkersOf urls in
  let '(_, w', t) :=
    call_Printf (logger s) "Starting %d workers to process %d URLs"
      [VInt numWorkers; VInt (Z.of_nat (length urls))] w in
  mkPool Sending urls [] false (Z.to_nat numWorkers) [] false 0 0 [] w' t.

Definition logResult (result : Result) : M unit :=
  if Success result then
    call_Printf (logger s) "✓ Saved: %s" [VString (OutputPath result)]
  else
    call_Printf (logger s) "Error scraping %s: %v" [VString (URL result); VErr (Error result)].

Inductive step (selector output : string) : Pool -> Pool -> Prop :=
| step_send rawURL rest js n rs rc sc ec col w t :
    step selector output
      (mkPool Sending (rawURL :: rest) js false n rs rc sc ec col w t)
      (mkPool Sending rest (js ++ [mkJob rawURL selector output])%list false
         n rs rc sc ec col w t)
| step_close js n rs rc sc ec col w t :
    step selector output
      (mkPool Sending [] js false n rs rc sc ec col w t)
      (mkPool Collecting [] js true n rs rc sc ec col w t)
| step_work p us job js jc n rs rc sc ec col w t result w' t' :
    processJob job w = (result, w', t') ->
    step selector output
      (mkPool p us (job :: js) jc (S n) rs rc sc ec col w t)
      (mkPool p us js jc (S n) (rs ++ [result])%list rc sc ec col w' (t ++ t')%list)
| step_done p us n rs rc sc ec col w t :
    step selector output
      (mkPool p us [] true (S n) rs rc sc ec col w t)
      (mkPool p us [] true n rs rc sc ec col w t)
| step_close_results us js jc rs sc ec col w t :
    step selector output
      (mkPool Collecting us js jc O rs false sc ec col w t)
      (mkPool Collecting us js jc O rs true sc ec col w t)
| step_collect us js jc n result rs rc sc ec col w t w' t' :
    logResult result w = (tt, w', t') ->
    step selector output
      (mkPool Collecting us js jc n (result :: rs) rc sc ec col w t)
      (mkPool Collecting us js jc n rs rc
         (if Success result then sc + 1 else sc)
         (if Success result then ec else ec + 1)
         (col ++ [result])%list w' (t ++ t')%list)
| step_return us js jc n sc ec col w t w' t' :
    call_Printf (logger s) "Completed: %d successful, %d errors" [VInt sc; VInt ec] w
    = (tt, w', t') ->
    step selector output
      (mkPool Collecting us js jc n [] true sc ec col w t)
      (mkPool (Returned None) us js jc n [] true sc ec col w' (t ++ t')%list).

(** One schedule among all: the main goroutine sends and closes first,
    then a worker takes the next job if there is one, and the main
    goroutine collects when no worker can move. *)
Definition nextStep (selector output : string) (p : Pool) : option Pool :=
  match p with
  | mkPool Sending (rawURL :: rest) js false n rs rc sc ec col w t =>
      Some (mkPool Sending rest (js ++ [mkJob rawURL selector output])%list false
              n rs rc sc ec col w t)
  | mkPool Sending [] js false n rs rc sc ec col w t =>
      Some (mkPool Collecting [] js true n rs rc sc ec col w t)
  | mkPool p0 us (job :: js) jc (S n) rs rc sc ec col w t =>
      let '(result, w', t') := processJob job w in
      Some (mkPool p0 us js jc (S n) (rs ++ [result])%list rc sc ec col w'
              (t ++ t')%list)
  | mkPool p0 us [] true (S n) rs rc sc ec col w t =>
      Some (mkPool p0 us [] true n rs rc sc ec col w t)
  | mkPool Collecting us js jc O rs false sc ec col w t =>
      Some (mkPool Collecting us js jc O rs true sc ec col w t)
  | mkPool Collecting us js jc n (result :: rs) rc sc ec col w t =>
      let '(_, w', t') := logResult result w in
      Some (mkPool Collecting us js jc n rs rc
              (if Success result then sc + 1 else sc)
              (if Success result then ec else ec + 1)
              (col ++ [result])%list w' (t ++ t')%list)
  | mkPool Collecting us js jc n [] true sc ec col w t =>
      let '(_, w', t') :=
        call_Printf (logger s) "Completed: %d successful, %d errors"
          [VInt sc; VInt ec] w in
      Some (mkPool (Returned None) us js jc n [] true sc ec col w' (t ++ t')%list)
  | _ => None
  end.

Fixpoint runPool (selector output : string) (fuel : nat) (p : Pool) : Pool :=
  match fuel with
  | O => p
  | S fuel' =>
      match nextStep selector output p with
      | Some p' => runPool selector output fuel' p'
      | None => p
      end
  end.

(** A run of [scrapeConcurrent] from [w]: an execution of the pool up to
    the return of the main goroutine, with what it returns, the state it
    leaves and the calls it made. *)
Definition scrapeConcurrent (urls : list string) (selector output : string) (w : W)
    (run : option error * W * list (Event B F)) : Prop :=
  exists p err,
    rtc (step selector output) (startPool urls w) p
    /\ pc p = Returned err
    /\ run = (err, world p, trace p).

(** *** ScrapeURLs *)
Inductive ScrapeURLs (urls : list string) (selector output : string) (w : W)
  : option error * W * list (Event B F) -> Prop :=
| run_sequential :
    Workers (config s) <= 1 ->
    ScrapeURLs urls selector output w (scrapeSequential urls selector output w)
| run_concurrent run :
    1 < Workers (config s) ->
    scrapeConcurrent urls selector output w run ->
    ScrapeURLs urls selector output w run.

End WithService.

Arguments Pool : clear implicits.




(** *** What the trace of a fetch shows *)

(** A fetch attempt fails transiently when the transport fails or the
    status is neither 2xx nor 404. *)
Definition transient {B : Type} (r : error + Response B) : bool :=
  match r with
  | inl _ => true
  | inr resp =>
      negb ((200 <=? StatusCode resp) && (StatusCode resp <? 300))
      && negb (StatusCode resp =? 404)
  end.

(** Every attempt of the trace failed transiently. *)
Definition allTransient {B F : Type} (t : list (Event B F)) : bool :=
  forallb (fun e => match e with EvGet _ r => transient r | _ => true end) t.

(** The failure that an attempt with a transient outcome stands for. *)
Definition recordedFailure {B : Type} (url : string) (r : error + Response B)
  : option error :=
  match r with
  | inl err => Some err
  | inr resp =>
      if transient r
      then Some (Errorf "HTTP %d: %s" [VInt (StatusCode resp); VString url])
      else None
  end.

(** The failure of the last attempt of a trace, or [init] when the trace
    has no attempt. *)
Definition lastFailureFrom {B F : Type} (init : option error) (t : list (Event B F))
  : option error :=
  foldl (fun acc e => match e with
                      | EvGet url r => recordedFailure url r
                      | _ => acc
                      end) init t.

Definition lastFailure {B F : Type} (t : list (Event B F)) : option error :=
  lastFailureFrom None t.

(** What precedes attempt [k] and the attempt itself: the sleep of
    [backoff k] when [k] is not the first. *)
Definition ticksOfAttempt (backoff : Z -> Duration) (k : Z) : list Tick :=
  ((if 0 <? k then [Pause (backoff k)] else []) ++ [Attempt])%list.

(** The run of [FetchWithRetries] from [w] makes [MaxRetries + 1]
    attempts, sleeps 1, 2, 4, ... seconds before the second and later
    attempts, and fails with the last failure wrapped. *)
Definition exhaustsRetries {W B F : Type} (s : Service W B F) (url : string) (w : W)
  : Prop :=
  let '(r, _, t) := FetchWithRetries s url w in
  let N := MaxRetries (config s) in
  attempts t = Z.to_nat (N + 1)
  /\ sleeps t = map (fun k => 2 ^ k * Second) (seqZ 0 N)
  /\ schedule t = Attempt :: flat_map (fun k => [Pause (2 ^ k * Second); Attempt]) (seqZ 0 N)
  /\ exists e, lastFailure t = Some e
             /\ r = inl (Errorf "failed after %d retries: %w" [VInt (N + 1); VError e]).

(** With two or more matches, no later match shows in what is converted:
    the markup handed to the converter does not hold the rendering of the
    second or of a later matched node. *)
Definition laterMatchesLeftOut {Doc Node : Type} (pkg : Packages Doc Node)
    (htmlContent selector : string) : Prop :=
  forall doc first second rest markup,
    NewDocumentFromReader pkg htmlContent = inr doc ->
    Find pkg doc selector = first :: second :: rest ->
    convertedMarkup pkg htmlContent selector = Some markup ->
    forall n r, In n (second :: rest) -> html_Render pkg n = inr r ->
                GoStrings.Contains markup r = false.

(** *** What the log of a batch shows *)

(** The identifiers whose processing was started, in order. *)
Definition scraped (lines : list (string * list (value error))) : list string :=
  flat_map (fun l => match l with
                     | (f, [VString u]) => if String.eqb f "Scraping: %s" then [u] else []
                     | _ => []
                     end) lines.

(** The per-item lines, in order: [true] for a saved item, [false] for a
    failed one. *)
Definition outcomeLine (l : string * list (value error)) : list bool :=
  if String.eqb l.1 "✓ Saved: %s" then [true]
  else if String.eqb l.1 "Error scraping %s: %v"
          || String.eqb l.1 "Error determining output path for %s: %v"
          || String.eqb l.1 "Error saving %s: %v" then [false]
  else [].

Definition outcomeLines (lines : list (string * list (value error))) : list bool :=
  flat_map outcomeLine lines.

(** The starts and the outcomes that the log shows, in the order of the
    lines: the identifier of a line that starts an item, the outcome of a
    per-item line. *)
Definition itemMarks (lines : list (string * list (value error))) : list (string + bool) :=
  flat_map (fun l => ((inl <$> scraped [l]) ++ (inr <$> outcomeLine l))%list) lines.

(** The paths that the log reports as saved, in order. *)
Definition savedPaths (lines : list (string * list (value error))) : list string :=
  flat_map (fun l => match l with
                     | (f, [VString p]) => if String.eqb f "✓ Saved: %s" then [p] else []
                     | _ => []
                     end) lines.

(** The marks of a list of items that are taken in turn, each with its
    outcome. *)
Definition inTurn (urls : list string) (bs : list bool) : list (string + bool) :=
  flat_map (fun ub => [inl ub.1; inr ub.2]) (zip urls bs).

(** [path] is the path that [GetOutputPath] resolves for [u] under the
    root [output]. *)
Definition resolvedFor {Doc Node : Type} (pkg : Packages Doc Node)
    (output u path : string) : Prop :=
  exists parsed,
    url_Parse pkg u = inr parsed /\ path = outputPathOf (GoURL.Path parsed) output.

Definition countTrue (l : list bool) : Z :=
  Z.of_nat (length (List.filter (fun b => b) l)).
Definition countFalse (l : list bool) : Z :=
  Z.of_nat (length (List.filter negb l)).

(** The counts of the summary line, when it is the last line. *)
Definition summary (lines : list (string * list (value error))) : option (Z * Z) :=
  match last lines with
  | Some (f, [VInt sc; VInt ec]) =>
      if String.eqb f "Completed: %d successful, %d errors" then Some (sc, ec) else None
  | _ => None
  end.

(** The log of a batch over [urls] accounts for every identifier: the
    processing of each identifier was started exactly once, there is one
    per-item line for each, and the last line is the summary, whose counts
    are the numbers of saved and failed items and add up to the number of
    identifiers. *)
Definition accountsForAll (urls : list string)
    (lines : list (string * list (value error))) : Prop :=
  Permutation (scraped lines) urls
  /\ length (outcomeLines lines) = length urls
  /\ exists sc ec : Z,
       summary lines = Some (sc, ec)
       /\ sc = countTrue (outcomeLines lines)
       /\ ec = countFalse (outcomeLines lines)
       /\ sc + ec = Z.of_nat (length urls).

End Scraper.

(** ** package scraper: the mocks of the tests

    The four mocks and the writers they hand out, as one collaborator state.
    A response set by [SetResponse] is one object, returned by every [Get]
    of its URL: its body reader is shared, and a body that was read is
    empty at the next read.  [MockLogger] keeps a message as its format and
    arguments ([fmt.Sprintf] is not spelled out). *)

Module ScraperMocks.

Import GoFmt GoTime Collab Scraper.

Record MockResponse : Type := mkMockResponse {
  mr_StatusCode : Z;
  mr_unread : string;
}.

Record MockHTTPClient : Type := mkMockHTTPClient {
  responses : gmap string MockResponse;
  errors : gmap string error;
  callCount : gmap string Z;
}.

Definition NewMockHTTPClient : MockHTTPClient := mkMockHTTPClient ∅ ∅ ∅.

Definition SetResponse (url : string) (statusCode : Z) (body : string)
    (m : MockHTTPClient) : MockHTTPClient :=
  mkMockHTTPClient (<[url := mkMockResponse statusCode body]> (responses m))
    (errors m) (callCount m).

Definition SetError (url : string) (err : error) (m : MockHTTPClient) : MockHTTPClient :=
  mkMockHTTPClient (responses m) (<[url := err]> (errors m)) (callCount m).

Definition GetCallCount (url : string) (m : MockHTTPClient) : Z :=
  default 0 (callCount m !! url).

Record MockFileWriter : Type := mkMockFileWriter {
  filename : string;
  buffer : string;
  closed : bool;
}.

Record MockFileSystem : Type := mkMockFileSystem {
  files : gmap string string;
  directories : gmap string bool;
  createError : option error;
  mkdirError : option error;
  createdFiles : list string;
  createdDirs : list string;
}.

Definition NewMockFileSystem : MockFileSystem := mkMockFileSystem ∅ ∅ None None [] [].

Definition SetCreateError (err : error) (m : MockFileSystem) : MockFileSystem :=
  mkMockFileSystem (files m) (directories m) (Some err) (mkdirError m)
    (createdFiles m) (createdDirs m).

Definition SetMkdirError (err : error) (m : MockFileSystem) : MockFileSystem :=
  mkMockFileSystem (files m) (directories m) (createError m) (Some err)
    (createdFiles m) (createdDirs m).

Record World : Type := mkWorld {
  mockClient : MockHTTPClient;
  mockFS : MockFileSystem;
  writers : list MockFileWriter;
  sleepDurations : list Duration;
  messages : list (string * list (value error));
}.

Definition NewWorld (c : MockHTTPClient) (f : MockFileSystem) : World :=
  mkWorld c f [] [] [].

(** [MockHTTPClient.Get]; the body of a response is named by its URL. *)
Definition mock_Get (url : string) (w : World) : (error + Response string) * World :=
  let m := mockClient w in
  let m' := mkMockHTTPClient (responses m) (errors m)
              (<[url := GetCallCount url m + 1]> (callCount m)) in
  let w' := mkWorld m' (mockFS w) (writers w) (sleepDurations w) (messages w) in
  match errors m !! url with
  | Some err => (inl err, w')
  | None =>
      match responses m !! url with
      | Some resp => (inr (mkResponse (mr_StatusCode resp) url), w')
      | None => (inl (Errorf "no mock response configured for %s" [VString url]), w')
      end
  end.

(** [io.ReadAll] on the [strings.Reader] of the response. *)
Definition mock_ReadAll (b : string) (w : World) : (error + string) * World :=
  let m := mockClient w in
  match responses m !! b with
  | Some resp =>
      (inr (mr_unread resp),
       mkWorld (mkMockHTTPClient
                  (<[b := mkMockResponse (mr_StatusCode resp) ""]> (responses m))
                  (errors m) (callCount m))
         (mockFS w) (writers w) (sleepDurations w) (messages w))
  | None => (inr "", w)
  end.

(** [io.NopCloser]. *)
Definition mock_BodyClose (b : string) (w : World) : World := w.

(** [MockFileSystem.Create]; the writer is named by its index. *)
Definition mock_Create (name : string) (w : World) : (error + nat) * World :=
  let m := mockFS w in
  match createError m with
  | Some err => (inl err, w)
  | None =>
      (inr (length (writers w)),
       mkWorld (mockClient w)
         (mkMockFileSystem (files m) (directories m) (createError m) (mkdirError m)
            (createdFiles m ++ [name])%list (createdDirs m))
         (writers w ++ [mkMockFileWriter name "" false])%list
         (sleepDurations w) (messages w))
  end.

Definition mock_MkdirAll (path : string) (perm : Z) (w : World) : option error * World :=
  let m := mockFS w in
  match mkdirError m with
  | Some err => (Some err, w)
  | None =>
      (None,
       mkWorld (mockClient w)
         (mkMockFileSystem (files m) (<[path := true]> (directories m))
            (createError m) (mkdirError m) (createdFiles m)
            (createdDirs m ++ [path])%list)
         (writers w) (sleepDurations w) (messages w))
  end.

(** [io.WriteString] on a [MockFileWriter]. *)
Definition mock_WriteString (f : nat) (content : string) (w : World)
  : option error * World :=
  match writers w !! f with
  | Some wr =>
      if closed wr then (Some (Errorf "write to closed file" []), w)
      else
        (None,
         mkWorld (mockClient w) (mockFS w)
           (<[f := mkMockFileWriter (filename wr) (buffer wr +:+ content) false]> (writers w))
           (sleepDurations w) (messages w))
  | None => (Some (Foreign "invalid writer"), w)
  end.

(** [MockFileWriter.Close]. *)
Definition mock_FileClose (f : nat) (w : World) : World :=
  match writers w !! f with
  | Some wr =>
      if closed wr then w
      else
        let m := mockFS w in
        mkWorld (mockClient w)
          (mkMockFileSystem (<[filename wr := buffer wr]> (files m)) (directories m)
             (createError m) (mkdirError m) (createdFiles m) (createdDirs m))
          (<[f := mkMockFileWriter (filename wr) (buffer wr) true]> (writers w))
          (sleepDurations w) (messages w)
  | None => w
  end.

Definition mock_Sleep (d : Duration) (w : World) : World :=
  mkWorld (mockClient w) (mockFS w) (writers w) (sleepDurations w ++ [d])%list (messages w).

Definition mock_Printf (format : string) (args : list (value error)) (w : World) : World :=
  mkWorld (mockClient w) (mockFS w) (writers w) (sleepDurations w)
    (messages w ++ [(format, args)])%list.

Definition mockHTTPClient : HTTPClient World string :=
  {| Get := mock_Get; ReadAll := mock_ReadAll; BodyClose := mock_BodyClose |}.
Definition mockFileSystem : FileSystem World nat :=
  {| Create := mock_Create; MkdirAll := mock_MkdirAll;
     WriteString := mock_WriteString; FileClose := mock_FileClose |}.
Definition mockSleeper : Sleeper World := {| Sleep := mock_Sleep |}.
Definition mockLogger : Logger World := {| Printf := mock_Printf |}.

(** [NewService(client, fs, sleeper, logger, config)] over the mocks;
    the converter is the one given. *)
Definition NewService (conv : Converter) (cfg : Config) : Service World string nat :=
  mkService mockHTTPClient conv mockFileSystem mockSleeper mockLogger cfg.

End ScraperMocks.

(** ** package encoding/xml: the errors of [Decoder.Decode]

    [Decode] into a struct whose [XMLName] is tagged [urlset] fails with
    "expected element type <urlset> but have <x>" when the root element is
    [x]; a document that is not well-formed fails with a syntax error, and
    an input without any element with [io.EOF]. *)

Module GoXML.

Inductive DecodeError : Type :=
| ExpectedElementType (want have : string)
| SyntaxError (line msg : string)
| OtherError (msg : string).

Definition Error (e : DecodeError) : string :=
  match e with
  | ExpectedElementType want have =>
      "expected element type <" +:+ want +:+ "> but have <" +:+ have +:+ ">"
  | SyntaxError line msg => "XML syntax error on line " +:+ line +:+ ": " +:+ msg
  | OtherError msg => msg
  end.

End GoXML.

(** ** package sitemap *)

Module Sitemap.

Import GoFmt Collab Collab.Notations.

Record URL : Type := mkURL {
  Loc : string;
}.

Record Sitemap : Type := mkSitemap {
  URLs : list URL;
}.

Record Service (W B : Type) : Type := mkService {
  client : HTTPClient W B;
  logger : Logger W;
}.
Arguments mkService {W B} _ _.
Arguments client {W B} _.
Arguments logger {W B} _.

Section WithService.

Context {W B : Type}.

(** [xml.NewDecoder] with [charset.NewReaderLabel], decoding into a
    [Sitemap]. *)
Variable xml_Decode : string -> GoXML.DecodeError + Sitemap.
Variable s : Service W B.

Abbreviation M := (Collab.M W B unit).

(** The state in which the sitemap is requested: after the first log
    line. *)
Definition announced (sitemapURL : string) (w : W) : W :=
  Printf (logger s) "Fetching sitemap: %s" [VString sitemapURL] w.

Definition FetchSitemap (sitemapURL : string) : M (error + Sitemap) :=
  call_Printf (logger s) "Fetching sitemap: %s" [VString sitemapURL] ;;
  do r <- call_Get (client s) sitemapURL ;
  match r with
  | inl err => ret (inl (Errorf "failed to fetch sitemap: %w" [VError err]))
  | inr resp =>
      if (StatusCode resp <? 200) || (300 <=? StatusCode resp) then
        call_BodyClose (client s) (Body resp) ;;
        ret (inl (Errorf "sitemap request failed with status %d"
                    [VInt (StatusCode resp)]))
      else
        do b <- call_ReadAll (client s) (Body resp) ;
        match b with
        | inl err =>
            call_BodyClose (client s) (Body resp) ;;
            ret (inl (Errorf "failed to read sitemap response: %w" [VError err]))
        | inr body =>
            match xml_Decode body with
            | inl err =>
                if GoStrings.Contains (GoXML.Error err) "expected element type" then
                  call_Printf (logger s)
                    "Warning: Document is not a sitemap format, found 0 URLs" [] ;;
                  call_BodyClose (client s) (Body resp) ;;
                  ret (inr (mkSitemap []))
                else
                  call_BodyClose (client s) (Body resp) ;;
                  ret (inl (Errorf "failed to parse sitemap XML: %w"
                              [VError (Foreign (GoXML.Error err))]))
            | inr sitemap =>
                call_Printf (logger s) "Found %d URLs in sitemap"
                  [VInt (Z.of_nat (length (URLs sitemap)))] ;;
                call_BodyClose (client s) (Body resp) ;;
                ret (inr sitemap)
            end
        end
  end.

Fixpoint filterLoop (urls : list URL) (pathFilter : string) (filteredURLs : list string)
  : list string :=
  match urls with
  | [] => filteredURLs
  | url :: rest =>
      if String.eqb pathFilter "" || GoStrings.Contains (Loc url) pathFilter
      then filterLoop rest pathFilter (filteredURLs ++ [Loc url])%list
      else filterLoop rest pathFilter filteredURLs
  end.

Definition FilterURLs (sitemap : Sitemap) (pathFilter : string) : M (list string) :=
  let filteredURLs := filterLoop (URLs sitemap) pathFilter [] in
  (if negb (String.eqb pathFilter "") then
     call_Printf (logger s) "Filtered to %d URLs matching path filter '%s'"
       [VInt (Z.of_nat (length filteredURLs)); VString pathFilter]
   else ret tt) ;;
  ret filteredURLs.

Definition GetURLsFromSitemap (sitemapURL pathFilter : string)
  : M (error + list string) :=
  do r <- FetchSitemap sitemapURL ;
  match r with
  | inl err => ret (inl err)
  | inr sitemap =>
      do urls <- FilterURLs sitemap pathFilter ;
      ret (inr urls)
  end.

End WithService.

(** The test of the loop of [FilterURLs]. *)
Definition kept (pathFilter : string) (url : URL) : bool :=
  String.eqb pathFilter "" || GoStrings.Contains (Loc url) pathFilter.

End Sitemap.

(** ** package server *)

Module Server.

Import GoFmt Collab Collab.Notations.

(** [Stat] returns the file information, whose one method is [IsExist],
    or an error; the handler reads the information only when there is no
    error. *)
Record FileSystem (W : Type) : Type := {
  ReadFile : string -> W -> (error + string) * W;
  Stat : string -> W -> (error + bool) * W;
}.
Arguments ReadFile {W} _ _ _.
Arguments Stat {W} _ _ _.

Record MarkdownHandler (W : Type) : Type := mkMarkdownHandler {
  baseDir : string;
  fs : FileSystem W;
  logger : Logger W;
}.
Arguments mkMarkdownHandler {W} _ _ _.
Arguments baseDir {W} _.
Arguments fs {W} _.
Arguments logger {W} _.

(** [http.Request], as far as the handler reads it. *)
Record Request : Type := mkRequest {
  Method : string;
  URL_Path : string;
}.

(** What the handler leaves in its [http.ResponseWriter]: the status, the
    headers it set and the body it wrote. *)
Record Reply : Type := mkReply {
  Code : Z;
  Header : list (string * string);
  Written : string;
}.

Definition StatusOK : Z := 200.
Definition StatusBadRequest : Z := 400.
Definition StatusNotFound : Z := 404.
Definition StatusMethodNotAllowed : Z := 405.
Definition StatusInternalServerError : Z := 500.

(** [http.Error]. *)
Definition http_Error (msg : string) (code : Z) : Reply :=
  mkReply code
    [("Content-Type", "text/plain; charset=utf-8"); ("X-Content-Type-Options", "nosniff")]
    (msg +:+ String (ascii_of_nat 10) "").

(** [http.NotFound]. *)
Definition http_NotFound : Reply := http_Error "404 page not found" StatusNotFound.

Section WithHandler.

Context {W : Type}.
Variable h : MarkdownHandler W.

Abbreviation M := (Collab.M W unit unit).

Definition call_ReadFile (name : string) : M (error + string) :=
  fun w => let '(r, w') := ReadFile (fs h) name w in (r, w', [EvReadFile name r]).
Definition call_Stat (name : string) : M (error + bool) :=
  fun w => let '(r, w') := Stat (fs h) name w in (r, w', [EvStat name r]).

(** The file a request path is mapped to. *)
Definition filePathOf (urlPath : string) : string :=
  let requestPath := GoStrings.TrimPrefix urlPath "/" in
  let requestPath := if String.eqb requestPath "" then "index.md" else requestPath in
  let requestPath := if negb (GoStrings.HasSuffix requestPath ".md")
                     then requestPath +:+ ".md" else requestPath in
  GoFilepath.Join [baseDir h; requestPath].

Definition ServeHTTP (r : Request) : M Reply :=
  if negb (String.eqb (Method r) "GET") then
    ret (http_Error "Method not allowed" StatusMethodNotAllowed)
  else
    let filePath := filePathOf (URL_Path r) in
    if negb (GoStrings.HasPrefix filePath (baseDir h)) then
      ret (http_Error "Invalid path" StatusBadRequest)
    else
      do st <- call_Stat filePath ;
      match st with
      | inr true =>
          do c <- call_ReadFile filePath ;
          match c with
          | inl err =>
              call_Printf (logger h) "Error reading file %s: %v"
                [VString filePath; VError err] ;;
              ret (http_Error "Internal server error" StatusInternalServerError)
          | inr content =>
              call_Printf (logger h) "Serving: %s" [VString filePath] ;;
              ret (mkReply StatusOK
                     [("Content-Type", "text/markdown; charset=utf-8");
                      ("Cache-Control", "public, max-age=3600")]
                     content)
          end
      | _ =>
          call_Printf (logger h) "File not found: %s" [VString filePath] ;;
          ret http_NotFound
      end.

End WithHandler.

(** A cleaned path is outside the cleaned directory [base] when it is
    neither [base] nor a path below it. *)
Definition escapesBase (base filePath : string) : bool :=
  negb (String.eqb filePath base
        || GoStrings.HasPrefix filePath
             (if GoStrings.HasSuffix base "/" then base else base +:+ "/")).

(** The handler rejects the request from [w] with a client error and
    without a call on the file system. *)
Definition rejects {W : Type} (h : MarkdownHandler W) (r : Request) (w : W) : Prop :=
  let '(reply, _, t) := ServeHTTP h r w in
  400 <= Code reply < 500 /\ fileSystemCalls t = [].

(** The headers of a file that is served. *)
Definition servedHeader : list (string * string) :=
  [("Content-Type", "text/markdown; charset=utf-8");
   ("Cache-Control", "public, max-age=3600")].

(** *** The mocks of the tests *)

Record MockFileSystem : Type := mkMockFileSystem {
  files : gmap string string;
  directories : gmap string bool;
  readError : option error;
  statError : option error;
}.

Definition NewMockFileSystem : MockFileSystem := mkMockFileSystem ∅ ∅ None None.

Definition SetFile (name content : string) (m : MockFileSystem) : MockFileSystem :=
  mkMockFileSystem (<[name := content]> (files m)) (directories m)
    (readError m) (statError m).

Definition SetReadError (err : error) (m : MockFileSystem) : MockFileSystem :=
  mkMockFileSystem (files m) (directories m) (Some err) (statError m).

Definition SetStatError (err : error) (m : MockFileSystem) : MockFileSystem :=
  mkMockFileSystem (files m) (directories m) (readError m) (Some err).

Record World : Type := mkWorld {
  mockFS : MockFileSystem;
  messages : list (string * list (value error));
}.

Definition mock_ReadFile (name : string) (w : World) : (error + string) * World :=
  match readError (mockFS w) with
  | Some err => (inl err, w)
  | None =>
      match files (mockFS w) !! name with
      | Some content => (inr content, w)
      | None => (inl (Errorf "file not found: %s" [VString name]), w)
      end
  end.

Definition mock_Stat (name : string) (w : World) : (error + bool) * World :=
  match statError (mockFS w) with
  | Some err => (inl err, w)
  | None =>
      match files (mockFS w) !! name with
      | Some _ => (inr true, w)
      | None =>
          match directories (mockFS w) !! name with
          | Some _ => (inr true, w)
          | None => (inr false, w)
          end
      end
  end.

Definition mock_Printf (format : string) (args : list (value error)) (w : World) : World :=
  mkWorld (mockFS w) (messages w ++ [(format, args)])%list.

Definition mockHandler (base : string) : MarkdownHandler World :=
  mkMarkdownHandler base
    {| ReadFile := mock_ReadFile; Stat := mock_Stat |}
    {| Printf := mock_Printf |}.

End Server.

(** ** package main *)

Module Main.

Import GoFmt GoTime Collab.

Section WithCollaborators.

Context {W B F Doc Node : Type}.
Variable pkg : Scraper.Packages Doc Node.
Variable client : HTTPClient W B.
Variable fs : FileSystem W F.
Variable sleeper : Sleeper W.
Variable logger : Logger W.

(** The converter that [scraper.NewService] makes. *)
Variable converter : Scraper.Converter.

(** [runScrapeCommand]: the runs of the batch under the configuration
    of the command line, where only the number of workers is the
    caller's. *)
Definition runScrapeCommand (urls : list string) (selector output : string)
    (workers : Z) (w : W) (run : option error * W * list (Event B F)) : Prop :=
  let config := Scraper.mkConfig (30 * Second) 3 workers in
  let service := Scraper.mkService client converter fs sleeper logger config in
  Scraper.ScrapeURLs pkg service urls selector output w run.

End WithCollaborators.

End Main.

(** ** A small instance of the imported packages

    Documents of elements without attributes and of text, read from
    well-nested markup; a selector is a tag name (a CSS type selector), and
    [Find] lists the matching elements below the root in document order, an
    element before the elements inside it, as goquery does.  [url_Parse] is
    [GoURL.Parse]. *)

Module MiniDOM.

Import GoFmt Scraper.

#[warnings="-register-all"] Inductive Node : Type :=
| Text (s : string)
| Element (tag : string) (kids : list Node).

Inductive Token : Type :=
| TOpen (tag : string)
| TClose (tag : string)
| TText (s : string).

Definition textToken (acc : string) : list Token :=
  if String.eqb acc "" then [] else [TText acc].

Definition tagToken (acc : string) : Token :=
  match acc with
  | String c name => if Ascii.eqb c "/" then TClose name else TOpen acc
  | EmptyString => TOpen acc
  end.

(** [inTag] says that the bytes read since the last [<] are a tag name;
    [acc] holds the bytes of the token being read. *)
Fixpoint tokenize (inTag : bool) (acc : string) (s : string) : list Token :=
  match s with
  | EmptyString => if inTag then [] else textToken acc
  | String c s' =>
      if inTag then
        if Ascii.eqb c ">" then tagToken acc :: tokenize false "" s'
        else tokenize true (acc +:+ String c "") s'
      else
        if Ascii.eqb c "<" then (textToken acc ++ tokenize true "" s')%list
        else tokenize false (acc +:+ String c "") s'
  end.

(** Closes the elements that are still open, innermost first. *)
Fixpoint closeAll (stack : list (string * list Node)) (cur : list Node) : list Node :=
  match stack with
  | [] => rev cur
  | (tag, parent) :: st => closeAll st (Element tag (rev cur) :: parent)
  end.

(** [cur] holds the children read so far of the innermost open element,
    last first; [stack] the open elements with the children read before
    them. *)
Fixpoint build (toks : list Token) (stack : list (string * list Node)) (cur : list Node)
  : list Node :=
  match toks with
  | [] => closeAll stack cur
  | TText t :: rest => build rest stack (Text t :: cur)
  | TOpen tag :: rest => build rest ((tag, cur) :: stack) []
  | TClose _ :: rest =>
      match stack with
      | (tag, parent) :: st => build rest st (Element tag (rev cur) :: parent)
      | [] => build rest [] cur
      end
  end.

Definition parseDocument (html : string) : Node :=
  Element "" (build (tokenize false "" html) [] []).

Fixpoint render (n : Node) : string :=
  match n with
  | Text t => t
  | Element tag kids =>
      "<" +:+ tag +:+ ">"
      +:+ (fix renderKids (l : list Node) : string :=
             match l with
             | [] => ""
             | k :: rest => render k +:+ renderKids rest
             end) kids
      +:+ "</" +:+ tag +:+ ">"
  end.

(** The matching nodes among [n] and what is inside it, [n] first. *)
Fixpoint matchAll (selector : string) (n : Node) : list Node :=
  match n with
  | Text _ => []
  | Element tag kids =>
      ((if String.eqb tag selector then [n] else [])
       ++ (fix matchKids (l : list Node) : list Node :=
             match l with
             | [] => []
             | k :: rest => matchAll selector k ++ matchKids rest
             end) kids)%list
  end.

Definition kidsOf (n : Node) : list Node :=
  match n with
  | Element _ kids => kids
  | Text _ => []
  end.

Definition findAll (doc : Node) (selector : string) : list Node :=
  flat_map (matchAll selector) (kidsOf doc).

Definition parseURL (rawURL : string) : error + GoURL.URL :=
  match GoURL.Parse rawURL with
  | inl _ => inl (Foreign "parse error")
  | inr u => inr u
  end.

Definition packages : Packages Node Node :=
  {| url_Parse := parseURL;
     NewDocumentFromReader := fun html => inr (parseDocument html);
     Find := findAll;
     children := kidsOf;
     html_Render := fun n => inr (render n) |}.

(** The text of the first [loc] element among [kids]. *)
Fixpoint locOf (kids : list Node) : string :=
  match kids with
  | Element tag [Text u] :: rest => if String.eqb tag "loc" then u else locOf rest
  | _ :: rest => locOf rest
  | [] => ""
  end.

Fixpoint urlsOf (kids : list Node) : list Sitemap.URL :=
  match kids with
  | Element tag inner :: rest =>
      if String.eqb tag "url" then Sitemap.mkURL (locOf inner) :: urlsOf rest
      else urlsOf rest
  | _ :: rest => urlsOf rest
  | [] => []
  end.

(** A decoder of sitemaps over these documents: the root element must be
    [urlset]. *)
Definition decodeSitemap (body : string) : GoXML.DecodeError + Sitemap.Sitemap :=
  match kidsOf (parseDocument body) with
  | Element tag kids :: _ =>
      if String.eqb tag "urlset" then inr (Sitemap.mkSitemap (urlsOf kids))
      else inl (GoXML.ExpectedElementType "urlset" tag)
  | _ => inl (GoXML.OtherError "EOF")
  end.

(** A converter that hands the markup back as it is. *)
Definition plainConverter : Converter := {| ConvertString := fun html => inr html |}.

End MiniDOM.

(** ** The set-ups of the tests, over the mocks *)

Module Fixtures.

Import GoFmt Collab Scraper ScraperMocks.

Definition configOf (maxRetries workers : Z) : Config :=
  mkConfig (30 * GoTime.Second) maxRetries workers.

Definition service (maxRetries workers : Z) : Service World string nat :=
  NewService MiniDOM.plainConverter (configOf maxRetries workers).

(** [client.SetError("https://example.com", fmt.Errorf("network error"))]. *)
Definition networkDown : World :=
  NewWorld (SetError "https://example.com" (Errorf "network error" []) NewMockHTTPClient)
    NewMockFileSystem.

(** [client.SetResponse("https://example.com", 404, "not found")]. *)
Definition notFound : World :=
  NewWorld (SetResponse "https://example.com" 404 "not found" NewMockHTTPClient)
    NewMockFileSystem.

(** [client.SetResponse("https://example.com", 500, "error")]. *)
Definition serverError : World :=
  NewWorld (SetResponse "https://example.com" 500 "error" NewMockHTTPClient)
    NewMockFileSystem.


Definition sitemapService : Sitemap.Service World string :=
  Sitemap.mkService mockHTTPClient mockLogger.

(** A sitemap with three locations. *)
Definition threeLocations : string :=
  "<urlset><url><loc>https://example.com/</loc></url>"
  +:+ "<url><loc>https://example.com/docs/</loc></url>"
  +:+ "<url><loc>https://example.com/docs/features</loc></url></urlset>".

Definition sitemapServed : World :=
  NewWorld (SetResponse "https://example.com/sitemap.xml" 200 threeLocations
              NewMockHTTPClient)
    NewMockFileSystem.

(** A file next to the served directory [/base]. *)
Definition siblingFile : Server.World :=
  Server.mkWorld (Server.SetFile "/base2/secret.md" "top secret" Server.NewMockFileSystem) [].

(** The pages of [TestScraperService_ConcurrentScraping]; the selector
    of the tests of this model is the tag [div]. *)
Definition fourPages : World :=
  NewWorld
    (SetResponse "https://example.com/1" 200 "<div><h1>Page 1</h1></div>"
       (SetResponse "https://example.com/2" 200 "<div><h1>Page 2</h1></div>"
          (SetResponse "https://example.com/3" 200 "<div><h1>Page 3</h1></div>"
             (SetResponse "https://example.com/4" 200 "<div><h1>Page 4</h1></div>"
                NewMockHTTPClient))))
    NewMockFileSystem.

Definition fourURLs : list string :=
  ["https://example.com/1"; "https://example.com/2";
   "https://example.com/3"; "https://example.com/4"].

Definition mixedPages : World :=
  NewWorld
    (SetResponse "https://example.com/good" 200 "<div><h1>Good</h1></div>"
       (SetResponse "https://example.com/bad" 500 "Server Error"
          (SetResponse "https://example.com/good2" 200 "<div><h1>Good 2</h1></div>"
             NewMockHTTPClient)))
    NewMockFileSystem.

Definition mixedURLs : list string :=
  ["https://example.com/good"; "https://example.com/bad"; "https://example.com/good2"].


(** A fresh mock client and file system. *)
Definition fresh : World := NewWorld NewMockHTTPClient NewMockFileSystem.

End Fixtures.

(** * Properties *)

(** ** Strings *)

Section StringFacts.

Lemma HasPrefix_app (p r : string) : GoStrings.HasPrefix (p +:+ r) p = true.
Proof.
  unfold GoStrings.HasPrefix.
  induction p as [|c p IH]; simpl.
  - destruct r; reflexivity.
  - destruct (ascii_dec c c) as [_|n]; [exact IH | contradiction].
Qed.



Lemma take_drop (n : nat) (t : string) : GoStrings.take n t +:+ GoStrings.drop n t = t.
Proof.
  revert t. induction n as [|n IH]; intros [|c t]; try reflexivity.
  change (String c (GoStrings.take n t +:+ GoStrings.drop n t) = String c t).
  f_equal. apply IH.
Qed.

Lemma length_append (a b : string) :
  String.length (a +:+ b) = (String.length a + String.length b)%nat.
Proof.
  induction a as [|c a IH]; [reflexivity|].
  change (S (String.length (a +:+ b)) = S (String.length a + String.length b)).
  f_equal. exact IH.
Qed.

Lemma drop_append (a b : string) : GoStrings.drop (String.length a) (a +:+ b) = b.
Proof. induction a as [|c a IH]; [reflexivity | exact IH]. Qed.

(** [HasSuffix] holds exactly of the texts that end in the suffix. *)
Lemma HasSuffix_spec (t sfx : string) :
  GoStrings.HasSuffix t sfx = true <-> exists stem, t = stem +:+ sfx.
Proof.
  unfold GoStrings.HasSuffix. rewrite andb_true_iff, Nat.leb_le, String.eqb_eq. split.
  - intros [_ H]. exists (GoStrings.take (String.length t - String.length sfx) t).
    pose proof (take_drop (String.length t - String.length sfx) t) as Htd.
    rewrite H in Htd. symmetry. exact Htd.
  - intros [stem ->]. rewrite length_append. split; [lia|].
    replace (String.length stem + String.length sfx - String.length sfx)%nat
      with (String.length stem) by lia.
    apply drop_append.
Qed.

Lemma TrimPrefix_slash (p : string) :
  GoStrings.TrimPrefix p "/" = Scraper.stripLeadingSeparator p.
Proof.
  destruct p as [|c p]; [reflexivity|].
  unfold GoStrings.TrimPrefix, GoStrings.HasPrefix, Scraper.stripLeadingSeparator.
  cbn [String.prefix].
  destruct (ascii_dec "/" c) as [<-|n].
  - replace (String.prefix "" p) with true by (destruct p; reflexivity). reflexivity.
  - destruct (Ascii.eqb_spec c "/") as [->|_]; [contradiction | reflexivity].
Qed.

End StringFacts.

(** ** Machine integers *)

Section IntFacts.

Import GoInt.

Lemma wrap64_small (z : Z) : - 2 ^ 63 <= z < 2 ^ 63 -> wrap64 z = z.
Proof. intros H. unfold wrap64. rewrite Z.mod_small; lia. Qed.

Lemma pow2_le_33 (k : Z) : 0 <= k <= 33 -> 0 < 2 ^ k <= 2 ^ 33.
Proof.
  intros H. split.
  - apply Z.pow_pos_nonneg; lia.
  - apply Z.pow_le_mono_r; lia.
Qed.

End IntFacts.

Module FetchProofs.

Import GoFmt GoTime GoInt Collab Collab.Notations Scraper.

Section WithService.

Context {W B F : Type}.
Variable s : Service W B F.

(** The backoff before attempt [k] is [2^(k-1)] seconds as long as that
    fits 63 bits of nanoseconds. *)
Lemma backoffDuration_seconds (k : Z) :
  1 <= k <= 34 -> backoffDuration k = 2 ^ (k - 1) * Second.
Proof.
  intros H. unfold backoffDuration, mul64, shl64, uint.
  rewrite (Z.mod_small (k - 1)) by lia.
  rewrite Z.shiftl_1_l.
  pose proof (pow2_le_33 (k - 1) ltac:(lia)) as P.
  rewrite (wrap64_small (2 ^ (k - 1))) by lia.
  apply wrap64_small. unfold Second. lia.
Qed.

(** A 404 at the first attempt ends the fetch at once. *)
Lemma fetch_first_404 (url : string) (w w1 : W) (resp : Response B) :
  0 <= MaxRetries (config s) ->
  Get (client s) url w = (inr resp, w1) ->
  StatusCode resp = 404 ->
  FetchWithRetries s url w
  = (inl (Errorf "404 not found: %s" [VString url]),
     BodyClose (client s) (Body resp) w1,
     [EvGet url (inr resp); EvBodyClose (Body resp)]).
Proof.
  intros HN HG H404. unfold FetchWithRetries.
  replace (Z.to_nat (MaxRetries (config s) + 1))
    with (S (Z.to_nat (MaxRetries (config s)))) by lia.
  cbn [fetchLoop].
  destruct (Z.leb_spec 0 (MaxRetries (config s))); [|lia].
  change (0 <? 0) with false. cbn iota.
  unfold bind, ret, call_Get, call_BodyClose. rewrite HG, H404. reflexivity.
Qed.

Lemma lastFailureFrom_app (init : option error) (t1 t2 : list (Event B F)) :
  lastFailureFrom init (t1 ++ t2) = lastFailureFrom (lastFailureFrom init t1) t2.
Proof. unfold lastFailureFrom. apply foldl_app. Qed.

Lemma schedule_app (t1 t2 : list (Event B F)) :
  schedule (t1 ++ t2) = (schedule t1 ++ schedule t2)%list.
Proof. unfold schedule. apply flat_map_app. Qed.

Lemma allTransient_app (t1 t2 : list (Event B F)) :
  allTransient (t1 ++ t2) = allTransient t1 && allTransient t2.
Proof. unfold allTransient. apply forallb_app. Qed.

(** The loop in a run where every attempt fails transiently: it runs
    all the iterations that are left and reports the last failure. *)
Lemma fetchLoop_transient (url : string) :
  forall (n : nat) (a : Z) (lastErr : option error) (w : W),
    a + Z.of_nat n = MaxRetries (config s) + 1 ->
    forall r w' t,
      fetchLoop s url n a lastErr w = (r, w', t) ->
      allTransient t = true ->
      r = inl (exhausted s (lastFailureFrom lastErr t))
      /\ schedule t = flat_map (ticksOfAttempt backoffDuration) (seqZ a (Z.of_nat n))
      /\ (n <> O -> is_Some (lastFailureFrom lastErr t)).
Proof.
  induction n as [|n IH]; intros a lastErr w Ha r w' t E Ht.
  - injection E as <- _ <-. repeat split. congruence.
  - cbn [fetchLoop] in E.
    destruct (Z.leb_spec a (MaxRetries (config s))); [|lia].
    rewrite seqZ_cons by lia. cbn [flat_map].
    replace (Z.pred (Z.of_nat (S n))) with (Z.of_nat n) by lia.
    unfold bind at 1 in E.
    destruct ((if 0 <? a
               then bind (call_Printf (logger s) _ _) (fun _ => call_Sleep (sleeper s) _)
               else ret tt) w) as [[u w0] t0] eqn:Epre.
    assert (Hpre : schedule t0 = (if 0 <? a then [Pause (backoffDuration a)] else [])
                   /\ forall init, lastFailureFrom init t0 = init).
    { destruct (0 <? a); unfold bind, call_Printf, call_Sleep, ret in Epre;
        injection Epre as _ _ <-; split; reflexivity || (intros; reflexivity). }
    destruct Hpre as [Hs0 Hl0].
    unfold bind at 1 in E. unfold call_Get at 1 in E.
    destruct (Get (client s) url w0) as [g w1] eqn:EG.
    replace (a + 1) with (Z.succ a) in E by lia.
    destruct g as [err|resp].
    + destruct (fetchLoop s url n (Z.succ a) (Some err) w1) as [[r1 w2] t1] eqn:E1.
      injection E as <- _ <-.
      rewrite !allTransient_app in Ht. apply andb_true_iff in Ht as [_ Ht].
      apply andb_true_iff in Ht as [_ Ht].
      destruct (IH (Z.succ a) (Some err) w1 ltac:(lia) _ _ _ E1 Ht) as (Hr & Hs & Hn).
      change (EvGet url (inl err) :: t1) with ([EvGet url (inl err)] ++ t1)%list.
      rewrite !lastFailureFrom_app, Hl0, !schedule_app, Hs0, Hs.
      cbn [lastFailureFrom foldl recordedFailure] in *. repeat split.
      * exact Hr.
      * unfold ticksOfAttempt. rewrite <- app_assoc. reflexivity.
      * intros _. destruct n; [cbn in E1; injection E1 as _ _ <-; cbn; eauto|].
        apply Hn. congruence.
    + destruct ((200 <=? StatusCode resp) && (StatusCode resp <? 300)) eqn:H2.
      { injection E as _ _ <-.
        rewrite !allTransient_app in Ht. apply andb_true_iff in Ht as [_ Ht].
        cbn in Ht. rewrite H2 in Ht. discriminate. }
      destruct (StatusCode resp =? 404) eqn:H4.
      { unfold bind, call_BodyClose, ret in E. injection E as _ _ <-.
        rewrite !allTransient_app in Ht. apply andb_true_iff in Ht as [_ Ht].
        cbn in Ht. rewrite H2, H4 in Ht. discriminate. }
      unfold bind at 1 in E. unfold call_BodyClose at 1 in E.
      set (lastErr' := Some (Errorf "HTTP %d: %s" [VInt (StatusCode resp); VString url]))
        in *.
      destruct (fetchLoop s url n (Z.succ a) lastErr' (BodyClose (client s) (Body resp) w1))
        as [[r1 w2] t1] eqn:E1.
      injection E as <- _ <-.
      rewrite !allTransient_app in Ht. apply andb_true_iff in Ht as [_ Ht].
      apply andb_true_iff in Ht as [_ Ht]. apply andb_true_iff in Ht as [_ Ht].
      destruct (IH (Z.succ a) lastErr' (BodyClose (client s) (Body resp) w1) ltac:(lia)
                  _ _ _ E1 Ht) as (Hr & Hs & Hn).
      change (EvGet url (inr resp) :: EvBodyClose (Body resp) :: t1)
        with ([EvGet url (inr resp)] ++ [EvBodyClose (Body resp)] ++ t1)%list.
      rewrite !lastFailureFrom_app, Hl0, !schedule_app, Hs0, Hs.
      assert (Hrec : recordedFailure url (inr resp) = lastErr').
      { cbn [recordedFailure transient]. rewrite H2, H4. reflexivity. }
      cbn [lastFailureFrom foldl]. rewrite Hrec.
      repeat split.
      * exact Hr.
      * unfold ticksOfAttempt. rewrite <- app_assoc. reflexivity.
      * intros _. destruct n; [cbn in E1; injection E1 as _ _ <-; cbn; eauto|].
        apply Hn. congruence.
Qed.

Lemma attempts_schedule (t : list (Event B F)) :
  attempts t
  = length (List.filter isAttempt
              (schedule t)).
Proof.
  unfold attempts, schedule.
  induction t as [|e t IH]; [reflexivity|].
  destruct e; cbn; try rewrite IH; try reflexivity; exact IH.
Qed.

Lemma sleeps_schedule (t : list (Event B F)) :
  sleeps t
  = flat_map pauseOf (schedule t).
Proof.
  unfold sleeps, schedule.
  induction t as [|e t IH]; [reflexivity|].
  destruct e; cbn; try rewrite IH; try reflexivity; exact IH.
Qed.

(** The ticks of attempts 1 to [n], with the backoffs in seconds. *)
Lemma ticks_in_seconds (n : Z) :
  n <= 34 ->
  flat_map (ticksOfAttempt backoffDuration) (seqZ 1 n)
  = flat_map (fun k => [Pause (2 ^ k * Second); Attempt]) (seqZ 0 n).
Proof.
  intros Hn.
  replace (seqZ 1 n) with (Z.add 1 <$> seqZ 0 n) by apply (fmap_add_seqZ 1 0 n).
  assert (H : Forall (fun k => 0 <= k < 34) (seqZ 0 n))
    by (apply Forall_seqZ; lia).
  induction H as [|k l Hk _ IH]; [reflexivity|].
  cbn [fmap list_fmap flat_map]. change (list_fmap _ _ ?f ?l) with (f <$> l).
  rewrite IH. unfold ticksOfAttempt at 1.
  destruct (Z.ltb_spec 0 (1 + k)); [|lia].
  rewrite backoffDuration_seconds by lia.
  replace (1 + k - 1) with k by lia. reflexivity.
Qed.

End WithService.

(** C2, as amended.  For [0 <= MaxRetries <= 34], in a run where every
    attempt fails transiently, [FetchWithRetries] makes [MaxRetries + 1] attempts,
    sleeps [2^0, ..., 2^(MaxRetries-1)] seconds, each sleep before the
    attempt it announces and none before the first, and fails with the
    exhausted-retries error that wraps the failure of the last attempt. *)
Theorem retries_exhausted_with_doubling_backoff
    {W B F : Type} (s : Service W B F) (url : string) (w : W) :
  0 <= MaxRetries (config s) <= 34 ->
  allTransient (FetchWithRetries s url w).2 = true ->
  exhaustsRetries s url w.
Proof.
  intros HN Htr. unfold exhaustsRetries. unfold FetchWithRetries in *.
  destruct (fetchLoop s url (Z.to_nat (MaxRetries (config s) + 1)) 0 None w)
    as [[r w'] t] eqn:E. cbn [snd] in Htr.
  destruct (fetchLoop_transient s url (Z.to_nat (MaxRetries (config s) + 1)) 0 None w
              ltac:(lia) _ _ _ E Htr) as (Hr & Hs & Hl).
  rewrite Z2Nat.id in Hs by lia.
  rewrite seqZ_cons in Hs by lia. cbn [flat_map] in Hs.
  replace (Z.pred (MaxRetries (config s) + 1)) with (MaxRetries (config s)) in Hs by lia.
  change (Z.succ 0) with 1 in Hs.
  rewrite ticks_in_seconds in Hs by lia.
  change (ticksOfAttempt backoffDuration 0) with [Attempt] in Hs.
  cbn [app] in Hs.
  assert (Hlen : forall l : list Z,
             length (List.filter isAttempt
                       (flat_map (fun k => [Pause (2 ^ k * Second); Attempt]) l))
             = length l
             /\ flat_map pauseOf
                  (flat_map (fun k => [Pause (2 ^ k * Second); Attempt]) l)
                = map (fun k => 2 ^ k * Second) l).
  { induction l as [|k l [IH1 IH2]]; [split; reflexivity|].
    cbn. rewrite IH2. split; [f_equal; exact IH1 | reflexivity]. }
  destruct (Hlen (seqZ 0 (MaxRetries (config s)))) as [Hl1 Hl2].
  repeat split.
  - rewrite attempts_schedule, Hs. cbn [filter length]. cbn. rewrite Hl1, length_seqZ. lia.
  - rewrite sleeps_schedule, Hs. cbn [flat_map app]. exact Hl2.
  - exact Hs.
  - destruct Hl as [e He]; [lia|]. exists e. split; [exact He|].
    rewrite Hr. unfold exhausted. rewrite He. unfold add64.
    rewrite wrap64_small by lia. reflexivity.
Qed.

(** C3.  For every [MaxRetries >= 0], a 404 at the first attempt makes
    [FetchWithRetries] fail at once with the not-found error: one attempt,
    no sleep. *)
Theorem not_found_fails_without_retry
    {W B F : Type} (s : Service W B F) (url : string) (w w1 : W) (resp : Response B) :
  0 <= MaxRetries (config s) ->
  Get (client s) url w = (inr resp, w1) ->
  StatusCode resp = 404 ->
  exists w' t,
    FetchWithRetries s url w = (inl (Errorf "404 not found: %s" [VString url]), w', t)
    /\ attempts t = 1%nat
    /\ sleeps t = [].
Proof.
  intros HN HG H404.
  rewrite (fetch_first_404 s url w w1 resp HN HG H404).
  eexists _, _. split; [reflexivity|]. split; reflexivity.
Qed.

Lemma retries_exhausted_witness :
  0 <= MaxRetries (config (Fixtures.service 3 1)) <= 34
  /\ allTransient (FetchWithRetries (Fixtures.service 3 1) "https://example.com"
                     Fixtures.networkDown).2 = true
  /\ exhaustsRetries (Fixtures.service 3 1) "https://example.com" Fixtures.networkDown.
Proof.
  split; [cbn; lia|]. split; [vm_compute; reflexivity|].
  apply retries_exhausted_with_doubling_backoff; [cbn; lia | vm_compute; reflexivity].
Defined.

(** C2 as stated, for every [MaxRetries >= 0], fails: with 35 retries the
    last backoff, [2^34] seconds, does not fit 63 bits of nanoseconds and
    the duration slept is negative. *)
Lemma backoff_wraps_at_35_retries :
  ~ (forall (W B F : Type) (s : Service W B F) (url : string) (w : W),
        0 <= MaxRetries (config s) ->
        allTransient (FetchWithRetries s url w).2 = true ->
        exhaustsRetries s url w).
Proof.
  intros H.
  specialize (H _ _ _ (Fixtures.service 35 1) "https://example.com" Fixtures.serverError).
  assert (H0 : 0 <= MaxRetries (config (Fixtures.service 35 1))) by (cbn; lia).
  assert (H1 : allTransient (FetchWithRetries (Fixtures.service 35 1) "https://example.com"
                               Fixtures.serverError).2 = true)
    by (vm_compute; reflexivity).
  specialize (H H0 H1). unfold exhaustsRetries in H.
  destruct (FetchWithRetries (Fixtures.service 35 1) "https://example.com"
              Fixtures.serverError) as [[r w'] t] eqn:E.
  destruct H as (_ & Hsl & _).
  apply (f_equal (fun p => p.2)) in E. cbn [snd] in E. subst t.
  apply (f_equal (fun l => nth 34 l 0)) in Hsl.
  vm_compute in Hsl. discriminate Hsl.
Qed.

Example backoff_at_35_retries :
  last (sleeps (FetchWithRetries (Fixtures.service 35 1) "https://example.com"
                  Fixtures.serverError).2)
  = Some (-1266874889709551616).
Proof. vm_compute. reflexivity. Qed.

Lemma not_found_witness :
  0 <= MaxRetries (config (Fixtures.service 3 1))
  /\ exists w' t,
       FetchWithRetries (Fixtures.service 3 1) "https://example.com" Fixtures.notFound
       = (inl (Errorf "404 not found: %s" [VString "https://example.com"]), w', t)
       /\ attempts t = 1%nat
       /\ sleeps t = [].
Proof.
  split; [cbn; lia|].
  eapply not_found_fails_without_retry; [cbn; lia | vm_compute; reflexivity | reflexivity].
Defined.

End FetchProofs.

(** ** Running a method step by step *)

Section RunFacts.

Import GoFmt GoTime Collab.

Context {W B F : Type}.

Lemma bind_inv {A C : Type} (m : M W B F A) (k : A -> M W B F C) (w : W)
    (c : C) (w2 : W) (t : list (Event B F)) :
  bind m k w = (c, w2, t) ->
  exists a w1 t1 t2, m w = (a, w1, t1) /\ k a w1 = (c, w2, t2) /\ t = (t1 ++ t2)%list.
Proof.
  unfold bind. destruct (m w) as [[a w1] t1]. destruct (k a w1) as [[c' w2'] t2] eqn:Ek.
  intros [= <- <- <-]. exists a, w1, t1, t2. auto.
Qed.

Lemma ret_inv {A : Type} (a c : A) (w w' : W) (t : list (Event B F)) :
  ret a w = (c, w', t) -> c = a /\ w' = w /\ t = [].
Proof. intros [= <- <- <-]. auto. Qed.

Lemma call_Printf_inv (l : Logger W) (f : string) (a : list (value error))
    (w w' : W) (u : unit) (t : list (Event B F)) :
  call_Printf l f a w = (u, w', t) -> w' = Printf l f a w /\ t = [EvPrintf f a].
Proof. intros [= <- <-]. auto. Qed.

Lemma call_BodyClose_inv (c : HTTPClient W B) (b : B) (w w' : W) (u : unit)
    (t : list (Event B F)) :
  call_BodyClose c b w = (u, w', t) -> w' = BodyClose c b w /\ t = [EvBodyClose b].
Proof. intros [= <- <-]. auto. Qed.

Lemma call_ReadAll_inv (c : HTTPClient W B) (b : B) (w w' : W) (r : error + string)
    (t : list (Event B F)) :
  call_ReadAll c b w = (r, w', t) -> ReadAll c b w = (r, w') /\ t = [EvReadAll b r].
Proof.
  unfold call_ReadAll. destruct (ReadAll c b w) as [r0 w0]. intros [= <- <- <-]. auto.
Qed.

Lemma call_MkdirAll_inv (f : FileSystem W F) (path : string) (perm : Z) (w w' : W)
    (r : option error) (t : list (Event B F)) :
  call_MkdirAll f path perm w = (r, w', t) ->
  MkdirAll f path perm w = (r, w') /\ t = [EvMkdirAll path perm r].
Proof.
  unfold call_MkdirAll. destruct (MkdirAll f path perm w) as [r0 w0].
  intros [= <- <- <-]. auto.
Qed.

Lemma call_Create_inv (f : FileSystem W F) (name : string) (w w' : W)
    (r : error + F) (t : list (Event B F)) :
  call_Create f name w = (r, w', t) -> Create f name w = (r, w') /\ t = [EvCreate name r].
Proof.
  unfold call_Create. destruct (Create f name w) as [r0 w0]. intros [= <- <- <-]. auto.
Qed.

Lemma call_WriteString_inv (f : FileSystem W F) (file : F) (content : string) (w w' : W)
    (r : option error) (t : list (Event B F)) :
  call_WriteString f file content w = (r, w', t) ->
  WriteString f file content w = (r, w') /\ t = [EvWriteString file content r].
Proof.
  unfold call_WriteString. destruct (WriteString f file content w) as [r0 w0].
  intros [= <- <- <-]. auto.
Qed.

Lemma call_FileClose_inv (f : FileSystem W F) (file : F) (w w' : W) (u : unit)
    (t : list (Event B F)) :
  call_FileClose f file w = (u, w', t) -> w' = FileClose f file w /\ t = [EvFileClose file].
Proof. intros [= <- <-]. auto. Qed.

Lemma call_Sleep_inv (sl : Sleeper W) (d : Duration) (w w' : W) (u : unit)
    (t : list (Event B F)) :
  call_Sleep sl d w = (u, w', t) -> w' = Sleep sl d w /\ t = [EvSleep d].
Proof. intros [= <- <-]. auto. Qed.

Lemma call_Get_inv (c : HTTPClient W B) (url : string) (w w' : W)
    (r : error + Response B) (t : list (Event B F)) :
  call_Get c url w = (r, w', t) -> Get c url w = (r, w') /\ t = [EvGet url r].
Proof.
  unfold call_Get. destruct (Get c url w) as [r0 w0]. intros [= <- <- <-]. auto.
Qed.

End RunFacts.

(** Takes the run [E] apart, one call at a time. *)
Ltac run_inv E :=
  repeat match type of E with
    | Collab.bind _ _ _ = _ =>
        let E1 := fresh "E" in
        apply bind_inv in E as (? & ? & ? & ? & E1 & E & ->);
        first [ apply call_Printf_inv in E1 as [-> ->]
              | apply call_BodyClose_inv in E1 as [-> ->]
              | apply call_FileClose_inv in E1 as [-> ->]
              | apply call_ReadAll_inv in E1 as [E1 ->]
              | apply call_MkdirAll_inv in E1 as [E1 ->]
              | apply call_Create_inv in E1 as [E1 ->]
              | apply call_WriteString_inv in E1 as [E1 ->]
              | idtac ]
    | Collab.ret _ _ = _ => apply ret_inv in E as (-> & -> & ->)
    | Collab.call_Printf _ _ _ _ = _ => apply call_Printf_inv in E as [-> ->]
    | Collab.call_Sleep _ _ _ = _ => apply call_Sleep_inv in E as [-> ->]
    | Collab.call_BodyClose _ _ _ = _ => apply call_BodyClose_inv in E as [-> ->]
    | Collab.call_FileClose _ _ _ = _ => apply call_FileClose_inv in E as [-> ->]
    end.

Module BatchProofs.

Import GoFmt GoTime Collab Collab.Notations Scraper.

Section Traces.

Context {B F : Type}.

(** The identifiers whose processing a trace starts, and its per-item
    lines. *)
Definition started (t : list (Event B F)) : list string := scraped (logged t).
Definition outcomes (t : list (Event B F)) : list bool := outcomeLines (logged t).

Lemma logged_app (t1 t2 : list (Event B F)) :
  logged (t1 ++ t2) = (logged t1 ++ logged t2)%list.
Proof. unfold logged. apply flat_map_app. Qed.

Lemma scraped_app (l1 l2 : list (string * list (value error))) :
  scraped (l1 ++ l2) = (scraped l1 ++ scraped l2)%list.
Proof. unfold scraped. apply flat_map_app. Qed.


Lemma started_app (t1 t2 : list (Event B F)) :
  started (t1 ++ t2) = (started t1 ++ started t2)%list.
Proof. unfold started, scraped. rewrite logged_app. apply flat_map_app. Qed.

Lemma outcomes_app (t1 t2 : list (Event B F)) :
  outcomes (t1 ++ t2) = (outcomes t1 ++ outcomes t2)%list.
Proof. unfold outcomes, outcomeLines. rewrite logged_app. apply flat_map_app. Qed.

Lemma fileSystemCalls_app (t1 t2 : list (Event B F)) :
  fileSystemCalls (t1 ++ t2) = (fileSystemCalls t1 ++ fileSystemCalls t2)%list.
Proof. unfold fileSystemCalls. apply List.filter_app. Qed.

(** A trace that starts no processing, has no per-item line and no call
    on the file system. *)
Definition silent (t : list (Event B F)) : Prop :=
  started t = [] /\ outcomes t = [] /\ fileSystemCalls t = [].

Lemma silent_nil : silent [].
Proof. repeat split. Qed.

Lemma silent_app (t1 t2 : list (Event B F)) : silent t1 -> silent t2 -> silent (t1 ++ t2).
Proof.
  intros (A1 & A2 & A3) (B1 & B2 & B3). unfold silent.
  rewrite started_app, outcomes_app, fileSystemCalls_app.
  rewrite A1, A2, A3, B1, B2, B3. repeat split.
Qed.

Lemma silent_cons (e : Event B F) (t : list (Event B F)) :
  silent [e] -> silent t -> silent (e :: t).
Proof. apply (silent_app [e]). Qed.

End Traces.

Section WithService.

Context {W B F Doc Node : Type}.
Variable pkg : Packages Doc Node.
Variable s : Service W B F.

Lemma fetchLoop_silent (url : string) :
  forall (n : nat) (a : Z) (lastErr : option error) (w : W) r w' t,
    fetchLoop s url n a lastErr w = (r, w', t) -> silent t.
Proof.
  induction n as [|n IH]; intros a lastErr w r w' t E.
  - cbn [fetchLoop] in E. run_inv E. apply silent_nil.
  - cbn [fetchLoop] in E.
    destruct (a <=? MaxRetries (config s)); [|run_inv E; apply silent_nil].
    apply bind_inv in E as (u & w0 & t0 & t1 & E0 & E & ->).
    assert (H0 : silent t0).
    { destruct (0 <? a); run_inv E0; repeat split. }
    apply silent_app; [exact H0|]. clear E0 H0.
    apply bind_inv in E as (g & w1 & tg & t2 & EG & E & ->).
    assert (Hg : silent tg).
    { unfold call_Get in EG. destruct (Get (client s) url w0).
      injection EG as _ _ <-. repeat split. }
    apply silent_app; [exact Hg|]. clear EG Hg.
    destruct g as [err|resp].
    + eapply IH; exact E.
    + destruct ((200 <=? StatusCode resp) && (StatusCode resp <? 300));
        [run_inv E; apply silent_nil|].
      destruct (StatusCode resp =? 404); [run_inv E; repeat split|].
      run_inv E. apply silent_cons; [repeat split|]. eapply IH; exact E.
Qed.

(** [ScrapeURL] logs the start of the processing of its identifier and
    stays away from the file system. *)
Lemma ScrapeURL_trace (rawURL selector : string) (w : W) r w' t :
  ScrapeURL pkg s rawURL selector w = (r, w', t) ->
  started t = [rawURL] /\ outcomes t = [] /\ fileSystemCalls t = [].
Proof.
  intros E. unfold ScrapeURL in E.
  apply bind_inv in E as (u & w0 & t0 & t1 & E0 & E & ->).
  apply call_Printf_inv in E0 as [-> ->].
  apply bind_inv in E as (g & w1 & tf & t2 & Ef & E & ->).
  apply fetchLoop_silent in Ef.
  assert (H2 : silent t2).
  { destruct g as [err|resp]; [run_inv E; apply silent_nil|].
    apply bind_inv in E as (b & w2 & tb & t3 & Eb & E & ->).
    apply call_ReadAll_inv in Eb as [_ ->].
    destruct b; run_inv E; repeat split. }
  destruct (silent_app _ _ Ef H2) as (A1 & A2 & A3).
  rewrite started_app, outcomes_app, fileSystemCalls_app, A1, A2, A3.
  repeat split.
Qed.

(** [GetOutputPath] and [SaveMarkdown] log nothing. *)
Lemma GetOutputPath_logged (rawURL baseDir : string) (w : W) r w' t :
  GetOutputPath pkg s rawURL baseDir w = (r, w', t) -> logged t = [].
Proof.
  intros E. unfold GetOutputPath in E.
  destruct (url_Parse pkg rawURL); [run_inv E; reflexivity|].
  apply bind_inv in E as (e & w1 & t1 & t2 & E1 & E & ->).
  apply call_MkdirAll_inv in E1 as [_ ->].
  destruct e; run_inv E; reflexivity.
Qed.

Lemma SaveMarkdown_logged (content filePath : string) (w : W) r w' t :
  SaveMarkdown s content filePath w = (r, w', t) -> logged t = [].
Proof.
  intros E. unfold SaveMarkdown in E.
  apply bind_inv in E as (c & w1 & t1 & t2 & E1 & E & ->).
  apply call_Create_inv in E1 as [_ ->].
  destruct c; [run_inv E; reflexivity|].
  apply bind_inv in E as (e & w2 & t3 & t4 & E2 & E & ->).
  apply call_WriteString_inv in E2 as [_ ->].
  destruct e; run_inv E; reflexivity.
Qed.

Lemma unlogged_started_outcomes (t : list (Event B F)) :
  logged t = [] -> started t = [] /\ outcomes t = [].
Proof. unfold started, outcomes. intros ->. split; reflexivity. Qed.

Lemma count_split (l : list bool) :
  countTrue l + countFalse l = Z.of_nat (length l).
Proof.
  unfold countTrue, countFalse.
  induction l as [|[] l IH]; cbn [List.filter negb length] in *; lia.
Qed.




End WithService.

End BatchProofs.

Module PoolProofs.

Import GoFmt GoTime Collab Collab.Notations Scraper BatchProofs.

Section WithService.

Context {W B F Doc Node : Type}.
Variable pkg : Packages Doc Node.
Variable s : Service W B F.
Variables selector output : string.

Abbreviation step := (Scraper.step pkg s selector output).

(** The result of a job names the identifier of the job, and its
    processing is started once. *)
Lemma processJob_spec (job : Job) (w : W) result w' t :
  processJob pkg s job w = (result, w', t) ->
  URL result = job_URL job /\ started t = [job_URL job] /\ outcomes t = [].
Proof.
  intros E. unfold processJob in E.
  apply bind_inv in E as (r & w1 & t1 & t2 & E1 & E & ->).
  apply ScrapeURL_trace in E1 as (S1 & O1 & _).
  rewrite started_app, outcomes_app, S1, O1. cbn [app].
  destruct r as [err|markdown]; [run_inv E; repeat split|].
  apply bind_inv in E as (p & w2 & t3 & t4 & E2 & E & ->).
  apply GetOutputPath_logged, unlogged_started_outcomes in E2 as [S2 O2].
  rewrite started_app, outcomes_app, S2, O2. cbn [app].
  destruct p as [err|outputPath]; [run_inv E; repeat split|].
  apply bind_inv in E as (e & w3 & t5 & t6 & E3 & E & ->).
  apply SaveMarkdown_logged, unlogged_started_outcomes in E3 as [S3 O3].
  rewrite started_app, outcomes_app, S3, O3. cbn [app].
  destruct e as [err|]; run_inv E; repeat split.
Qed.

Lemma logResult_spec (result : Result) (w : W) u w' t :
  logResult s result w = (u, w', t) ->
  started t = [] /\ outcomes t = [Success result]
  /\ summary (logged t) = None.
Proof.
  intros E. unfold logResult in E.
  destruct (Success result); run_inv E; repeat split.
Qed.

Ltac psimpl :=
  cbn [pc unsent jobs jobsClosed running results resultsClosed successCount
       errorCount collected world trace] in *.

(** What holds of every state of the pool for [urls]. *)
Record pool_inv (urls : list string) (p : Pool W B F) : Prop := {
  inv_perm :
    urls ≡ₚ (unsent p ++ (job_URL <$> jobs p) ++ (URL <$> results p)
             ++ (URL <$> collected p))%list;
  inv_idle : running p = O -> jobs p = [] /\ unsent p = [];
  inv_sending : pc p = Sending <-> jobsClosed p = false;
  inv_unsent : pc p <> Sending -> unsent p = [];
  inv_results_closed : resultsClosed p = true -> running p = O /\ pc p <> Sending;
  inv_returned :
    forall err, pc p = Returned err ->
      err = None /\ results p = [] /\ resultsClosed p = true
      /\ summary (logged (trace p)) = Some (successCount p, errorCount p);
  inv_counts :
    successCount p = countTrue (Success <$> collected p)
    /\ errorCount p = countFalse (Success <$> collected p);
  inv_outcomes : outcomes (trace p) = Success <$> collected p;
  inv_started : started (trace p) = URL <$> (collected p ++ results p)%list;
}.

Lemma numWorkers_idle (urls : list string) :
  1 < Workers (config s) -> Z.to_nat (numWorkersOf s urls) = O -> urls = [].
Proof.
  unfold numWorkersOf. intros HW H.
  destruct (Z.ltb_spec (Z.of_nat (length urls)) (Workers (config s))); [|lia].
  destruct urls; [reflexivity | cbn in H; lia].
Qed.

Lemma startPool_inv (urls : list string) (w : W) :
  1 < Workers (config s) -> pool_inv urls (startPool s urls w).
Proof.
  intros HW. unfold startPool. cbn.
  constructor; cbn; try done.
  - rewrite !app_nil_r. reflexivity.
  - intros H. apply numWorkers_idle in H; auto.
Qed.

Lemma countTrue_snoc (l : list bool) (b : bool) :
  countTrue (l ++ [b])%list = (if b then countTrue l + 1 else countTrue l)
  /\ countFalse (l ++ [b])%list = (if b then countFalse l else countFalse l + 1).
Proof.
  unfold countTrue, countFalse. rewrite !List.filter_app, !length_app.
  destruct b; cbn; split; lia.
Qed.

Lemma step_inv (urls : list string) (p p' : Pool W B F) :
  pool_inv urls p -> step p p' -> pool_inv urls p'.
Proof.
  intros [Hperm Hidle Hsend Hunsent Hrc Hret [Hsc Hec] Hout Hst] Hstep.
  inversion Hstep; subst; psimpl; clear Hstep.
  - (* send *)
    constructor; psimpl; try done.
    + rewrite Hperm, fmap_app. cbn. solve_Permutation.
    + intros ->. destruct (Hidle eq_refl) as [_ [=]].
  - (* close *)
    constructor; psimpl; try done.
    intros H. destruct (Hrc H) as [_ []]. reflexivity.
  - (* work *)
    match goal with H : processJob _ _ _ _ = _ |- _ =>
      apply processJob_spec in H as (HU & HS & HO) end.
    constructor; psimpl; try done.
    + rewrite Hperm, fmap_app. cbn. rewrite HU. solve_Permutation.
    + intros err ->. destruct (Hret err eq_refl) as (_ & _ & H & _).
      destruct (Hrc H) as [[=] _].
    + rewrite outcomes_app, HO, app_nil_r. exact Hout.
    + rewrite started_app, HS, Hst, !fmap_app. cbn. rewrite HU.
      rewrite <- app_assoc. reflexivity.
  - (* done *)
    constructor; psimpl; try done.
    + intros _. split; [reflexivity|]. apply Hunsent.
      intros ->. destruct Hsend as [H _]. specialize (H eq_refl). discriminate.
    + intros H. destruct (Hrc H) as [[=] _].
  - (* close results *)
    constructor; psimpl; done.
  - (* collect *)
    match goal with H : logResult _ _ _ = _ |- _ =>
      apply logResult_spec in H as (HS & HO & HN) end.
    destruct (countTrue_snoc (Success <$> col) (Success result)) as [CT CF].
    constructor; psimpl; try done.
    + rewrite Hperm, fmap_app. cbn. solve_Permutation.
    + rewrite fmap_app. cbn. rewrite CT, CF, Hsc, Hec.
      destruct (Success result); split; reflexivity.
    + rewrite outcomes_app, HO, Hout, fmap_app. reflexivity.
    + rewrite started_app, HS, app_nil_r, Hst, !fmap_app. cbn.
      rewrite <- app_assoc. reflexivity.
  - (* return *)
    match goal with H : call_Printf _ _ _ _ = _ |- _ =>
      apply call_Printf_inv in H as [-> ->] end.
    constructor; psimpl; try done.
    + split; [discriminate|]. intros H. destruct Hsend as [_ Hs].
      specialize (Hs H). discriminate.
    + intros _. apply Hunsent. discriminate.
    + intros _. destruct (Hrc eq_refl) as [H _]. split; [exact H | discriminate].
    + intros err [= <-]. repeat split.
      unfold summary. rewrite logged_app. cbn [logged flat_map app].
      rewrite last_snoc. reflexivity.
    + rewrite outcomes_app, Hout. cbn. rewrite app_nil_r. reflexivity.
    + rewrite started_app, Hst. cbn. rewrite !app_nil_r. reflexivity.
Qed.

Lemma reachable_inv (urls : list string) (w : W) (p : Pool W B F) :
  1 < Workers (config s) -> rtc step (startPool s urls w) p -> pool_inv urls p.
Proof.
  intros HW H. revert p H. apply rtc_ind_r; [apply startPool_inv, HW|].
  intros p1 p2 _ Hstep IH. eapply step_inv; eauto.
Qed.





(** What a returned pool has done. *)
Lemma returned_spec (urls : list string) (p : Pool W B F) (err : option error) :
  pool_inv urls p -> pc p = Returned err ->
  err = None
  /\ accountsForAll urls (logged (trace p))
  /\ URL <$> collected p ≡ₚ urls
  /\ successCount p + errorCount p = Z.of_nat (length urls).
Proof.
  intros [Hperm Hidle Hsend Hunsent Hrc Hret [Hsc Hec] Hout Hst] Epc.
  destruct (Hret err Epc) as (-> & Hr & Hc & Hsum).
  destruct (Hrc Hc) as [Hn _]. destruct (Hidle Hn) as [Hj Hu].
  rewrite Hr, Hj, Hu in Hperm. cbn in Hperm. rewrite Hr, app_nil_r in Hst.
  assert (Hlen : length (collected p) = length urls).
  { rewrite <- (length_fmap URL). apply Permutation_length. symmetry. exact Hperm. }
  assert (Hsum2 : successCount p + errorCount p = Z.of_nat (length urls)).
  { rewrite Hsc, Hec, count_split, length_fmap, Hlen. reflexivity. }
  split; [reflexivity|]. split; [|split; [symmetry; exact Hperm | exact Hsum2]].
  unfold accountsForAll. unfold started, outcomes in *.
  rewrite Hst, Hout, length_fmap. split; [symmetry; exact Hperm|].
  split; [exact Hlen|].
  exists (successCount p), (errorCount p). repeat split; assumption.
Qed.



End WithService.



End PoolProofs.

Module ItemProofs.

Import GoFmt GoTime Collab Collab.Notations Scraper BatchProofs.

Section WithService.

Context {W B F Doc Node : Type}.
Variable pkg : Packages Doc Node.
Variable s : Service W B F.



End WithService.



End ItemProofs.

Module PathProofs.

Import GoFmt GoTime Collab Collab.Notations Scraper.

Section WithService.

Context {W B F Doc Node : Type}.
Variable pkg : Packages Doc Node.
Variable s : Service W B F.

(** The name that [GetOutputPath] joins with the root is the resolved
    name of the contract. *)
Lemma outputPathOf_resolved (parsedPath baseDir : string) :
  exists name,
    resolvedName parsedPath name
    /\ outputPathOf parsedPath baseDir = GoFilepath.Join [baseDir; name].
Proof.
  unfold outputPathOf, resolvedName. rewrite TrimPrefix_slash.
  set (base := if String.eqb (stripLeadingSeparator parsedPath) ""
               then "index" else stripLeadingSeparator parsedPath).
  cbn zeta. destruct (GoStrings.HasSuffix base ".md") eqn:H; cbn [negb].
  - exists base. split; [|reflexivity]. left. split; [|reflexivity].
    apply HasSuffix_spec. exact H.
  - exists (base +:+ ".md"). split; [|reflexivity]. right. split; [|reflexivity].
    intros stem E.
    assert (H' : GoStrings.HasSuffix base ".md" = true)
      by (apply HasSuffix_spec; eauto).
    congruence.
Qed.

Lemma GetOutputPath_run (rawURL baseDir : string) (w : W) (u : GoURL.URL) :
  url_Parse pkg rawURL = inr u ->
  let path := outputPathOf (GoURL.Path u) baseDir in
  GetOutputPath pkg s rawURL baseDir w
  = (match (MkdirAll (fs s) (GoFilepath.Dir path) 493 w).1 with
     | Some err =>
         inl (Errorf "failed to create directory %s: %w"
                [VString (GoFilepath.Dir path); VError err])
     | None => inr path
     end,
     (MkdirAll (fs s) (GoFilepath.Dir path) 493 w).2,
     [EvMkdirAll (GoFilepath.Dir path) 493
        (MkdirAll (fs s) (GoFilepath.Dir path) 493 w).1]).
Proof.
  intros Hu path. unfold GetOutputPath. rewrite Hu. fold path.
  unfold bind, call_MkdirAll.
  destruct (MkdirAll (fs s) (GoFilepath.Dir path) 493 w) as [[err|] w']; reflexivity.
Qed.


End WithService.

(** C6.  For a parseable identifier, [GetOutputPath] resolves the path
    that joins the root with the resolved name of the decoded path
    component (leading separator stripped, [index] for the empty path,
    [.md] appended when not there), and returns it when the parent
    directory could be made; so the identifiers of the contract resolve to
    [/out/a/b.md], [/out/index.md] and [/out/index.md], and a
    percent-encoded path is decoded first. *)
Theorem resolver_maps_identifier_to_path :
  (forall (W B F Doc Node : Type) (pkg : Packages Doc Node) (s : Service W B F)
          (rawURL baseDir : string) (w : W) (u : GoURL.URL),
      url_Parse pkg rawURL = inr u ->
      exists name,
        resolvedName (GoURL.Path u) name
        /\ let path := GoFilepath.Join [baseDir; name] in
           (GetOutputPath pkg s rawURL baseDir w).1.1
           = match (MkdirAll (fs s) (GoFilepath.Dir path) 493 w).1 with
             | Some err =>
                 inl (Errorf "failed to create directory %s: %w"
                        [VString (GoFilepath.Dir path); VError err])
             | None => inr path
             end)
  /\ (GetOutputPath MiniDOM.packages (Fixtures.service 3 1) "https://x/a/b" "/out"
        Fixtures.fresh).1.1 = inr "/out/a/b.md"
  /\ (GetOutputPath MiniDOM.packages (Fixtures.service 3 1) "https://x/" "/out"
        Fixtures.fresh).1.1 = inr "/out/index.md"
  /\ (GetOutputPath MiniDOM.packages (Fixtures.service 3 1) "https://x" "/out"
        Fixtures.fresh).1.1 = inr "/out/index.md"
  /\ match MiniDOM.parseURL "https://example.com/docs/api%20guide" with
     | inr u => GoURL.Path u = "/docs/api guide"
     | inl _ => False
     end
  /\ (GetOutputPath MiniDOM.packages (Fixtures.service 3 1)
        "https://example.com/docs/api%20guide" "/tmp/output" Fixtures.fresh).1.1
     = inr "/tmp/output/docs/api guide.md".
Proof.
  split.
  - intros W B F Doc Node pkg s rawURL baseDir w u Hu.
    destruct (outputPathOf_resolved (GoURL.Path u) baseDir) as (name & Hn & Hp).
    exists name. split; [exact Hn|]. cbn zeta.
    rewrite (GetOutputPath_run pkg s rawURL baseDir w u Hu). cbn zeta. cbn [fst].
    rewrite Hp. reflexivity.
  - repeat split; vm_compute; reflexivity.
Qed.

Lemma resolver_witness :
  url_Parse MiniDOM.packages "https://example.com/docs/api"
  = inr (GoURL.mkURL "https" "" "example.com" "/docs/api" "" "")
  /\ exists name,
       resolvedName "/docs/api" name
       /\ (GetOutputPath MiniDOM.packages (Fixtures.service 3 1)
             "https://example.com/docs/api" "/tmp/output" Fixtures.fresh).1.1
          = inr (GoFilepath.Join ["/tmp/output"; name]).
Proof.
  split; [vm_compute; reflexivity|].
  destruct resolver_maps_identifier_to_path as [H _].
  destruct (H _ _ _ _ _ MiniDOM.packages (Fixtures.service 3 1)
              "https://example.com/docs/api" "/tmp/output" Fixtures.fresh
              (GoURL.mkURL "https" "" "example.com" "/docs/api" "" "")
              ltac:(vm_compute; reflexivity)) as (name & Hn & Hp).
  exists name. split; [exact Hn | exact Hp].
Defined.

Section OverTheMocks.

Import ScraperMocks.

Context {Doc Node : Type}.
Variable pkg : Packages Doc Node.
Variable conv : Converter.
Variable cfg : Config.

Abbreviation svc := (ScraperMocks.NewService conv cfg).




End OverTheMocks.



End PathProofs.

Module ServerProofs.

Import GoFmt Collab Collab.Notations Server.

(** A request whose file path does not start with the text of the base
    directory is rejected before the file system is asked. *)
Lemma unprefixed_path_rejected {W : Type} (h : MarkdownHandler W) (r : Request) (w : W) :
  Method r = "GET" ->
  GoStrings.HasPrefix (filePathOf h (URL_Path r)) (baseDir h) = false ->
  ServeHTTP h r w = (http_Error "Invalid path" StatusBadRequest, w, []).
Proof.
  intros HM HP. unfold ServeHTTP. rewrite HM, HP. reflexivity.
Qed.

Example traversal_to_root_rejected :
  rejects (mockHandler "/base") (mkRequest "GET" "/../../../etc/passwd")
    Fixtures.siblingFile.
Proof.
  unfold rejects. rewrite unprefixed_path_rejected by reflexivity.
  cbn. split; [unfold StatusBadRequest; lia | reflexivity].
Qed.

(** C7 fails on the code.  The handler compares the texts of the two
    paths: a request for [/../base2/secret] on the base directory [/base]
    resolves to [/base2/secret.md], outside [/base], and the file is read
    and served with status 200. *)
Theorem sibling_of_base_is_served :
  filePathOf (mockHandler "/base") "/../base2/secret" = "/base2/secret.md"
  /\ escapesBase "/base" "/base2/secret.md" = true
  /\ ServeHTTP (mockHandler "/base") (mkRequest "GET" "/../base2/secret")
       Fixtures.siblingFile
     = (mkReply StatusOK
          [("Content-Type", "text/markdown; charset=utf-8");
           ("Cache-Control", "public, max-age=3600")]
          "top secret",
        mock_Printf "Serving: %s" [VString "/base2/secret.md"] Fixtures.siblingFile,
        [EvStat "/base2/secret.md" (inr true);
         EvReadFile "/base2/secret.md" (inr "top secret");
         EvPrintf "Serving: %s" [VString "/base2/secret.md"]])
  /\ ~ rejects (mockHandler "/base") (mkRequest "GET" "/../base2/secret")
         Fixtures.siblingFile.
Proof.
  split; [vm_compute; reflexivity|]. split; [vm_compute; reflexivity|].
  split; [vm_compute; reflexivity|].
  unfold rejects.
  replace (ServeHTTP (mockHandler "/base") (mkRequest "GET" "/../base2/secret")
             Fixtures.siblingFile)
    with (mkReply StatusOK
            [("Content-Type", "text/markdown; charset=utf-8");
             ("Cache-Control", "public, max-age=3600")]
            "top secret",
          mock_Printf "Serving: %s" [VString "/base2/secret.md"] Fixtures.siblingFile,
          [@EvStat unit unit "/base2/secret.md" (inr true);
           EvReadFile "/base2/secret.md" (inr "top secret");
           EvPrintf "Serving: %s" [VString "/base2/secret.md"]])
    by (vm_compute; reflexivity).
  cbn [Code]. unfold StatusOK. intros [H _]. lia.
Qed.

End ServerProofs.

Module SitemapProofs.

Import GoFmt Collab Collab.Notations Sitemap.


Section WithService.

Context {W B : Type}.
Variable xml_Decode : string -> GoXML.DecodeError + Sitemap.
Variable s : Service W B.


End WithService.



End SitemapProofs.

Module ExtractProofs.

Import GoFmt Collab Scraper.

Section WithService.

Context {W B F Doc Node : Type}.
Variable pkg : Packages Doc Node.
Variable s : Service W B F.

(** With a match, [ExtractContent] is the conversion of the first
    matched node. *)
Lemma ExtractContent_first (htmlContent selector : string) (doc : Doc)
    (first : Node) (later : list Node) :
  NewDocumentFromReader pkg htmlContent = inr doc ->
  Find pkg doc selector = first :: later ->
  ExtractContent pkg s htmlContent selector = convertFirst pkg s first.
Proof.
  intros HD HF. unfold ExtractContent, convertFirst. rewrite HD, HF.
  unfold Selection_Length. cbn [length Selection_Html].
  destruct (Z.eqb_spec (Z.of_nat (S (length later))) 0); [lia | reflexivity].
Qed.

(** Without a match it fails. *)
Lemma ExtractContent_no_match (htmlContent selector : string) (doc : Doc) :
  NewDocumentFromReader pkg htmlContent = inr doc ->
  Find pkg doc selector = [] ->
  ExtractContent pkg s htmlContent selector
  = inl (Errorf "selector '%s' matched no elements" [VString selector]).
Proof.
  intros HD HF. unfold ExtractContent. rewrite HD, HF. reflexivity.
Qed.

End WithService.

(** C10, as amended.  When the selector matches two or more elements,
    [ExtractContent] converts the inner content of the first matched
    element and of no other: two documents whose first matches are the
    same node give the same result, whatever the later matches are. *)
Theorem only_first_match_is_converted
    {W B F Doc Node : Type} (pkg : Packages Doc Node) (s : Service W B F)
    (htmlContent selector : string) (doc : Doc) (first second : Node) (rest : list Node) :
  NewDocumentFromReader pkg htmlContent = inr doc ->
  Find pkg doc selector = first :: second :: rest ->
  ExtractContent pkg s htmlContent selector = convertFirst pkg s first
  /\ forall htmlContent' doc' later',
       NewDocumentFromReader pkg htmlContent' = inr doc' ->
       Find pkg doc' selector = first :: later' ->
       ExtractContent pkg s htmlContent' selector
       = ExtractContent pkg s htmlContent selector.
Proof.
  intros HD HF. split.
  - apply (ExtractContent_first pkg s _ _ doc first (second :: rest) HD HF).
  - intros h' doc' later' HD' HF'.
    rewrite (ExtractContent_first pkg s _ _ doc first (second :: rest) HD HF).
    apply (ExtractContent_first pkg s _ _ doc' first later' HD' HF').
Qed.

Lemma only_first_match_witness :
  Find MiniDOM.packages (MiniDOM.parseDocument "<p>one</p><p>two</p>") "p"
  = [MiniDOM.Element "p" [MiniDOM.Text "one"]; MiniDOM.Element "p" [MiniDOM.Text "two"]]
  /\ ExtractContent MiniDOM.packages (Fixtures.service 3 1) "<p>one</p><p>two</p>" "p"
     = inr "one".
Proof.
  split; [reflexivity|].
  destruct (only_first_match_is_converted MiniDOM.packages (Fixtures.service 3 1)
              "<p>one</p><p>two</p>" "p" (MiniDOM.parseDocument "<p>one</p><p>two</p>")
              (MiniDOM.Element "p" [MiniDOM.Text "one"])
              (MiniDOM.Element "p" [MiniDOM.Text "two"]) []
              eq_refl eq_refl) as [H _].
  rewrite H. reflexivity.
Defined.

(** C10 as stated fails when a later match lies inside the first one:
    for [<div><div>x</div></div>] and the selector [div], the second match
    is a child of the first, and its rendering is what is converted. *)
Lemma nested_match_is_converted :
  ~ laterMatchesLeftOut MiniDOM.packages "<div><div>x</div></div>" "div".
Proof.
  intros H.
  specialize (H (MiniDOM.parseDocument "<div><div>x</div></div>")
                (MiniDOM.Element "div" [MiniDOM.Element "div" [MiniDOM.Text "x"]])
                (MiniDOM.Element "div" [MiniDOM.Text "x"]) []
                "<div>x</div>" eq_refl eq_refl eq_refl
                (MiniDOM.Element "div" [MiniDOM.Text "x"]) "<div>x</div>"
                (or_introl eq_refl) eq_refl).
  vm_compute in H. discriminate H.
Qed.

Example nested_match_output :
  Find MiniDOM.packages (MiniDOM.parseDocument "<div><div>x</div></div>") "div"
  = [MiniDOM.Element "div" [MiniDOM.Element "div" [MiniDOM.Text "x"]];
     MiniDOM.Element "div" [MiniDOM.Text "x"]]
  /\ ExtractContent MiniDOM.packages (Fixtures.service 3 1)
       "<div><div>x</div></div>" "div" = inr "<div>x</div>".
Proof. split; reflexivity. Qed.

End ExtractProofs.

(** ** The cases of the test files, on the model *)

Module TestCases.

Import GoFmt GoTime Collab Scraper.

Section Schedule.

Context {W B F Doc Node : Type}.
Variable pkg : Packages Doc Node.
Variable s : Service W B F.
Variables selector output : string.

Lemma nextStep_step (p p' : Pool W B F) :
  nextStep pkg s selector output p = Some p' -> Scraper.step pkg s selector output p p'.
Proof.
  destruct p as [p0 us js jc n rs rc sc ec col w t].
  unfold nextStep.
  destruct p0 as [| |err]; destruct us as [|u us]; destruct js as [|j js];
    destruct jc; destruct n as [|n]; destruct rs as [|r rs]; destruct rc;
    try discriminate;
    try (intros H; apply (inj Some) in H; rewrite <- H; constructor; reflexivity);
    try (destruct (processJob pkg s j w) as [[result w'] t'] eqn:E;
         intros H; apply (inj Some) in H; rewrite <- H; eapply step_work; exact E);
    try (destruct (logResult s r w) as [[[] w'] t'] eqn:E;
         intros H; apply (inj Some) in H; rewrite <- H; eapply step_collect; exact E);
    try (intros H; apply (inj Some) in H; rewrite <- H; eapply step_return; reflexivity).
Qed.

Lemma runPool_rtc (fuel : nat) (p : Pool W B F) :
  rtc (Scraper.step pkg s selector output) p (runPool pkg s selector output fuel p).
Proof.
  revert p. induction fuel as [|fuel IH]; intros p; cbn [runPool]; [constructor|].
  destruct (nextStep pkg s selector output p) as [p'|] eqn:E; [|constructor].
  econstructor; [apply nextStep_step; exact E | apply IH].
Qed.

End Schedule.

(** TestScraperService_ExponentialBackoff. *)
Example ExponentialBackoff :
  let '(r, w, t) :=
    FetchWithRetries (Fixtures.service 3 1) "https://example.com" Fixtures.networkDown in
  ScraperMocks.sleepDurations w = [1 * Second; 2 * Second; 4 * Second]
  /\ sleeps t = [1 * Second; 2 * Second; 4 * Second]
  /\ ScraperMocks.GetCallCount "https://example.com" (ScraperMocks.mockClient w) = 4
  /\ attempts t = 4%nat.
Proof. vm_compute. repeat split. Qed.

(** TestScraperService_FetchWithRetries, "retry on 500 error then success". *)
Example FetchWithRetries_500 :
  let '(r, w, t) :=
    FetchWithRetries (Fixtures.service 3 1) "https://example.com" Fixtures.serverError in
  ScraperMocks.GetCallCount "https://example.com" (ScraperMocks.mockClient w) = 4
  /\ r = inl (Errorf "failed after %d retries: %w"
                [VInt 4;
                 VError (Errorf "HTTP %d: %s" [VInt 500; VString "https://example.com"])]).
Proof. vm_compute. repeat split. Qed.

(** TestScraperService_SaveMarkdown. *)
Example SaveMarkdown_cases :
  (let '(r, w, t) :=
     SaveMarkdown (Fixtures.service 3 1) "# Test Content" "/tmp/test.md" Fixtures.fresh in
   r = None
   /\ ScraperMocks.files (ScraperMocks.mockFS w) !! "/tmp/test.md" = Some "# Test Content")
  /\ (SaveMarkdown (Fixtures.service 3 1) "# Test Content" "/tmp/test.md"
        (ScraperMocks.NewWorld ScraperMocks.NewMockHTTPClient
           (ScraperMocks.SetCreateError (Errorf "permission denied" [])
              ScraperMocks.NewMockFileSystem))).1.1
     = Some (Errorf "failed to create file %s: %w"
               [VString "/tmp/test.md"; VError (Errorf "permission denied" [])]).
Proof. vm_compute. repeat split. Qed.

(** TestScraperService_ConcurrentScraping, "concurrent scraping with 4
    workers": the schedule of [runPool] returns with 4 successes and 4
    files. *)
Example ConcurrentScraping_4_workers :
  let p := runPool MiniDOM.packages (Fixtures.service 3 4) "div" "/tmp/test" 40
             (startPool (Fixtures.service 3 4) Fixtures.fourURLs Fixtures.fourPages) in
  pc p = Returned None
  /\ (successCount p, errorCount p) = (4, 0)
  /\ ScraperMocks.createdFiles (ScraperMocks.mockFS (world p))
     = ["/tmp/test/1.md"; "/tmp/test/2.md"; "/tmp/test/3.md"; "/tmp/test/4.md"].
Proof. vm_compute. repeat split. Qed.

Example ConcurrentScraping_is_a_run :
  let p := runPool MiniDOM.packages (Fixtures.service 3 4) "div" "/tmp/test" 40
             (startPool (Fixtures.service 3 4) Fixtures.fourURLs Fixtures.fourPages) in
  ScrapeURLs MiniDOM.packages (Fixtures.service 3 4) Fixtures.fourURLs "div" "/tmp/test"
    Fixtures.fourPages (None, world p, trace p).
Proof.
  intros p. apply run_concurrent; [cbn; lia|].
  exists p, None. split; [apply runPool_rtc|]. split; [|reflexivity].
  vm_compute. reflexivity.
Qed.

(** "mixed success and errors", with 2 workers. *)
Example ConcurrentScraping_mixed :
  let p := runPool MiniDOM.packages (Fixtures.service 3 2) "div" "/tmp/test" 40
             (startPool (Fixtures.service 3 2) Fixtures.mixedURLs Fixtures.mixedPages) in
  pc p = Returned None
  /\ (successCount p, errorCount p) = (2, 1)
  /\ length (ScraperMocks.createdFiles (ScraperMocks.mockFS (world p))) = 2%nat
  /\ summary (logged (trace p)) = Some (2, 1).
Proof. vm_compute. repeat split. Qed.

(** "sequential fallback with 1 worker", on the four pages. *)
Example SequentialScraping :
  let '(r, w, t) :=
    scrapeSequential MiniDOM.packages (Fixtures.service 3 1) Fixtures.fourURLs
      "div" "/tmp/test" Fixtures.fourPages in
  r = None
  /\ summary (logged t) = Some (4, 0)
  /\ ScraperMocks.files (ScraperMocks.mockFS w) !! "/tmp/test/1.md"
     = Some "<h1>Page 1</h1>".
Proof. vm_compute. repeat split. Qed.

(** TestMarkdownHandler_ServeHTTP and TestMarkdownHandler_HTTPMethods. *)
Example ServeHTTP_cases :
  let w := Server.mkWorld
             (Server.SetFile "/base/docs/test.md" "# Test Content"
                (Server.SetFile "/base/index.md" "# Welcome" Server.NewMockFileSystem)) [] in
  let status path :=
    Server.Code (Server.ServeHTTP (Server.mockHandler "/base")
                   (Server.mkRequest "GET" path) w).1.1 in
  status "/docs/test" = 200
  /\ status "/docs/test.md" = 200
  /\ status "/" = 200
  /\ status "/index" = 200
  /\ status "/nonexistent" = 404
  /\ status "/../../../etc/passwd" = 400
  /\ Server.Code (Server.ServeHTTP (Server.mockHandler "/base")
                    (Server.mkRequest "POST" "/test") w).1.1 = 405
  /\ Server.Code (Server.ServeHTTP (Server.mockHandler "/base")
                    (Server.mkRequest "GET" "/docs/test")
                    (Server.mkWorld
                       (Server.SetReadError (Errorf "read permission denied" [])
                          (Server.SetFile "/base/docs/test.md" "content"
                             Server.NewMockFileSystem)) [])).1.1 = 500.
Proof. vm_compute. repeat split. Qed.

(** TestSitemapService_FilterURLs. *)
Example FilterURLs_cases :
  let sitemap :=
    Sitemap.mkSitemap
      (Sitemap.mkURL <$>
         ["https://example.com/"; "https://example.com/docs/";
          "https://example.com/docs/api"; "https://example.com/docs/guide";
          "https://example.com/blog/"; "https://example.com/blog/post1"]) in
  let filtered pathFilter :=
    (Sitemap.FilterURLs Fixtures.sitemapService sitemap pathFilter Fixtures.fresh).1.1 in
  length (filtered "") = 6%nat
  /\ filtered "/docs/"
     = ["https://example.com/docs/"; "https://example.com/docs/api";
        "https://example.com/docs/guide"]
  /\ filtered "/blog" = ["https://example.com/blog/"; "https://example.com/blog/post1"]
  /\ filtered "/nonexistent" = [].
Proof. vm_compute. repeat split. Qed.

End TestCases.

(** * Further properties

    ** Paths and the handler *)

Section RunEta.

(** A run with a known result, written with its state and trace. *)
Lemma run_eta {A S T : Type} (x : A * S * T) (a : A) : x.1.1 = a -> x = (a, x.1.2, x.2).
Proof. destruct x as [[a' st] t]. cbn. intros ->. reflexivity. Qed.

Lemma call_eta {A S : Type} (x : A * S) (a : A) : x.1 = a -> x = (a, x.2).
Proof. destruct x as [a' st]. cbn. intros ->. reflexivity. Qed.

End RunEta.

Section PathFacts.

Lemma append_nil_r (a : string) : a +:+ "" = a.
Proof.
  induction a as [|c a IH]; [reflexivity|].
  change (String c (a +:+ "") = String c a). f_equal. exact IH.
Qed.

Lemma append_assoc (a b c : string) : (a +:+ b) +:+ c = a +:+ b +:+ c.
Proof.
  induction a as [|x a IH]; [reflexivity|].
  change (String x ((a +:+ b) +:+ c) = String x (a +:+ b +:+ c)). f_equal. exact IH.
Qed.

Lemma Split_nonempty (a : string) (sep : ascii) : GoStrings.Split a sep <> [].
Proof.
  induction a as [|c a IH]; cbn [GoStrings.Split]; [discriminate|].
  destruct (Ascii.eqb c sep); [discriminate|].
  destruct (GoStrings.Split a sep); discriminate.
Qed.

(** [Split] of two texts joined by the separator. *)
Lemma Split_app_sep (a b : string) (sep : ascii) :
  GoStrings.Split (a +:+ String sep b) sep
  = (GoStrings.Split a sep ++ GoStrings.Split b sep)%list.
Proof.
  induction a as [|c a IH].
  - change ("" +:+ String sep b) with (String sep b).
    cbn [GoStrings.Split]. rewrite Ascii.eqb_refl. reflexivity.
  - change (String c a +:+ String sep b) with (String c (a +:+ String sep b)).
    cbn [GoStrings.Split]. rewrite IH.
    destruct (Ascii.eqb c sep); [reflexivity|].
    pose proof (Split_nonempty a sep) as Hne.
    destruct (GoStrings.Split a sep) as [|h t]; [contradiction | reflexivity].
Qed.

Definition normalElem (e : string) : bool :=
  negb (String.eqb e "") && negb (String.eqb e ".") && negb (String.eqb e "..").

(** [Clean] reads its elements from left to right: the elements read so
    far leave a stack, and the rest is read from that stack. *)
Lemma cleanElems_stack (rooted : bool) (elems : list string) :
  forall out, exists out',
    GoFilepath.cleanElems rooted elems out = rev out'
    /\ forall more, GoFilepath.cleanElems rooted (elems ++ more) out
                    = GoFilepath.cleanElems rooted more out'.
Proof.
  induction elems as [|e rest IH]; intros out.
  - exists out. split; reflexivity.
  - cbn [GoFilepath.cleanElems app].
    destruct (String.eqb e ""); [apply IH|].
    destruct (String.eqb e "."); [apply IH|].
    destruct (String.eqb e ".."); [|apply IH].
    destruct out as [|top out']; [destruct rooted; apply IH|].
    destruct (String.eqb top ".."); apply IH.
Qed.

(** Without [..] every element that is neither empty nor [.] is kept. *)
Lemma cleanElems_plain (rooted : bool) (elems : list string) :
  Forall (fun e => e <> "..") elems ->
  forall out, GoFilepath.cleanElems rooted elems out
              = (rev out ++ List.filter normalElem elems)%list.
Proof.
  induction 1 as [|e rest He _ IH]; intros out.
  - cbn. rewrite app_nil_r. reflexivity.
  - cbn [GoFilepath.cleanElems List.filter]. unfold normalElem at 1.
    destruct (String.eqb_spec e ""); [apply IH|].
    destruct (String.eqb_spec e "."); [apply IH|].
    destruct (String.eqb_spec e ".."); [contradiction|].
    cbn [negb andb]. rewrite IH. cbn [rev]. rewrite <- app_assoc. reflexivity.
Qed.

(** What [Clean] keeps are elements of the path that are neither empty
    nor [.]. *)
Lemma cleanElems_kept (P : string -> Prop) (rooted : bool) (elems : list string) :
  Forall (fun e => e <> "" -> e <> "." -> P e) elems ->
  forall out, Forall P out -> Forall P (GoFilepath.cleanElems rooted elems out).
Proof.
  induction 1 as [|e rest He _ IH]; intros out Hout.
  - cbn. apply Forall_rev. exact Hout.
  - cbn [GoFilepath.cleanElems].
    destruct (String.eqb_spec e ""); [apply IH, Hout|].
    destruct (String.eqb_spec e "."); [apply IH, Hout|].
    assert (Hpush : Forall P (e :: out)) by (constructor; auto).
    destruct (String.eqb e "..").
    + destruct out as [|top out'].
      * destruct rooted; apply IH; assumption.
      * destruct (String.eqb top ".."); apply IH; [assumption|].
        inversion Hout; assumption.
    + apply IH. assumption.
Qed.

Lemma Join_app (xs ys : list string) (sep : string) :
  xs <> [] -> ys <> [] ->
  GoStrings.Join (xs ++ ys) sep = GoStrings.Join xs sep +:+ sep +:+ GoStrings.Join ys sep.
Proof.
  intros Hx Hy. induction xs as [|x xs IH]; [contradiction|].
  destruct xs as [|x2 xs'].
  - destruct ys as [|y ys']; [contradiction | reflexivity].
  - change (GoStrings.Join ((x :: x2 :: xs') ++ ys) sep)
      with (x +:+ sep +:+ GoStrings.Join ((x2 :: xs') ++ ys) sep).
    rewrite IH by discriminate.
    change (GoStrings.Join (x :: x2 :: xs') sep)
      with (x +:+ sep +:+ GoStrings.Join (x2 :: xs') sep).
    rewrite !append_assoc. reflexivity.
Qed.

(** An element that [Clean] keeps from a split path. *)
Definition keptElem (e : string) : Prop :=
  e <> "" /\ e <> "." /\ GoStrings.Contains e "/" = false.

Lemma Join_kept (xs : list string) :
  xs <> [] -> Forall keptElem xs ->
  GoStrings.Join xs "/" <> "" /\ GoStrings.Join xs "/" <> "."
  /\ GoStrings.Join xs "/" <> "/".
Proof.
  intros Hne H. destruct xs as [|x [|x2 rest]]; [contradiction| |].
  - inversion H as [|? ? (H1 & H2 & H3) _]; subst. cbn [GoStrings.Join].
    repeat split; try assumption. intros ->. discriminate H3.
  - inversion H as [|? ? (H1 & H2 & H3) _]; subst.
    change (GoStrings.Join (x :: x2 :: rest) "/")
      with (x +:+ "/" +:+ GoStrings.Join (x2 :: rest) "/").
    destruct x as [|c x']; [contradiction|].
    change (String c x' +:+ ?r) with (String c (x' +:+ r)).
    repeat split; [discriminate| |]; intros [= _ E]; destruct x'; discriminate E.
Qed.

Lemma HasPrefix_slash_app (base x : string) :
  base <> "" -> GoStrings.HasPrefix (base +:+ x) "/" = GoStrings.HasPrefix base "/".
Proof.
  intros Hb. destruct base as [|c b]; [contradiction|].
  change (String c b +:+ x) with (String c (b +:+ x)).
  unfold GoStrings.HasPrefix. cbn [String.prefix].
  destruct (ascii_dec "/" c); [|reflexivity].
  destruct (b +:+ x), b; reflexivity.
Qed.

Lemma Join_pair (base name : string) :
  base <> "" ->
  GoFilepath.Join [base; name] = GoFilepath.Clean (base +:+ "/" +:+ name).
Proof.
  intros Hb. cbn [GoFilepath.Join].
  destruct (String.eqb_spec base ""); [contradiction | reflexivity].
Qed.

(** The elements of a text split at a byte do not hold that byte. *)
Lemma Split_no_sep (a : string) (sep : ascii) :
  Forall (fun e => GoStrings.Contains e (String sep "") = false) (GoStrings.Split a sep).
Proof.
  induction a as [|c a IH]; cbn [GoStrings.Split].
  - repeat constructor.
  - destruct (Ascii.eqb_spec c sep) as [->|Hc].
    + constructor; [reflexivity | exact IH].
    + pose proof (Split_nonempty a sep) as Hne.
      destruct (GoStrings.Split a sep) as [|h t]; [contradiction|].
      inversion IH; subst. constructor; [|assumption].
      cbn [GoStrings.Contains]. unfold GoStrings.HasPrefix at 1. cbn [String.prefix].
      destruct (ascii_dec sep c); [congruence|]. assumption.
Qed.

Lemma kept_of_Split (path : string) :
  Forall (fun e => e <> "" -> e <> "." -> keptElem e) (GoStrings.Split path "/").
Proof.
  eapply Forall_impl; [apply (Split_no_sep path "/")|].
  intros e H H1 H2. repeat split; assumption.
Qed.

(** A suffix without the separator stays on the last element. *)
Lemma Split_app_suffix (q sfx : string) (sep : ascii) :
  GoStrings.Split sfx sep = [sfx] ->
  exists init l,
    GoStrings.Split q sep = (init ++ [l])%list
    /\ GoStrings.Split (q +:+ sfx) sep = (init ++ [l +:+ sfx])%list.
Proof.
  intros Hs. induction q as [|c q (init & l & H1 & H2)].
  - exists [], "". split; [reflexivity | exact Hs].
  - change (String c q +:+ sfx) with (String c (q +:+ sfx)).
    cbn [GoStrings.Split]. rewrite H1, H2.
    destruct (Ascii.eqb c sep).
    + exists ("" :: init), l. split; reflexivity.
    + destruct init as [|h t].
      * exists [], (String c l). split; reflexivity.
      * exists (String c h :: t), l. split; reflexivity.
Qed.

Lemma md_normal (l : string) : normalElem (l +:+ ".md") = true.
Proof.
  unfold normalElem.
  assert (H : forall x, (String.length x <= 2)%nat -> String.eqb (l +:+ ".md") x = false).
  { intros x Hx. apply String.eqb_neq. intros E.
    apply (f_equal String.length) in E. rewrite length_append in E. cbn in E. lia. }
  rewrite !H by (cbn; lia). reflexivity.
Qed.

Lemma Join_snoc (xs : list string) (e sep : string) :
  exists pre, GoStrings.Join (xs ++ [e]) sep = pre +:+ e.
Proof.
  destruct xs as [|x xs'].
  - exists "". reflexivity.
  - rewrite Join_app by discriminate.
    exists (GoStrings.Join (x :: xs') sep +:+ sep). rewrite append_assoc. reflexivity.
Qed.

(** [Clean] keeps the [.md] at the end of a path. *)
Lemma Clean_keeps_md (stem : string) :
  exists stem', GoFilepath.Clean (stem +:+ ".md") = stem' +:+ ".md".
Proof.
  unfold GoFilepath.Clean.
  set (rooted := GoStrings.HasPrefix (stem +:+ ".md") "/").
  destruct (Split_app_suffix stem ".md" "/" eq_refl) as (init & l & _ & ->).
  destruct (cleanElems_stack rooted init []) as (out' & _ & ->).
  cbn [GoFilepath.cleanElems].
  pose proof (md_normal l) as Hn. unfold normalElem in Hn.
  apply andb_true_iff in Hn as [Hn H3]. apply andb_true_iff in Hn as [H1 H2].
  apply negb_true_iff in H1, H2, H3. rewrite H1, H2, H3. cbn [rev].
  destruct (Join_snoc (rev out') (l +:+ ".md") "/") as (pre & ->).
  destruct rooted.
  - exists ("/" +:+ pre +:+ l). rewrite !append_assoc. reflexivity.
  - assert (Hne : String.eqb (pre +:+ l +:+ ".md") "" = false).
    { apply String.eqb_neq. intros E. apply (f_equal String.length) in E.
      rewrite !length_append in E. cbn in E. lia. }
    rewrite Hne. exists (pre +:+ l). rewrite append_assoc. reflexivity.
Qed.

(** The name that [GetOutputPath] and the server's [filePathOf] join with
    the directory ends in [.md]. *)
Lemma with_md_suffix (x : string) :
  exists stem,
    (if negb (GoStrings.HasSuffix x ".md") then x +:+ ".md" else x) = stem +:+ ".md".
Proof.
  destruct (GoStrings.HasSuffix x ".md") eqn:H; cbn [negb].
  - apply HasSuffix_spec in H. exact H.
  - exists x. reflexivity.
Qed.

Lemma Join_keeps_md (base stem : string) :
  exists stem', GoFilepath.Join [base; stem +:+ ".md"] = stem' +:+ ".md".
Proof.
  cbn [GoFilepath.Join].
  assert (Hne : String.eqb (stem +:+ ".md") "" = false).
  { apply String.eqb_neq. intros E. apply (f_equal String.length) in E.
    rewrite length_append in E. cbn in E. lia. }
  rewrite Hne. destruct (String.eqb base "").
  - cbn [GoStrings.Join]. apply Clean_keeps_md.
  - change (GoStrings.Join [base; stem +:+ ".md"] "/") with (base +:+ "/" +:+ stem +:+ ".md").
    rewrite <- !append_assoc. apply Clean_keeps_md.
Qed.

Lemma plain_of_normal (path : string) :
  Forall (fun e => GoFilepath.plainElem e = true)
    (List.filter normalElem (GoStrings.Split path "/")).
Proof.
  pose proof (Split_no_sep path "/") as H.
  induction H as [|e rest He _ IH]; [constructor|].
  cbn [List.filter]. destruct (normalElem e) eqn:Hn; [|exact IH].
  constructor; [|exact IH]. unfold GoFilepath.plainElem.
  unfold normalElem in Hn. rewrite Hn, He. reflexivity.
Qed.

(** Joined with a directory, a name without [..] lies below the cleaned
    directory. *)
Lemma Join_below (base name : string) :
  base <> "" ->
  Forall (fun e => e <> "..") (GoStrings.Split name "/") ->
  List.filter normalElem (GoStrings.Split name "/") <> [] ->
  GoFilepath.Join [base; name]
  = GoFilepath.below (GoFilepath.Clean base)
      (List.filter normalElem (GoStrings.Split name "/")).
Proof.
  intros Hb Hdd Hrel. rewrite Join_pair by exact Hb.
  unfold GoFilepath.Clean. rewrite HasPrefix_slash_app by exact Hb.
  set (rooted := GoStrings.HasPrefix base "/").
  change ("/" +:+ name) with (String "/" name). rewrite Split_app_sep.
  destruct (cleanElems_stack rooted (GoStrings.Split base "/") []) as (out' & Eb & ->).
  rewrite cleanElems_plain by exact Hdd.
  pose proof (cleanElems_kept keptElem rooted _ (kept_of_Split base) [] (List.Forall_nil _)) as Hk.
  rewrite Eb in *. clear Eb.
  set (rel := List.filter normalElem (GoStrings.Split name "/")) in *.
  assert (Hrk : Forall keptElem rel).
  { pose proof (plain_of_normal name) as Hp. fold rel in Hp.
    eapply Forall_impl; [exact Hp|]. intros e He. unfold GoFilepath.plainElem in He.
    apply andb_true_iff in He as [He H4]. apply andb_true_iff in He as [He H3].
    apply andb_true_iff in He as [H1 H2].
    apply negb_true_iff in H1, H2, H4. apply String.eqb_neq in H1, H2.
    repeat split; assumption. }
  destruct (Join_kept rel Hrel Hrk) as (Jr1 & Jr2 & Jr3).
  destruct (rev out') as [|e eb'].
  - cbn [app GoStrings.Join]. unfold GoFilepath.below. destruct rooted.
    + reflexivity.
    + cbn. apply String.eqb_neq in Jr1. rewrite Jr1. reflexivity.
  - destruct (Join_kept (e :: eb') ltac:(discriminate) Hk) as (J1 & J2 & J3).
    rewrite Join_app by (discriminate || exact Hrel).
    set (jb := GoStrings.Join (e :: eb') "/") in *.
    set (jr := GoStrings.Join rel "/") in *.
    unfold GoFilepath.below. destruct rooted.
    + change (String.eqb ("/" +:+ ?x) "") with false. cbv iota.
      change (String.eqb ("/" +:+ jb) ".") with false. cbv iota.
      assert (E : String.eqb ("/" +:+ jb) "/" = false).
      { apply String.eqb_neq. intros [= E]. contradiction. }
      rewrite E. rewrite append_assoc. reflexivity.
    + apply String.eqb_neq in J1, J2, J3. rewrite J1, J2, J3.
      assert (E : String.eqb (jb +:+ "/" +:+ jr) "" = false).
      { apply String.eqb_neq. intros E. apply String.eqb_neq in J1.
        destruct jb; [contradiction | discriminate E]. }
      rewrite E. reflexivity.
Qed.

End PathFacts.

Section NameFacts.

(** The name with [.md]: its elements are those of the name it is made
    from, the last one with the suffix. *)
Lemma name_with_md (x : string) :
  Forall (fun e => e <> "..") (GoStrings.Split x "/") ->
  let name := if negb (GoStrings.HasSuffix x ".md") then x +:+ ".md" else x in
  Forall (fun e => e <> "..") (GoStrings.Split name "/")
  /\ List.filter normalElem (GoStrings.Split name "/") <> [].
Proof.
  intros H name.
  assert (Hlast : forall init l,
             List.filter normalElem (init ++ [l +:+ ".md"]) <> []).
  { intros init l. rewrite List.filter_app. cbn [List.filter]. rewrite md_normal.
    intros E. apply app_eq_nil in E as [_ E]. discriminate E. }
  unfold name. destruct (GoStrings.HasSuffix x ".md") eqn:Hs; cbn [negb].
  - apply HasSuffix_spec in Hs as [stem ->]. split; [exact H|].
    destruct (Split_app_suffix stem ".md" "/" eq_refl) as (init & l & _ & ->).
    apply Hlast.
  - destruct (Split_app_suffix x ".md" "/" eq_refl) as (init & l & H1 & ->).
    split; [|apply Hlast].
    rewrite H1 in H. apply Forall_app in H as [H _].
    apply Forall_app. split; [exact H|].
    constructor; [|constructor]. intros E. pose proof (md_normal l) as Hn.
    rewrite E in Hn. discriminate Hn.
Qed.

(** The elements of a path without its leading separator are elements of
    the path. *)
Lemma TrimPrefix_elems (P : string -> Prop) (path : string) :
  Forall P (GoStrings.Split path "/") ->
  Forall P (GoStrings.Split (GoStrings.TrimPrefix path "/") "/").
Proof.
  rewrite TrimPrefix_slash. destruct path as [|c rest]; [auto|].
  cbn [Scraper.stripLeadingSeparator].
  destruct (Ascii.eqb c "/") eqn:E; [|auto].
  cbn [GoStrings.Split]. rewrite E. intros H. inversion H; assumption.
Qed.

(** The file that [GetOutputPath] resolves for a decoded path without
    [..], and that the server opens for such a request path, lies below
    the cleaned directory. *)
Lemma outputPathOf_below (path base : string) :
  base <> "" ->
  Forall (fun e => e <> "..") (GoStrings.Split path "/") ->
  exists rel,
    rel <> [] /\ Forall (fun e => GoFilepath.plainElem e = true) rel
    /\ Scraper.outputPathOf path base = GoFilepath.below (GoFilepath.Clean base) rel.
Proof.
  intros Hb H. unfold Scraper.outputPathOf.
  set (x := if String.eqb (GoStrings.TrimPrefix path "/") "" then "index"
            else GoStrings.TrimPrefix path "/").
  assert (Hx : Forall (fun e => e <> "..") (GoStrings.Split x "/")).
  { unfold x. destruct (String.eqb (GoStrings.TrimPrefix path "/") "").
    - repeat constructor. discriminate.
    - apply TrimPrefix_elems. exact H. }
  destruct (name_with_md x Hx) as [H1 H2]. cbn zeta in H1, H2.
  eexists. split; [exact H2|]. split; [apply plain_of_normal|].
  apply Join_below; assumption.
Qed.

Lemma outputPathOf_md (path base : string) :
  exists stem, Scraper.outputPathOf path base = stem +:+ ".md".
Proof.
  unfold Scraper.outputPathOf.
  destruct (with_md_suffix (if String.eqb (GoStrings.TrimPrefix path "/") "" then "index"
                            else GoStrings.TrimPrefix path "/")) as (stem & ->).
  apply Join_keeps_md.
Qed.

(** The server maps a request path to the file that the scraper writes
    for a URL of that path. *)
Lemma filePathOf_outputPathOf {W : Type} (h : Server.MarkdownHandler W) (path : string) :
  Server.filePathOf h path = Scraper.outputPathOf path (Server.baseDir h).
Proof.
  unfold Server.filePathOf, Scraper.outputPathOf.
  destruct (String.eqb (GoStrings.TrimPrefix path "/") ""); reflexivity.
Qed.

Lemma Clean_not_empty (path : string) : GoFilepath.Clean path <> "".
Proof.
  unfold GoFilepath.Clean.
  match goal with |- (if String.eqb ?o "" then _ else _) <> _ =>
    destruct (String.eqb_spec o ""); [discriminate | assumption] end.
Qed.

End NameFacts.

Module PathMore.

Import GoFmt GoTime Collab Collab.Notations Scraper.

(** X1.  A path that [GetOutputPath] returns ends in [.md], and the one
    call that was made on the file system is the [MkdirAll], with
    permission 0755, of the directory that holds it. *)
Theorem resolved_path_ends_in_md
    {W B F Doc Node : Type} (pkg : Packages Doc Node) (s : Service W B F)
    (rawURL baseDir : string) (w w' : W) (p : string) (t : list (Event B F)) :
  GetOutputPath pkg s rawURL baseDir w = (inr p, w', t) ->
  GoStrings.HasSuffix p ".md" = true
  /\ t = [EvMkdirAll (GoFilepath.Dir p) 493 None].
Proof.
  intros E. destruct (url_Parse pkg rawURL) as [e|u] eqn:Hu.
  { unfold GetOutputPath in E. rewrite Hu in E. discriminate. }
  rewrite (PathProofs.GetOutputPath_run pkg s rawURL baseDir w u Hu) in E. cbn zeta in E.
  destruct (MkdirAll (fs s) _ 493 w).1 eqn:Hm; [discriminate|].
  injection E as <- _ <-. split; [|reflexivity].
  apply HasSuffix_spec. apply outputPathOf_md.
Qed.

Lemma resolved_path_ends_in_md_witness :
  GoStrings.HasSuffix "/tmp/output/docs/api.md" ".md" = true
  /\ (GetOutputPath MiniDOM.packages (Fixtures.service 3 1) "https://example.com/docs/api"
        "/tmp/output" Fixtures.fresh).2
     = [EvMkdirAll (GoFilepath.Dir "/tmp/output/docs/api.md") 493 None].
Proof.
  eapply (resolved_path_ends_in_md MiniDOM.packages (Fixtures.service 3 1)).
  apply run_eta. vm_compute. reflexivity.
Defined.

(** X2.  For a root that is not empty and a URL whose decoded path has no
    [..] element, the path that [GetOutputPath] returns leads from the
    cleaned root down one or more plain elements: the file lies inside the
    output directory. *)
Theorem resolved_path_below_root
    {W B F Doc Node : Type} (pkg : Packages Doc Node) (s : Service W B F)
    (rawURL baseDir : string) (u : GoURL.URL) (w w' : W) (p : string)
    (t : list (Event B F)) :
  url_Parse pkg rawURL = inr u ->
  baseDir <> "" ->
  Forall (fun e => e <> "..") (GoStrings.Split (GoURL.Path u) "/") ->
  GetOutputPath pkg s rawURL baseDir w = (inr p, w', t) ->
  exists rel,
    rel <> [] /\ Forall (fun e => GoFilepath.plainElem e = true) rel
    /\ p = GoFilepath.below (GoFilepath.Clean baseDir) rel.
Proof.
  intros Hu Hb Hdd E.
  rewrite (PathProofs.GetOutputPath_run pkg s rawURL baseDir w u Hu) in E. cbn zeta in E.
  destruct (MkdirAll (fs s) _ 493 w).1; [discriminate|].
  injection E as <- _ _. apply outputPathOf_below; assumption.
Qed.

Lemma resolved_path_below_root_witness :
  exists rel,
    rel <> [] /\ Forall (fun e => GoFilepath.plainElem e = true) rel
    /\ "/tmp/output/docs/api.md" = GoFilepath.below (GoFilepath.Clean "/tmp/output") rel.
Proof.
  eapply (resolved_path_below_root MiniDOM.packages (Fixtures.service 3 1)
            "https://example.com/docs/api" "/tmp/output"
            (GoURL.mkURL "https" "" "example.com" "/docs/api" "" "") Fixtures.fresh).
  - vm_compute. reflexivity.
  - discriminate.
  - vm_compute. repeat constructor; discriminate.
  - apply run_eta. vm_compute. reflexivity.
Defined.

(** The hypothesis on [..] is needed: the path resolved for a URL that
    climbs out of the root lies outside it. *)
Example climbing_path_leaves_root :
  (GetOutputPath MiniDOM.packages (Fixtures.service 3 1)
     "https://example.com/../../etc/passwd" "/tmp/output" Fixtures.fresh).1.1
  = inr "/etc/passwd.md".
Proof. vm_compute. reflexivity. Qed.

End PathMore.

Module ServerMore.

Import GoFmt Collab Collab.Notations Server.

Ltac code_listed :=
  cbn; unfold StatusOK, StatusBadRequest, StatusNotFound, StatusMethodNotAllowed,
    StatusInternalServerError; auto 10.

Ltac not_served :=
  cbn; unfold StatusOK, StatusBadRequest, StatusNotFound, StatusMethodNotAllowed,
    StatusInternalServerError;
  split; [intros H; discriminate H | intros (c & H & _); discriminate H].

(** X3.  [ServeHTTP] answers with one of the statuses 200, 400, 404, 405
    and 500.  On the file system it makes no call, or one [Stat] that did
    not find the file, which it answers with 404, or a [Stat] that found
    the file and then one [ReadFile] of it.  It answers 200 exactly when
    the file was found and read, with the markdown headers and the content
    read.  It calls the file system for a GET request only, and only for a
    path that starts with the base directory and ends in [.md]. *)
Theorem served_only_after_stat_and_read
    {W : Type} (h : MarkdownHandler W) (r : Request) (w : W) :
  let fp := filePathOf h (URL_Path r) in
  let reply := (ServeHTTP h r w).1.1 in
  let calls := fileSystemCalls (ServeHTTP h r w).2 in
  In (Code reply) [200; 400; 404; 405; 500]
  /\ (calls = []
      \/ (exists st, calls = [EvStat fp st] /\ st <> inr true /\ Code reply = 404)
      \/ (exists c, calls = [EvStat fp (inr true); EvReadFile fp c]))
  /\ (Code reply = 200 <->
      exists content,
        calls = [EvStat fp (inr true); EvReadFile fp (inr content)]
        /\ reply = mkReply 200 servedHeader content)
  /\ (calls <> [] ->
      Method r = "GET"
      /\ GoStrings.HasPrefix fp (baseDir h) = true
      /\ GoStrings.HasSuffix fp ".md" = true).
Proof.
  cbn zeta. unfold ServeHTTP.
  assert (Hmd : GoStrings.HasSuffix (filePathOf h (URL_Path r)) ".md" = true).
  { apply HasSuffix_spec. rewrite filePathOf_outputPathOf. apply outputPathOf_md. }
  set (fp := filePathOf h (URL_Path r)) in *. clearbody fp.
  destruct (String.eqb_spec (Method r) "GET") as [HM|HM]; cbn [negb].
  2:{ split; [code_listed|]. split; [left; reflexivity|]. split; [not_served|].
      intros H. destruct H. reflexivity. }
  destruct (GoStrings.HasPrefix fp (baseDir h)) eqn:HP; cbn [negb].
  2:{ split; [code_listed|]. split; [left; reflexivity|]. split; [not_served|].
      intros H. destruct H. reflexivity. }
  unfold bind, call_Stat, call_ReadFile, call_Printf, ret.
  destruct (Stat (fs h) fp w) as [[e|[|]] w1].
  - split; [code_listed|]. split.
    { right. left. eexists. cbn. repeat split. discriminate. }
    split; [not_served|]. intros _. auto.
  - destruct (ReadFile (fs h) fp w1) as [[e|content] w2].
    + split; [code_listed|]. split.
      { right. right. eexists. reflexivity. }
      split; [not_served|]. intros _. auto.
    + split; [code_listed|]. split.
      { right. right. eexists. reflexivity. }
      split; [|intros _; auto].
      cbn. split; [|reflexivity]. intros _. exists content. split; reflexivity.
  - split; [code_listed|]. split.
    { right. left. eexists. cbn. repeat split. discriminate. }
    split; [not_served|]. intros _. auto.
Qed.

(** X4.  The [.md] at the end of a request path may be left out: a
    request for [p] and a request for [p.md] are served alike. *)
Theorem md_suffix_is_optional
    {W : Type} (h : MarkdownHandler W) (method p : string) (w : W) :
  p <> "" -> p <> "/" -> GoStrings.HasSuffix p ".md" = false ->
  filePathOf h (p +:+ ".md") = filePathOf h p
  /\ ServeHTTP h (mkRequest method (p +:+ ".md")) w = ServeHTTP h (mkRequest method p) w.
Proof.
  intros H0 H1 Hs.
  assert (E : filePathOf h (p +:+ ".md") = filePathOf h p).
  { unfold filePathOf. rewrite !TrimPrefix_slash.
    assert (Ht : Scraper.stripLeadingSeparator (p +:+ ".md")
                 = Scraper.stripLeadingSeparator p +:+ ".md"
                 /\ Scraper.stripLeadingSeparator p <> ""
                 /\ GoStrings.HasSuffix (Scraper.stripLeadingSeparator p) ".md" = false).
    { destruct p as [|c q]; [contradiction|].
      change (String c q +:+ ".md") with (String c (q +:+ ".md")).
      cbn [Scraper.stripLeadingSeparator].
      destruct (Ascii.eqb_spec c "/") as [->|Hc].
      - repeat split.
        + intros ->. contradiction.
        + destruct (GoStrings.HasSuffix q ".md") eqn:Hq; [|reflexivity].
          apply HasSuffix_spec in Hq as [stem ->].
          assert (Hs' : GoStrings.HasSuffix (String "/" (stem +:+ ".md")) ".md" = true)
            by (apply HasSuffix_spec; exists (String "/" stem); reflexivity).
          congruence.
      - repeat split; [discriminate | exact Hs]. }
    destruct Ht as (-> & Hne & Hsf).
    apply String.eqb_neq in Hne. rewrite Hne.
    assert (Hne2 : String.eqb (Scraper.stripLeadingSeparator p +:+ ".md") "" = false).
    { apply String.eqb_neq. intros E. apply (f_equal String.length) in E.
      rewrite length_append in E. cbn in E. lia. }
    rewrite Hne2, Hsf.
    assert (Hsf2 : GoStrings.HasSuffix (Scraper.stripLeadingSeparator p +:+ ".md") ".md"
                   = true) by (apply HasSuffix_spec; eauto).
    rewrite Hsf2. reflexivity. }
  split; [exact E|]. unfold ServeHTTP. cbn [Method URL_Path]. rewrite E. reflexivity.
Qed.

Lemma md_suffix_is_optional_witness :
  filePathOf (mockHandler "/base") ("/docs/api" +:+ ".md")
  = filePathOf (mockHandler "/base") "/docs/api"
  /\ ServeHTTP (mockHandler "/base") (mkRequest "GET" ("/docs/api" +:+ ".md"))
       Fixtures.siblingFile
     = ServeHTTP (mockHandler "/base") (mkRequest "GET" "/docs/api") Fixtures.siblingFile.
Proof.
  apply md_suffix_is_optional; [discriminate | discriminate | reflexivity].
Defined.

(** X5.  With a cleaned base directory other than [.], a GET request
    whose path has no [..] element is not refused as an invalid path: the
    file asked for lies below the base directory, and the file system is
    asked for exactly that file. *)
Theorem plain_request_reaches_the_file
    {W : Type} (h : MarkdownHandler W) (r : Request) (w : W) :
  Method r = "GET" ->
  GoFilepath.Clean (baseDir h) = baseDir h ->
  baseDir h <> "." ->
  Forall (fun e => e <> "..") (GoStrings.Split (URL_Path r) "/") ->
  exists rel st,
    rel <> [] /\ Forall (fun e => GoFilepath.plainElem e = true) rel
    /\ filePathOf h (URL_Path r) = GoFilepath.below (baseDir h) rel
    /\ hd_error (ServeHTTP h r w).2 = Some (EvStat (GoFilepath.below (baseDir h) rel) st)
    /\ Code (ServeHTTP h r w).1.1 <> 400.
Proof.
  intros HM HC Hdot Hdd.
  assert (Hb : baseDir h <> "").
  { rewrite <- HC. apply Clean_not_empty. }
  destruct (outputPathOf_below (URL_Path r) (baseDir h) Hb Hdd) as (rel & Hr & Hp & E).
  rewrite <- filePathOf_outputPathOf, HC in E.
  assert (HP : GoStrings.HasPrefix (filePathOf h (URL_Path r)) (baseDir h) = true).
  { rewrite E. unfold GoFilepath.below.
    apply String.eqb_neq in Hdot. rewrite Hdot.
    destruct (String.eqb (baseDir h) "/"); apply HasPrefix_app. }
  unfold ServeHTTP. rewrite HM, HP. change (String.eqb "GET" "GET") with true.
  cbn [negb]. rewrite E.
  unfold bind, call_Stat, call_ReadFile, call_Printf, ret.
  destruct (Stat (fs h) (GoFilepath.below (baseDir h) rel) w) as [[e|[|]] w1].
  - exists rel, (inl e). repeat split; auto; cbn; unfold StatusNotFound; lia.
  - exists rel, (inr true). repeat split; auto.
    + destruct (ReadFile (fs h) _ w1) as [[e|c] w2]; reflexivity.
    + destruct (ReadFile (fs h) _ w1) as [[e|c] w2]; cbn; unfold http_Error; cbn;
        unfold StatusInternalServerError, StatusOK; lia.
  - exists rel, (inr false). repeat split; auto; cbn; unfold StatusNotFound; lia.
Qed.

Lemma plain_request_reaches_the_file_witness :
  exists rel st,
    rel <> [] /\ Forall (fun e => GoFilepath.plainElem e = true) rel
    /\ filePathOf (mockHandler "/base") "/docs/api" = GoFilepath.below "/base" rel
    /\ hd_error (ServeHTTP (mockHandler "/base") (mkRequest "GET" "/docs/api")
                   Fixtures.siblingFile).2
       = Some (EvStat (GoFilepath.below "/base" rel) st)
    /\ Code (ServeHTTP (mockHandler "/base") (mkRequest "GET" "/docs/api")
               Fixtures.siblingFile).1.1 <> 400.
Proof.
  apply (plain_request_reaches_the_file (mockHandler "/base")
           (mkRequest "GET" "/docs/api") Fixtures.siblingFile).
  - reflexivity.
  - vm_compute. reflexivity.
  - discriminate.
  - vm_compute. repeat constructor; discriminate.
Defined.

(** X6.  The server finds what the scraper saved: the file that
    [GetOutputPath] resolves for a URL under a root is the file that the
    handler over that root asks for when the path of the URL is requested,
    and when the file system has it, its content is the answer. *)
Theorem served_file_is_saved_file
    {W B F Doc Node V : Type} (pkg : Scraper.Packages Doc Node) (s : Scraper.Service W B F)
    (h : MarkdownHandler V) (rawURL : string) (u : GoURL.URL) (w w' : W) (p : string)
    (t : list (Event B F)) :
  Scraper.url_Parse pkg rawURL = inr u ->
  Scraper.GetOutputPath pkg s rawURL (baseDir h) w = (inr p, w', t) ->
  filePathOf h (GoURL.Path u) = p
  /\ forall (v v1 v2 : V) (content : string),
       GoStrings.HasPrefix p (baseDir h) = true ->
       Stat (fs h) p v = (inr true, v1) ->
       ReadFile (fs h) p v1 = (inr content, v2) ->
       (ServeHTTP h (mkRequest "GET" (GoURL.Path u)) v).1.1
       = mkReply 200 servedHeader content.
Proof.
  intros Hu E.
  rewrite (PathProofs.GetOutputPath_run pkg s rawURL (baseDir h) w u Hu) in E.
  cbn zeta in E. destruct (Collab.MkdirAll (Scraper.fs s) _ 493 w).1; [discriminate|].
  injection E as <- _ _.
  assert (Ef : filePathOf h (GoURL.Path u) = Scraper.outputPathOf (GoURL.Path u) (baseDir h))
    by apply filePathOf_outputPathOf.
  split; [exact Ef|]. intros v v1 v2 content HP HS HR.
  unfold ServeHTTP. cbn [Method URL_Path]. change (String.eqb "GET" "GET") with true.
  cbn [negb]. rewrite Ef, HP. cbn [negb].
  unfold bind, call_Stat, call_ReadFile, call_Printf, ret. rewrite HS, HR. reflexivity.
Qed.

Lemma served_file_is_saved_file_witness :
  filePathOf (mockHandler "/tmp/output") "/docs/api" = "/tmp/output/docs/api.md"
  /\ (ServeHTTP (mockHandler "/tmp/output") (mkRequest "GET" "/docs/api")
        (mkWorld (SetFile "/tmp/output/docs/api.md" "# Title" NewMockFileSystem) [])).1.1
     = mkReply 200 servedHeader "# Title".
Proof.
  destruct (served_file_is_saved_file MiniDOM.packages (Fixtures.service 3 1)
              (mockHandler "/tmp/output") "https://example.com/docs/api"
              (GoURL.mkURL "https" "" "example.com" "/docs/api" "" "")
              Fixtures.fresh _ "/tmp/output/docs/api.md" _
              ltac:(vm_compute; reflexivity)
              ltac:(apply run_eta; vm_compute; reflexivity)) as [H1 H2].
  split; [exact H1|].
  apply (H2 (mkWorld (SetFile "/tmp/output/docs/api.md" "# Title" NewMockFileSystem) [])
            (mkWorld (SetFile "/tmp/output/docs/api.md" "# Title" NewMockFileSystem) [])
            (mkWorld (SetFile "/tmp/output/docs/api.md" "# Title" NewMockFileSystem) []));
    vm_compute; reflexivity.
Defined.

End ServerMore.

(** ** The fetch *)

Module FetchMore.

Import GoFmt GoTime GoInt Collab Collab.Notations Scraper.

Section WithService.

Context {W B F : Type}.
Variable s : Service W B F.
Variable url : string.

(** What precedes the request of attempt [a]: for a second or later
    attempt, the line that announces the retry and the pause. *)
Definition preamble (a : Z) : list (Event B F) :=
  if 0 <? a then
    [EvPrintf "Retrying %s in %v (attempt %d/%d)"
       [VString url; VDuration (backoffDuration a); VInt (add64 a 1);
        VInt (add64 (MaxRetries (config s)) 1)];
     EvSleep (backoffDuration a)]
  else [].

Definition is2xx (resp : Response B) : bool :=
  (200 <=? StatusCode resp) && (StatusCode resp <? 300).

(** The traces of the loop from attempt [a] on, with what it returns. *)
Inductive fetchRun : Z -> option error -> list (Event B F) -> error + Response B -> Prop :=
| run_out a lastErr :
    MaxRetries (config s) < a ->
    fetchRun a lastErr [] (inl (exhausted s lastErr))
| run_ok a lastErr resp :
    a <= MaxRetries (config s) -> is2xx resp = true ->
    fetchRun a lastErr (preamble a ++ [EvGet url (inr resp)]) (inr resp)
| run_404 a lastErr resp :
    a <= MaxRetries (config s) -> is2xx resp = false -> StatusCode resp = 404 ->
    fetchRun a lastErr (preamble a ++ [EvGet url (inr resp); EvBodyClose (Body resp)])
      (inl (Errorf "404 not found: %s" [VString url]))
| run_err a lastErr err t r :
    a <= MaxRetries (config s) ->
    fetchRun (a + 1) (Some err) t r ->
    fetchRun a lastErr (preamble a ++ EvGet url (inl err) :: t) r
| run_status a lastErr resp t r :
    a <= MaxRetries (config s) -> is2xx resp = false -> StatusCode resp <> 404 ->
    fetchRun (a + 1) (Some (Errorf "HTTP %d: %s" [VInt (StatusCode resp); VString url])) t r ->
    fetchRun a lastErr
      (preamble a ++ EvGet url (inr resp) :: EvBodyClose (Body resp) :: t) r.

Lemma fetchLoop_fetchRun :
  forall (n : nat) (a : Z) (lastErr : option error) (w : W) r w' t,
    Z.of_nat n = Z.max 0 (MaxRetries (config s) + 1 - a) ->
    fetchLoop s url n a lastErr w = (r, w', t) ->
    fetchRun a lastErr t r.
Proof.
  induction n as [|n IH]; intros a lastErr w r w' t Hn E.
  - cbn [fetchLoop] in E. run_inv E. apply run_out. lia.
  - cbn [fetchLoop] in E.
    destruct (Z.leb_spec a (MaxRetries (config s))) as [Ha|Ha]; [|lia].
    apply bind_inv in E as (u & w0 & t0 & t1 & E0 & E & ->).
    assert (H0 : t0 = preamble a).
    { unfold preamble. destruct (0 <? a); run_inv E0; reflexivity. }
    subst t0. clear E0.
    apply bind_inv in E as (g & w1 & tg & t2 & EG & E & ->).
    apply call_Get_inv in EG as [_ ->].
    destruct g as [err|resp].
    + apply IH in E; [|lia]. apply run_err; assumption.
    + fold (is2xx resp) in E. destruct (is2xx resp) eqn:H2.
      { run_inv E. apply run_ok; assumption. }
      destruct (Z.eqb_spec (StatusCode resp) 404) as [H4|H4].
      { run_inv E. apply run_404; assumption. }
      run_inv E. apply IH in E; [|lia].
      cbn [app]. apply run_status; assumption.
Qed.

Lemma FetchWithRetries_fetchRun (w : W) r w' t :
  FetchWithRetries s url w = (r, w', t) -> fetchRun 0 None t r.
Proof.
  unfold FetchWithRetries. apply fetchLoop_fetchRun. lia.
Qed.

(** *** What the observers make of the pieces of a run *)

Lemma attempts_app (t1 t2 : list (Event B F)) :
  attempts (t1 ++ t2) = (attempts t1 + attempts t2)%nat.
Proof. unfold attempts. rewrite List.filter_app, length_app. reflexivity. Qed.

Lemma requested_app (t1 t2 : list (Event B F)) :
  requested (t1 ++ t2) = (requested t1 ++ requested t2)%list.
Proof. apply flat_map_app. Qed.

Lemma bodiesReceived_app (t1 t2 : list (Event B F)) :
  bodiesReceived (t1 ++ t2) = (bodiesReceived t1 ++ bodiesReceived t2)%list.
Proof. apply flat_map_app. Qed.

Lemma bodiesClosed_app (t1 t2 : list (Event B F)) :
  bodiesClosed (t1 ++ t2) = (bodiesClosed t1 ++ bodiesClosed t2)%list.
Proof. apply flat_map_app. Qed.

Lemma preamble_facts (a : Z) :
  attempts (preamble a) = O /\ requested (preamble a) = []
  /\ bodiesReceived (preamble a) = [] /\ bodiesClosed (preamble a) = []
  /\ allTransient (preamble a) = true
  /\ schedule (preamble a) = (if 0 <? a then [Pause (backoffDuration a)] else [])
  /\ forall init, lastFailureFrom init (preamble a) = init.
Proof. unfold preamble. destruct (0 <? a); repeat split. Qed.

Lemma seqZ_one (a : Z) : seqZ a (Z.of_nat 1) = [a].
Proof. rewrite seqZ_cons by lia. reflexivity. Qed.

(** The requests of a run: all for [url], within the budget that is
    left, each with its pause before it. *)
Lemma fetchRun_budget (a : Z) (lastErr : option error) t r :
  fetchRun a lastErr t r ->
  Z.of_nat (attempts t) <= Z.max 0 (MaxRetries (config s) + 1 - a)
  /\ requested t = repeat url (attempts t)
  /\ schedule t
     = flat_map (ticksOfAttempt backoffDuration) (seqZ a (Z.of_nat (attempts t))).
Proof.
  induction 1 as [a lastErr Ha | a lastErr resp Ha H2 | a lastErr resp Ha H2 H4
                 | a lastErr err t r Ha _ (IH1 & IH2 & IH3)
                 | a lastErr resp t r Ha H2 H4 _ (IH1 & IH2 & IH3)];
    destruct (preamble_facts a) as (P1 & P2 & _ & _ & _ & P6 & _).
  - cbn. repeat split. lia.
  - rewrite attempts_app, requested_app, FetchProofs.schedule_app, P1, P2, P6.
    cbn. rewrite seqZ_one. split; [lia|]. split; [reflexivity|].
    cbn [flat_map]. rewrite app_nil_r. reflexivity.
  - rewrite attempts_app, requested_app, FetchProofs.schedule_app, P1, P2, P6.
    cbn. rewrite seqZ_one. split; [lia|]. split; [reflexivity|].
    cbn [flat_map]. rewrite app_nil_r. reflexivity.
  - rewrite attempts_app, requested_app, FetchProofs.schedule_app, P1, P2, P6.
    change (attempts (EvGet url (inl err) :: t)) with (S (attempts t)).
    change (requested (EvGet url (inl err) :: t)) with (url :: requested t).
    change (schedule (EvGet url (inl err) :: t)) with (Attempt :: schedule t).
    rewrite IH2, IH3. cbn [Nat.add repeat app]. repeat split; [lia|].
    rewrite (seqZ_cons a) by lia. cbn [flat_map].
    replace (Z.pred (Z.of_nat (S (attempts t)))) with (Z.of_nat (attempts t)) by lia.
    unfold ticksOfAttempt at 2. rewrite <- app_assoc. reflexivity.
  - rewrite attempts_app, requested_app, FetchProofs.schedule_app, P1, P2, P6.
    change (attempts (EvGet url (inr resp) :: EvBodyClose (Body resp) :: t))
      with (S (attempts t)).
    change (requested (EvGet url (inr resp) :: EvBodyClose (Body resp) :: t))
      with (url :: requested t).
    change (schedule (EvGet url (inr resp) :: EvBodyClose (Body resp) :: t))
      with (Attempt :: schedule t).
    rewrite IH2, IH3. cbn [Nat.add repeat app]. repeat split; [lia|].
    rewrite (seqZ_cons a) by lia. cbn [flat_map].
    replace (Z.pred (Z.of_nat (S (attempts t)))) with (Z.of_nat (attempts t)) by lia.
    unfold ticksOfAttempt at 2. rewrite <- app_assoc. reflexivity.
Qed.

Lemma bodiesRead_app (t1 t2 : list (Event B F)) :
  bodiesRead (t1 ++ t2) = (bodiesRead t1 ++ bodiesRead t2)%list.
Proof. apply flat_map_app. Qed.

(** The loop reads no body. *)
Lemma fetchRun_unread (a : Z) (lastErr : option error) t r :
  fetchRun a lastErr t r -> bodiesRead t = [].
Proof.
  assert (P : forall a, bodiesRead (preamble a) = [])
    by (intros a'; unfold preamble; destruct (0 <? a'); reflexivity).
  induction 1; rewrite ?bodiesRead_app, ?P; cbn; auto.
Qed.

(** The loop logs nothing but the lines that announce a retry. *)
Lemma fetchRun_logged (a : Z) (lastErr : option error) t r :
  fetchRun a lastErr t r ->
  Forall (fun l => l.1 = "Retrying %s in %v (attempt %d/%d)") (logged t).
Proof.
  assert (P : forall a, Forall (fun l => l.1 = "Retrying %s in %v (attempt %d/%d)")
                          (logged (preamble a)))
    by (intros a'; unfold preamble; destruct (0 <? a'); repeat constructor).
  induction 1; rewrite ?BatchProofs.logged_app; cbn [logged flat_map app];
    rewrite ?Forall_app; auto.
Qed.

Lemma transient_status (resp : Response B) :
  is2xx resp = false -> StatusCode resp <> 404 -> transient (inr resp) = true.
Proof.
  unfold is2xx, transient. intros -> H4.
  destruct (Z.eqb_spec (StatusCode resp) 404); [contradiction | reflexivity].
Qed.

(** A run that returns a response: the response has a 2xx status and
    came from the last request; the requests before it failed
    transiently, and the bodies they brought were closed. *)
Lemma fetchRun_success (a : Z) (lastErr : option error) t r :
  fetchRun a lastErr t r ->
  forall resp, r = inr resp ->
    is2xx resp = true
    /\ exists t0, t = (t0 ++ [EvGet url (inr resp)])%list
                  /\ allTransient t0 = true
                  /\ bodiesClosed t0 = bodiesReceived t0.
Proof.
  induction 1 as [a lastErr Ha | a lastErr resp Ha H2 | a lastErr resp Ha H2 H4
                 | a lastErr err t r Ha _ IH
                 | a lastErr resp t r Ha H2 H4 _ IH];
    intros resp0 E; try discriminate E;
    destruct (preamble_facts a) as (_ & _ & P3 & P4 & P5 & _ & _).
  - injection E as <-. split; [exact H2|]. exists (preamble a).
    repeat split; [exact P5 | congruence].
  - destruct (IH resp0 E) as (H2 & t0 & -> & Ht & Hb). split; [exact H2|].
    exists (preamble a ++ EvGet url (inl err) :: t0)%list.
    rewrite <- app_assoc. split; [reflexivity|].
    rewrite FetchProofs.allTransient_app, bodiesClosed_app, bodiesReceived_app, P3, P4, P5.
    cbn. split; assumption.
  - destruct (IH resp0 E) as (H2' & t0 & -> & Ht & Hb). split; [exact H2'|].
    exists (preamble a ++ EvGet url (inr resp) :: EvBodyClose (Body resp) :: t0)%list.
    rewrite <- app_assoc. split; [reflexivity|].
    rewrite FetchProofs.allTransient_app, bodiesClosed_app, bodiesReceived_app, P3, P4, P5.
    cbn [app allTransient forallb bodiesClosed bodiesReceived flat_map andb].
    rewrite (transient_status resp H2 H4). cbn [andb].
    split; [exact Ht|]. f_equal. exact Hb.
Qed.

(** A run that fails: every body received was closed, and the failure
    is the not-found error, right after a 404, or the exhausted budget
    after requests that all failed transiently. *)
Lemma fetchRun_failure (a : Z) (lastErr : option error) t r :
  fetchRun a lastErr t r ->
  forall e, r = inl e ->
    bodiesClosed t = bodiesReceived t
    /\ ((e = Errorf "404 not found: %s" [VString url]
         /\ exists t0 resp,
              t = (t0 ++ [EvGet url (inr resp); EvBodyClose (Body resp)])%list
              /\ StatusCode resp = 404 /\ allTransient t0 = true)
        \/ (e = exhausted s (lastFailureFrom lastErr t)
            /\ allTransient t = true
            /\ Z.of_nat (attempts t) = Z.max 0 (MaxRetries (config s) + 1 - a))).
Proof.
  induction 1 as [a lastErr Ha | a lastErr resp Ha H2 | a lastErr resp Ha H2 H4
                 | a lastErr err t r Ha _ IH
                 | a lastErr resp t r Ha H2 H4 _ IH];
    intros e E; try discriminate E;
    destruct (preamble_facts a) as (P1 & _ & P3 & P4 & P5 & _ & P7).
  - injection E as <-. split; [reflexivity|]. right. cbn. repeat split. lia.
  - injection E as <-.
    rewrite bodiesClosed_app, bodiesReceived_app, P3, P4. split; [reflexivity|].
    left. split; [reflexivity|]. exists (preamble a), resp. auto.
  - destruct (IH e E) as (Hb & Hc).
    rewrite bodiesClosed_app, bodiesReceived_app, P3, P4. split; [exact Hb|].
    destruct Hc as [(-> & t0 & resp & -> & H4 & Ht) | (-> & Ht & Hn)].
    + left. split; [reflexivity|].
      exists (preamble a ++ EvGet url (inl err) :: t0)%list, resp.
      rewrite <- app_assoc. split; [reflexivity|]. split; [exact H4|].
      rewrite FetchProofs.allTransient_app, P5. exact Ht.
    + right. rewrite FetchProofs.lastFailureFrom_app, P7, FetchProofs.allTransient_app, P5,
        attempts_app, P1.
      split; [reflexivity|]. split; [exact Ht|].
      change (attempts (EvGet url (inl err) :: t)) with (S (attempts t)). lia.
  - destruct (IH e E) as (Hb & Hc).
    rewrite bodiesClosed_app, bodiesReceived_app, P3, P4.
    split; [cbn; f_equal; exact Hb|].
    pose proof (transient_status resp H2 H4) as Htr.
    destruct Hc as [(-> & t0 & resp' & -> & H4' & Ht) | (-> & Ht & Hn)].
    + left. split; [reflexivity|].
      exists (preamble a ++ EvGet url (inr resp) :: EvBodyClose (Body resp) :: t0)%list,
        resp'.
      rewrite <- app_assoc. split; [reflexivity|]. split; [exact H4'|].
      rewrite FetchProofs.allTransient_app, P5.
      cbn [allTransient forallb andb]. rewrite Htr. exact Ht.
    + right. rewrite FetchProofs.lastFailureFrom_app, P7, FetchProofs.allTransient_app, P5,
        attempts_app, P1.
      split; [|split].
      * cbn [lastFailureFrom foldl recordedFailure]. rewrite Htr. reflexivity.
      * cbn [allTransient forallb andb]. rewrite Htr. exact Ht.
      * change (attempts (EvGet url (inr resp) :: EvBodyClose (Body resp) :: t))
          with (S (attempts t)). lia.
Qed.

End WithService.

(** X7.  Whatever the network answers, [FetchWithRetries] makes at most
    [MaxRetries + 1] requests, all of them for the URL it was given, and
    it pauses exactly before the second and each later request, for the
    backoff of that attempt.  [MaxRetries] is any [int] but the largest,
    for which the counter of the loop would wrap. *)
Theorem fetch_stays_within_budget
    {W B F : Type} (s : Service W B F) (url : string) (w : W) :
  MaxRetries (config s) < 2 ^ 63 - 1 ->
  let t := (FetchWithRetries s url w).2 in
  (attempts t <= Z.to_nat (MaxRetries (config s) + 1))%nat
  /\ requested t = repeat url (attempts t)
  /\ schedule t
     = flat_map (ticksOfAttempt backoffDuration) (seqZ 0 (Z.of_nat (attempts t))).
Proof.
  intros _ t. subst t.
  destruct (FetchWithRetries s url w) as [[r w'] t] eqn:E. cbn [snd].
  apply FetchWithRetries_fetchRun, fetchRun_budget in E as (H1 & H2 & H3).
  repeat split; [lia | exact H2 | exact H3].
Qed.

Lemma fetch_stays_within_budget_witness :
  let t := (FetchWithRetries (Fixtures.service 3 1) "https://example.com"
              Fixtures.serverError).2 in
  (attempts t <= Z.to_nat (3 + 1))%nat
  /\ requested t = repeat "https://example.com" (attempts t)
  /\ schedule t
     = flat_map (ticksOfAttempt backoffDuration) (seqZ 0 (Z.of_nat (attempts t))).
Proof.
  apply (fetch_stays_within_budget (Fixtures.service 3 1) "https://example.com"
           Fixtures.serverError).
  cbn. lia.
Defined.

(** X8.  When [FetchWithRetries] returns a response, its status is 2xx
    and it is what the last request brought; every request before it
    failed transiently, and the body of every response received before it
    was closed. *)
Theorem fetched_response_is_2xx
    {W B F : Type} (s : Service W B F) (url : string) (w w' : W)
    (resp : Response B) (t : list (Event B F)) :
  FetchWithRetries s url w = (inr resp, w', t) ->
  200 <= StatusCode resp < 300
  /\ exists t0, t = (t0 ++ [EvGet url (inr resp)])%list
                /\ allTransient t0 = true
                /\ bodiesClosed t0 = bodiesReceived t0.
Proof.
  intros E. apply FetchWithRetries_fetchRun in E.
  destruct (fetchRun_success s url _ _ _ _ E resp eq_refl) as (H2 & Ht).
  split; [|exact Ht]. unfold is2xx in H2.
  apply andb_true_iff in H2 as [H1 H3]. apply Z.leb_le in H1. apply Z.ltb_lt in H3. lia.
Qed.

Lemma fetched_response_is_2xx_witness :
  200 <= StatusCode (mkResponse 200 "https://example.com/1") < 300
  /\ exists t0,
       (FetchWithRetries (Fixtures.service 3 1) "https://example.com/1" Fixtures.fourPages).2
       = (t0 ++ [EvGet "https://example.com/1"
                   (inr (mkResponse 200 "https://example.com/1"))])%list
       /\ allTransient t0 = true
       /\ bodiesClosed t0 = bodiesReceived t0.
Proof.
  eapply (fetched_response_is_2xx (Fixtures.service 3 1) "https://example.com/1"
            Fixtures.fourPages).
  apply run_eta. vm_compute. reflexivity.
Defined.

(** X9.  [FetchWithRetries] fails in two ways only: with the not-found
    error, right after a response with status 404 (at the first or at a
    later attempt), or with the exhausted-retries error that wraps the
    last failure, after [MaxRetries + 1] requests that all failed
    transiently.  Either way the body of every response received has been
    closed.  [MaxRetries] is any [int] but the largest. *)
Theorem fetch_fails_by_404_or_exhaustion
    {W B F : Type} (s : Service W B F) (url : string) (w w' : W)
    (e : error) (t : list (Event B F)) :
  MaxRetries (config s) < 2 ^ 63 - 1 ->
  FetchWithRetries s url w = (inl e, w', t) ->
  bodiesClosed t = bodiesReceived t
  /\ ((e = Errorf "404 not found: %s" [VString url]
       /\ exists t0 resp,
            t = (t0 ++ [EvGet url (inr resp); EvBodyClose (Body resp)])%list
            /\ StatusCode resp = 404 /\ allTransient t0 = true)
      \/ (e = exhausted s (lastFailure t)
          /\ allTransient t = true
          /\ attempts t = Z.to_nat (MaxRetries (config s) + 1))).
Proof.
  intros _ E. apply FetchWithRetries_fetchRun in E.
  destruct (fetchRun_failure s url _ _ _ _ E e eq_refl) as (Hb & [H|(H1 & H2 & H3)]).
  - split; [exact Hb|]. left. exact H.
  - split; [exact Hb|]. right. repeat split; [exact H1 | exact H2 | lia].
Qed.

Lemma fetch_fails_by_404_or_exhaustion_witness :
  let run := FetchWithRetries (Fixtures.service 3 1) "https://example.com"
               Fixtures.serverError in
  bodiesClosed run.2 = bodiesReceived run.2
  /\ ((exhausted (Fixtures.service 3 1)
         (Some (Errorf "HTTP %d: %s" [VInt 500; VString "https://example.com"]))
       = Errorf "404 not found: %s" [VString "https://example.com"]
       /\ exists t0 resp,
            run.2 = (t0 ++ [EvGet "https://example.com" (inr resp);
                            EvBodyClose (Body resp)])%list
            /\ StatusCode resp = 404 /\ allTransient t0 = true)
      \/ (exhausted (Fixtures.service 3 1)
            (Some (Errorf "HTTP %d: %s" [VInt 500; VString "https://example.com"]))
          = exhausted (Fixtures.service 3 1) (lastFailure run.2)
          /\ allTransient run.2 = true
          /\ attempts run.2 = Z.to_nat (3 + 1))).
Proof.
  eapply (fetch_fails_by_404_or_exhaustion (Fixtures.service 3 1) "https://example.com"
            Fixtures.serverError).
  - cbn. lia.
  - apply run_eta. vm_compute. reflexivity.
Defined.

End FetchMore.

(** ** One item *)

Module ItemMore.

Import GoFmt GoTime GoInt Collab Collab.Notations Scraper BatchProofs FetchMore.

Section WithService.

Context {W B F Doc Node : Type}.
Variable pkg : Packages Doc Node.
Variable s : Service W B F.

(** [ScrapeURL], call by call. *)
Lemma ScrapeURL_run (rawURL selector : string) (w : W) :
  ScrapeURL pkg s rawURL selector w
  = let w0 := Printf (logger s) "Scraping: %s" [VString rawURL] w in
    let line := EvPrintf "Scraping: %s" [VString rawURL] in
    match FetchWithRetries s rawURL w0 with
    | (inl err, w1, tf) => (inl err, w1, line :: tf)
    | (inr resp, w1, tf) =>
        let '(b, w2) := ReadAll (client s) (Body resp) w1 in
        (match b with
         | inl err => inl (Errorf "failed to read response body: %w" [VError err])
         | inr htmlBytes => ExtractContent pkg s htmlBytes selector
         end,
         BodyClose (client s) (Body resp) w2,
         line :: (tf ++ [EvReadAll (Body resp) b; EvBodyClose (Body resp)])%list)
    end.
Proof.
  unfold ScrapeURL, bind, call_Printf, call_ReadAll, call_BodyClose, ret. cbn zeta.
  destruct (FetchWithRetries s rawURL _) as [[[err|resp] w1] tf].
  - rewrite app_nil_r. reflexivity.
  - destruct (ReadAll (client s) (Body resp) w1) as [[err|html] w2]; reflexivity.
Qed.

(** [SaveMarkdown], call by call. *)
Lemma SaveMarkdown_run (content filePath : string) (w : W) :
  SaveMarkdown s content filePath w
  = match Create (fs s) filePath w with
    | (inl err, w1) =>
        (Some (Errorf "failed to create file %s: %w" [VString filePath; VError err]),
         w1, [EvCreate filePath (inl err)])
    | (inr file, w1) =>
        let '(e, w2) := WriteString (fs s) file content w1 in
        (match e with
         | Some err =>
             Some (Errorf "failed to write to file %s: %w" [VString filePath; VError err])
         | None => None
         end,
         FileClose (fs s) file w2,
         [EvCreate filePath (inr file); EvWriteString file content e; EvFileClose file])
    end.
Proof.
  unfold SaveMarkdown, bind, call_Create, call_WriteString, call_FileClose, ret.
  destruct (Create (fs s) filePath w) as [[err|file] w1]; [reflexivity|].
  destruct (WriteString (fs s) file content w1) as [[err|] w2]; reflexivity.
Qed.

(** [GetOutputPath], call by call. *)
Lemma GetOutputPath_cases (rawURL baseDir : string) (w : W) r w' t :
  GetOutputPath pkg s rawURL baseDir w = (r, w', t) ->
  (exists err, url_Parse pkg rawURL = inl err /\ t = [] /\ w' = w
               /\ r = inl (Errorf "invalid URL %s: %w" [VString rawURL; VError err]))
  \/ (exists u e,
        url_Parse pkg rawURL = inr u
        /\ let path := outputPathOf (GoURL.Path u) baseDir in
           MkdirAll (fs s) (GoFilepath.Dir path) 493 w = (e, w')
           /\ t = [EvMkdirAll (GoFilepath.Dir path) 493 e]
           /\ r = match e with
                  | Some err =>
                      inl (Errorf "failed to create directory %s: %w"
                             [VString (GoFilepath.Dir path); VError err])
                  | None => inr path
                  end).
Proof.
  intros E. destruct (url_Parse pkg rawURL) as [err|u] eqn:Hu.
  - left. unfold GetOutputPath in E. rewrite Hu in E. run_inv E. eauto.
  - right. rewrite (PathProofs.GetOutputPath_run pkg s rawURL baseDir w u Hu) in E.
    cbn zeta in E.
    destruct (MkdirAll (fs s) _ 493 w) as [e w1] eqn:Hm. cbn [fst snd] in E.
    injection E as <- <- <-. exists u, e. cbn zeta. rewrite Hm. auto.
Qed.

End WithService.

(** X10.  [ScrapeURL] first logs the URL, requests nothing but that URL,
    reads at most one body, the one of the response that the fetch
    returned, and has closed the body of every response it received when
    it returns; the close of the body that was read is its last call. *)
Theorem scrape_reads_one_body_and_closes_all
    {W B F Doc Node : Type} (pkg : Packages Doc Node) (s : Service W B F)
    (rawURL selector : string) (w : W) :
  let t := (ScrapeURL pkg s rawURL selector w).2 in
  hd_error t = Some (EvPrintf "Scraping: %s" [VString rawURL])
  /\ requested t = repeat rawURL (attempts t)
  /\ bodiesClosed t = bodiesReceived t
  /\ (bodiesRead t = []
      \/ exists b, bodiesRead t = [b] /\ last (bodiesReceived t) = Some b
                   /\ last t = Some (EvBodyClose b)).
Proof.
  cbn zeta. rewrite ScrapeURL_run. cbn zeta.
  destruct (FetchWithRetries s rawURL _) as [[[err|resp] w1] tf] eqn:E.
  - cbn [snd hd_error]. apply FetchWithRetries_fetchRun in E.
    destruct (fetchRun_budget s rawURL _ _ _ _ E) as (_ & Hreq & _).
    pose proof (fetchRun_unread s rawURL _ _ _ _ E) as Hrd.
    destruct (fetchRun_failure s rawURL _ _ _ _ E err eq_refl) as (Hb & _).
    repeat split; [exact Hreq | exact Hb | left; exact Hrd].
  - destruct (ReadAll (client s) (Body resp) w1) as [b w2]. cbn [snd hd_error].
    apply FetchWithRetries_fetchRun in E.
    destruct (fetchRun_budget s rawURL _ _ _ _ E) as (_ & Hreq & _).
    pose proof (fetchRun_unread s rawURL _ _ _ _ E) as Hrd.
    destruct (fetchRun_success s rawURL _ _ _ _ E resp eq_refl) as (_ & t0 & -> & _ & Hb).
    change (EvPrintf "Scraping: %s" [VString rawURL] :: ?l)
      with ([@EvPrintf B F "Scraping: %s" [VString rawURL]] ++ l)%list.
    rewrite !attempts_app, !requested_app, !bodiesClosed_app, !bodiesReceived_app,
      !bodiesRead_app in *.
    apply app_eq_nil in Hrd as [Hrd _].
    rewrite Hrd, Hb. cbn in Hreq |- *. rewrite Nat.add_0_r. rewrite !app_nil_r in *.
    repeat split; [exact Hreq|].
    right. exists (Body resp). split; [reflexivity|]. split.
    + apply last_snoc.
    + match goal with |- last (?a :: ?l ++ [?x; ?y]) = _ =>
        replace (a :: l ++ [x; y])%list with ((a :: l ++ [x]) ++ [y])%list
          by (cbn; rewrite <- !app_assoc; reflexivity) end.
      apply last_snoc.
Qed.

End ItemMore.

(** ** The batch, run by run *)

Module BatchMore.

Import GoFmt GoTime GoInt Collab Collab.Notations Scraper BatchProofs PoolProofs.

Section WithService.

Context {W B F Doc Node : Type}.
Variable pkg : Packages Doc Node.
Variable s : Service W B F.
Variables selector output : string.

(** The body of a worker, step by step. *)
Lemma processJob_run (job : Job) (w : W) :
  processJob pkg s job w
  = match ScrapeURL pkg s (job_URL job) (job_Selector job) w with
    | (inl err, w1, t1) => (mkResult (job_URL job) false (Some err) "", w1, t1)
    | (inr markdown, w1, t1) =>
        match GetOutputPath pkg s (job_URL job) (job_Output job) w1 with
        | (inl err, w2, t2) =>
            (mkResult (job_URL job) false
               (Some (Errorf "error determining output path: %w" [VError err])) "",
             w2, (t1 ++ t2)%list)
        | (inr outputPath, w2, t2) =>
            let '(e, w3, t3) := SaveMarkdown s markdown outputPath w2 in
            (match e with
             | Some err =>
                 mkResult (job_URL job) false
                   (Some (Errorf "error saving file: %w" [VError err])) ""
             | None => mkResult (job_URL job) true None outputPath
             end, w3, (t1 ++ t2 ++ t3)%list)
        end
    end.
Proof.
  unfold processJob, bind, ret.
  destruct (ScrapeURL pkg s _ _ w) as [[[err|markdown] w1] t1];
    [rewrite app_nil_r; reflexivity|].
  destruct (GetOutputPath pkg s _ _ w1) as [[[err|path] w2] t2];
    [rewrite app_nil_r; reflexivity|].
  destruct (SaveMarkdown s markdown path w2) as [[[err|] w3] t3];
    rewrite app_nil_r; reflexivity.
Qed.

(** The steps of a job. *)
Lemma processJob_cases (job : Job) (w : W) result w' t :
  processJob pkg s job w = (result, w', t) ->
  exists r w1 t1,
    ScrapeURL pkg s (job_URL job) (job_Selector job) w = (r, w1, t1)
    /\ ((exists err,
           r = inl err /\ result = mkResult (job_URL job) false (Some err) ""
           /\ w' = w1 /\ t = t1)
        \/ (exists markdown p w2 t2,
              r = inr markdown
              /\ GetOutputPath pkg s (job_URL job) (job_Output job) w1 = (p, w2, t2)
              /\ ((exists err,
                     p = inl err
                     /\ result = mkResult (job_URL job) false
                                   (Some (Errorf "error determining output path: %w"
                                            [VError err])) ""
                     /\ w' = w2 /\ t = (t1 ++ t2)%list)
                  \/ (exists path e t3,
                        p = inr path
                        /\ SaveMarkdown s markdown path w2 = (e, w', t3)
                        /\ t = (t1 ++ t2 ++ t3)%list
                        /\ result = match e with
                                    | Some err =>
                                        mkResult (job_URL job) false
                                          (Some (Errorf "error saving file: %w"
                                                   [VError err])) ""
                                    | None => mkResult (job_URL job) true None path
                                    end)))).
Proof.
  rewrite processJob_run.
  destruct (ScrapeURL pkg s _ _ w) as [[[err|markdown] w1] t1].
  { intros [= <- <- <-]. eexists _, _, _. split; [reflexivity|]. left. eauto 10. }
  destruct (GetOutputPath pkg s _ _ w1) as [[[err|path] w2] t2] eqn:E2.
  { intros [= <- <- <-]. eexists _, _, _. split; [reflexivity|]. right.
    eexists _, _, _, _. split; [reflexivity|]. split; [exact E2|]. left. eauto 10. }
  destruct (SaveMarkdown s markdown path w2) as [[e w3] t3] eqn:E3.
  intros [= <- <- <-]. eexists _, _, _. split; [reflexivity|]. right.
  eexists _, _, _, _. split; [reflexivity|]. split; [exact E2|]. right.
  eexists _, _, _. split; [reflexivity|]. split; [exact E3|]. split; reflexivity.
Qed.

(** The line of the log that tells the outcome of a result. *)
Definition logs_outcome (result : Result) (f : string) (a : list (value error)) : Prop :=
  outcomeLine (f, a) = [Success result]
  /\ scraped [(f, a)] = []
  /\ (Success result = true -> f = "✓ Saved: %s" /\ a = [VString (OutputPath result)])
  /\ (Success result = false -> f <> "✓ Saved: %s").

(** The body of the sequential loop is the body of a worker, followed
    by the line of the log that tells the outcome. *)
Lemma sequentialItem_processJob (sc ec : Z) (u : string) (w : W) c' w' t :
  sequentialItem pkg s selector output (sc, ec) u w = (c', w', t) ->
  exists result w1 t1 f a,
    processJob pkg s (mkJob u selector output) w = (result, w1, t1)
    /\ t = (t1 ++ [EvPrintf f a])%list
    /\ w' = Printf (logger s) f a w1
    /\ logs_outcome result f a
    /\ c' = (if Success result then (sc + 1, ec) else (sc, ec + 1)).
Proof.
  rewrite processJob_run. cbn [job_URL job_Selector job_Output].
  unfold sequentialItem, logs_outcome, bind, call_Printf, ret.
  destruct (ScrapeURL pkg s u selector w) as [[[err|markdown] w1] t1].
  { intros [= <- <- <-]. eexists _, _, _, _, _. split; [reflexivity|].
    rewrite ?app_nil_r, ?app_assoc.
    repeat split; cbn; try reflexivity; try discriminate;
      try (intros _; split; reflexivity). }
  destruct (GetOutputPath pkg s u output w1) as [[[err|path] w2] t2].
  { intros [= <- <- <-]. eexists _, _, _, _, _. split; [reflexivity|].
    rewrite ?app_nil_r, ?app_assoc.
    repeat split; cbn; try reflexivity; try discriminate;
      try (intros _; split; reflexivity). }
  destruct (SaveMarkdown s markdown path w2) as [[[err|] w3] t3].
  { intros [= <- <- <-]. eexists _, _, _, _, _. split; [reflexivity|].
    rewrite ?app_nil_r, ?app_assoc.
    repeat split; cbn; try reflexivity; try discriminate;
      try (intros _; split; reflexivity). }
  intros [= <- <- <-]. eexists _, _, _, _, _. split; [reflexivity|].
  rewrite ?app_nil_r, ?app_assoc.
    repeat split; cbn; try reflexivity; try discriminate;
      try (intros _; split; reflexivity).
Qed.

(** A worker logs the start of its job and the retries, nothing
    else. *)
Definition progressLine (l : string * list (value error)) : Prop :=
  l.1 = "Scraping: %s" \/ l.1 = "Retrying %s in %v (attempt %d/%d)".

Lemma processJob_logged (job : Job) (w : W) result w' t :
  processJob pkg s job w = (result, w', t) -> Forall progressLine (logged t).
Proof.
  intros E. apply processJob_cases in E as (r & w1 & t1 & E1 & E).
  assert (H1 : Forall progressLine (logged t1)).
  { rewrite ItemMore.ScrapeURL_run in E1. cbn zeta in E1.
    destruct (FetchWithRetries s (job_URL job) _) as [[fr w0] tf] eqn:Ef.
    apply FetchMore.FetchWithRetries_fetchRun, FetchMore.fetchRun_logged in Ef.
    assert (Hf : Forall progressLine (logged tf)).
    { eapply Forall_impl; [exact Ef|]. intros l Hl. right. exact Hl. }
    destruct fr as [err|resp].
    - apply (f_equal snd) in E1. cbn [snd] in E1. subst t1.
      cbn [logged flat_map app]. constructor; [left; reflexivity | exact Hf].
    - destruct (ReadAll (client s) (Body resp) w0) as [b w2].
      apply (f_equal snd) in E1. cbn [snd] in E1. subst t1.
      cbn [logged flat_map app]. constructor; [left; reflexivity|].
      fold (logged (tf ++ [EvReadAll (Body resp) b; EvBodyClose (Body resp)])).
      rewrite logged_app. cbn [logged flat_map app]. rewrite app_nil_r. exact Hf. }
  destruct E as [(err & _ & _ & _ & ->)
                |(markdown & p & w2 & t2 & _ & E2 & E)]; [exact H1|].
  apply GetOutputPath_logged in E2.
  destruct E as [(err & _ & _ & _ & ->) | (path & e & t3 & _ & E3 & -> & _)].
  - rewrite logged_app, E2, app_nil_r. exact H1.
  - apply SaveMarkdown_logged in E3.
    rewrite !logged_app, E2, E3, !app_nil_r. exact H1.
Qed.

Lemma savedPaths_app (l1 l2 : list (string * list (value error))) :
  savedPaths (l1 ++ l2) = (savedPaths l1 ++ savedPaths l2)%list.
Proof. apply flat_map_app. Qed.

Lemma savedPaths_progress (lines : list (string * list (value error))) :
  Forall progressLine lines -> savedPaths lines = [].
Proof.
  induction 1 as [|[f a] rest Hl _ IH]; [reflexivity|].
  cbn [savedPaths flat_map]. fold (savedPaths rest). rewrite IH.
  destruct Hl as [H|H]; cbn [fst] in H; subst f;
    destruct a as [|[] [|]]; reflexivity.
Qed.

Lemma savedPaths_outcome (result : Result) (f : string) (a : list (value error)) :
  logs_outcome result f a ->
  savedPaths [(f, a)] = if Success result then [OutputPath result] else [].
Proof.
  intros (_ & _ & Hok & Hko). destruct (Success result).
  - destruct (Hok eq_refl) as [-> ->]. reflexivity.
  - specialize (Hko eq_refl). cbn [savedPaths flat_map].
    apply String.eqb_neq in Hko.
    destruct a as [|[] [|]]; try reflexivity. rewrite Hko. reflexivity.
Qed.

(** What the log shows of the results [rs]: their outcomes, in order,
    and the paths of the ones that succeeded. *)
Definition reports (rs : list Result) (t : list (Event B F)) : Prop :=
  outcomes t = Success <$> rs
  /\ savedPaths (logged t) = OutputPath <$> List.filter Success rs.

Lemma reports_nil : reports [] [].
Proof. split; reflexivity. Qed.

Lemma reports_job (rs : list Result) (t : list (Event B F)) (job : Job) (w : W)
    result w' t' :
  reports rs t -> processJob pkg s job w = (result, w', t') -> reports rs (t ++ t').
Proof.
  intros [H1 H2] E. pose proof (processJob_logged _ _ _ _ _ E) as Hl.
  apply processJob_spec in E as (_ & _ & Ho). split.
  - rewrite outcomes_app, Ho, app_nil_r. exact H1.
  - rewrite logged_app, savedPaths_app, (savedPaths_progress _ Hl), app_nil_r. exact H2.
Qed.

Lemma reports_outcome (rs : list Result) (t : list (Event B F)) (result : Result)
    (f : string) (a : list (value error)) :
  reports rs t -> logs_outcome result f a ->
  reports (rs ++ [result]) (t ++ [EvPrintf f a]).
Proof.
  intros [H1 H2] Hl. pose proof (savedPaths_outcome _ _ _ Hl) as Hs.
  destruct Hl as (Ho & _). split.
  - rewrite outcomes_app, H1, fmap_app. unfold outcomes at 1.
    cbn [logged flat_map app outcomeLines]. rewrite app_nil_r, Ho. reflexivity.
  - rewrite logged_app, savedPaths_app, H2, List.filter_app, fmap_app.
    cbn [logged flat_map app]. rewrite Hs. cbn [List.filter].
    destruct (Success result); reflexivity.
Qed.

Lemma reports_line (rs : list Result) (t : list (Event B F)) (f : string)
    (a : list (value error)) :
  reports rs t -> outcomeLine (f, a) = [] -> f <> "✓ Saved: %s" ->
  reports rs (t ++ [EvPrintf f a]).
Proof.
  intros [H1 H2] Ho Hf. split.
  - rewrite outcomes_app. unfold outcomes at 2.
    cbn [logged flat_map app outcomeLines]. rewrite Ho, !app_nil_r. exact H1.
  - rewrite logged_app, savedPaths_app, H2. cbn [logged flat_map app savedPaths].
    apply String.eqb_neq in Hf.
    destruct a as [|[] [|]]; rewrite ?Hf, ?app_nil_r; reflexivity.
Qed.

(** *** An invariant of the batch

    What holds at the start, is kept by every line of the log and by
    every job over a submitted identifier, holds when the batch
    returns, in either mode; [rs] are the results so far, in the order in
    which the jobs were done. *)
Section Invariant.

Variable urls : list string.
Variable Inv : list Result -> W -> list (Event B F) -> Prop.

Hypothesis Inv_log :
  forall rs w t f a,
    Inv rs w t -> Inv rs (Printf (logger s) f a w) (t ++ [EvPrintf f a]).
Hypothesis Inv_job :
  forall rs w t u r w' t',
    In u urls -> Inv rs w t ->
    processJob pkg s (mkJob u selector output) w = (r, w', t') ->
    Inv (rs ++ [r]) w' (t ++ t').

Lemma sequentialLoop_invariant :
  forall (rest : list string) (rs : list Result) (sc ec : Z) (w : W)
         (t : list (Event B F)) c' w' t',
    (forall u, In u rest -> In u urls) ->
    Inv rs w t -> reports rs t ->
    sequentialLoop pkg s selector output (sc, ec) rest w = (c', w', t') ->
    exists rs',
      Inv (rs ++ rs') w' (t ++ t') /\ reports (rs ++ rs') (t ++ t')
      /\ URL <$> rs' = rest.
Proof.
  induction rest as [|u rest IH]; intros rs sc ec w t c' w' t' Hsub HI HR E;
    cbn [sequentialLoop] in E.
  - run_inv E. exists []. rewrite !app_nil_r. auto.
  - apply bind_inv in E as (c1 & w1 & t1 & t2 & E1 & E & ->).
    apply sequentialItem_processJob in E1
        as (result & w0 & t0 & f & a & EJ & -> & -> & Hl & ->).
    pose proof (processJob_spec _ _ _ _ _ _ _ EJ) as (HU & _ & _).
    cbn [job_URL] in HU.
    assert (HI' : Inv (rs ++ [result]) (Printf (logger s) f a w0)
                    ((t ++ t0) ++ [EvPrintf f a])).
    { apply Inv_log. eapply Inv_job; [apply Hsub; left; reflexivity | exact HI | exact EJ]. }
    assert (HR' : reports (rs ++ [result]) ((t ++ t0) ++ [EvPrintf f a])).
    { apply reports_outcome; [|exact Hl]. eapply reports_job; eauto. }
    destruct (if Success result then (sc + 1, ec) else (sc, ec + 1)) as [sc1 ec1].
    destruct (IH _ _ _ _ _ _ _ _ (fun u' H => Hsub u' (or_intror H)) HI' HR' E)
      as (rs' & H1 & H2 & H3).
    exists (result :: rs').
    replace (rs ++ result :: rs')%list with ((rs ++ [result]) ++ rs')%list
      by (rewrite <- app_assoc; reflexivity).
    replace (t ++ (t0 ++ [EvPrintf f a]) ++ t2)%list
      with (((t ++ t0) ++ [EvPrintf f a]) ++ t2)%list
      by (rewrite <- !app_assoc; reflexivity).
    split; [exact H1|]. split; [exact H2|]. cbn. rewrite HU, H3. reflexivity.
Qed.

Lemma scrapeSequential_invariant (w : W) r w' t :
  Inv [] w [] ->
  scrapeSequential pkg s urls selector output w = (r, w', t) ->
  exists rs, Inv rs w' t /\ reports rs t /\ URL <$> rs = urls.
Proof.
  intros HI E. unfold scrapeSequential in E.
  apply bind_inv in E as ([sc ec] & w1 & t1 & t2 & E1 & E & ->).
  destruct (sequentialLoop_invariant urls [] 0 0 w [] _ _ _ (fun _ H => H) HI
              reports_nil E1) as (rs & H1 & H2 & H3).
  cbn [app] in H1, H2. run_inv E. exists rs.
  split; [apply Inv_log; exact H1|]. split; [|exact H3].
  apply reports_line; [exact H2 | reflexivity | discriminate].
Qed.

Ltac poolsimpl :=
  cbn [pc unsent jobs jobsClosed running results resultsClosed successCount
       errorCount collected world trace] in *.

(** The jobs in the queue are jobs over submitted identifiers. *)
Definition queued (p : Pool W B F) : Prop :=
  Forall (fun u => In u urls) (unsent p)
  /\ Forall (fun j => exists u, In u urls /\ j = mkJob u selector output) (jobs p).

Lemma pool_invariant (w0 : W) (p : Pool W B F) :
  Inv [] w0 [] ->
  rtc (step pkg s selector output) (startPool s urls w0) p ->
  Inv (collected p ++ results p) (world p) (trace p)
  /\ savedPaths (logged (trace p)) = OutputPath <$> List.filter Success (collected p)
  /\ queued p.
Proof.
  intros HI H. revert p H. apply rtc_ind_r.
  - unfold startPool, call_Printf, queued. poolsimpl. cbn [app].
    split; [apply (Inv_log [] w0 []); exact HI|]. split; [reflexivity|].
    split; [apply List.Forall_forall; auto | constructor].
  - intros p1 p2 _ Hstep (H1 & H2 & H3 & H4). unfold queued in *.
    inversion Hstep; subst; poolsimpl; clear Hstep.
    + (* send *)
      split; [exact H1|]. split; [exact H2|].
      inversion H3; subst. split; [assumption|].
      apply Forall_app. split; [exact H4|]. repeat constructor. eauto.
    + (* close *) auto.
    + (* work *)
      inversion H4 as [|? ? (u & Hu & ->) H4']; subst.
      match goal with E : processJob _ _ _ _ = _ |- _ =>
        pose proof (processJob_logged _ _ _ _ _ E) as Hl;
        pose proof (Inv_job _ _ _ _ _ _ _ Hu H1 E) as HI' end.
      rewrite app_assoc. split; [exact HI'|].
      rewrite logged_app, savedPaths_app, (savedPaths_progress _ Hl), app_nil_r. auto.
    + (* done *) auto.
    + (* close results *) auto.
    + (* collect *)
      match goal with E : logResult _ _ _ = _ |- _ => unfold logResult in E end.
      rewrite <- app_assoc. cbn [app].
      rewrite logged_app, savedPaths_app, H2, List.filter_app, fmap_app.
      cbn [List.filter].
      destruct (Success result) eqn:Hs;
        match goal with E : call_Printf _ _ _ _ = _ |- _ =>
          apply call_Printf_inv in E as [-> ->] end;
        (split; [apply Inv_log; exact H1|]); (split; [|auto]);
        cbn [logged flat_map app savedPaths fmap list_fmap];
        rewrite ?app_nil_r; reflexivity.
    + (* return *)
      match goal with E : call_Printf _ _ _ _ = _ |- _ =>
        apply call_Printf_inv in E as [-> ->] end.
      split; [apply Inv_log; exact H1|]. split; [|auto].
      rewrite logged_app, savedPaths_app, H2. cbn. rewrite app_nil_r. reflexivity.
Qed.

(** The invariant at the return of [ScrapeURLs]. *)
Lemma ScrapeURLs_invariant (w : W) run :
  Inv [] w [] ->
  ScrapeURLs pkg s urls selector output w run ->
  exists rs, Inv rs run.1.2 run.2 /\ reports rs run.2 /\ URL <$> rs ≡ₚ urls.
Proof.
  intros HI H. inversion H as [HW Hrun|run' HW (p & err & Hrtc & Hp & ->) Hrun]; subst.
  - destruct (scrapeSequential pkg s urls selector output w) as [[r w'] t] eqn:E.
    destruct (scrapeSequential_invariant w r w' t HI E) as (rs & H1 & H2 & H3).
    exists rs. cbn [fst snd]. rewrite H3. auto.
  - destruct (pool_invariant w p HI Hrtc) as (H1 & H2 & _).
    pose proof (reachable_inv pkg s selector output urls w p HW Hrtc) as Hinv.
    destruct (returned_spec urls p err Hinv Hp) as (_ & _ & Hperm & _).
    destruct (inv_returned urls p Hinv err Hp) as (_ & Hr & _).
    rewrite Hr, app_nil_r in H1.
    exists (collected p). cbn [fst snd]. split; [exact H1|]. split; [|exact Hperm].
    split; [apply (inv_outcomes urls p Hinv) | exact H2].
Qed.

End Invariant.

End WithService.

End BatchMore.

(** ** What a batch does to its collaborators *)

Module EffectsMore.

Import GoFmt GoTime GoInt Collab Collab.Notations Scraper BatchProofs PoolProofs.
Import FetchMore ItemMore BatchMore.

Section Observers.

Context {B F : Type}.

Lemma filesOpened_app (t1 t2 : list (Event B F)) :
  filesOpened (t1 ++ t2) = (filesOpened t1 ++ filesOpened t2)%list.
Proof. apply flat_map_app. Qed.

Lemma filesClosed_app (t1 t2 : list (Event B F)) :
  filesClosed (t1 ++ t2) = (filesClosed t1 ++ filesClosed t2)%list.
Proof. apply flat_map_app. Qed.

Lemma dirsAsked_app (t1 t2 : list (Event B F)) :
  dirsAsked (t1 ++ t2) = (dirsAsked t1 ++ dirsAsked t2)%list.
Proof. apply flat_map_app. Qed.

Lemma sleeps_app (t1 t2 : list (Event B F)) :
  sleeps (t1 ++ t2) = (sleeps t1 ++ sleeps t2)%list.
Proof. apply flat_map_app. Qed.

(** No successful [Create] is the last call of the trace. *)
Definition settled (t : list (Event B F)) : bool :=
  match last t with
  | Some (EvCreate _ (inr _)) => false
  | _ => true
  end.

Lemma settled_app (t1 t2 : list (Event B F)) :
  t2 <> [] -> settled (t1 ++ t2) = settled t2.
Proof.
  intros H. unfold settled. destruct (exists_last H) as (l & e & ->).
  rewrite app_assoc, !last_snoc. reflexivity.
Qed.

Lemma stored_app (t1 t2 : list (Event B F)) :
  settled t1 = true -> stored (t1 ++ t2) = (stored t1 ++ stored t2)%list.
Proof.
  induction t1 as [|e rest IH]; [reflexivity|]. intros Hs.
  destruct rest as [|r rest'].
  - destruct e as [| | | | | |name [err|f]| | | |]; try reflexivity.
    discriminate Hs.
  - assert (Hs' : settled (r :: rest') = true) by exact Hs.
    specialize (IH Hs'). cbn [app] in *.
    destruct e as [| | | | | |name [err|f]| | | |]; cbn [stored]; try exact IH.
    destruct r as [| | | | | | |f' content [err|]| | |]; cbn [stored] in *;
      rewrite ?IH; reflexivity.
Qed.

(** A trace without a call on the file system. *)
Lemma no_file_system_calls (t : list (Event B F)) :
  fileSystemCalls t = [] ->
  filesOpened t = [] /\ filesClosed t = [] /\ dirsAsked t = [] /\ stored t = []
  /\ settled t = true.
Proof.
  induction t as [|e rest IH]; [repeat split|].
  unfold fileSystemCalls. cbn [List.filter].
  destruct e; cbn [isFileSystemCall]; try discriminate;
    intros H; destruct (IH H) as (H1 & H2 & H3 & H4 & H5);
    cbn [filesOpened filesClosed dirsAsked stored flat_map app];
    (repeat split; try assumption);
    destruct rest; try reflexivity; exact H5.
Qed.

End Observers.

Section WithService.

Context {W B F Doc Node : Type}.
Variable pkg : Packages Doc Node.
Variable s : Service W B F.
Variables selector output : string.

(** The calls of a job on the file system: at most a [MkdirAll] of the
    directory of the resolved path, then a [Create] of the path, and
    after a [Create] that succeeded one write of the markdown and the
    close. *)
Inductive filed (u : string) : Result -> list (Event B F) -> Prop :=
| filed_none r :
    Success r = false -> filed u r []
| filed_mkdir_failed r parsed err :
    url_Parse pkg u = inr parsed -> Success r = false ->
    filed u r [EvMkdirAll (GoFilepath.Dir (outputPathOf (GoURL.Path parsed) output))
                 493 (Some err)]
| filed_create_failed r parsed err :
    url_Parse pkg u = inr parsed -> Success r = false ->
    filed u r [EvMkdirAll (GoFilepath.Dir (outputPathOf (GoURL.Path parsed) output))
                 493 None;
               EvCreate (outputPathOf (GoURL.Path parsed) output) (inl err)]
| filed_written r parsed f markdown (e : option error) :
    url_Parse pkg u = inr parsed ->
    Success r = match e with Some _ => false | None => true end ->
    (e = None -> OutputPath r = outputPathOf (GoURL.Path parsed) output) ->
    filed u r [EvMkdirAll (GoFilepath.Dir (outputPathOf (GoURL.Path parsed) output))
                 493 None;
               EvCreate (outputPathOf (GoURL.Path parsed) output) (inr f);
               EvWriteString f markdown e;
               EvFileClose f].

Lemma processJob_pieces (u : string) (w : W) r w' t :
  processJob pkg s (mkJob u selector output) w = (r, w', t) ->
  exists sr w1 t1 t2,
    ScrapeURL pkg s u selector w = (sr, w1, t1)
    /\ t = (t1 ++ t2)%list /\ filed u r t2.
Proof.
  intros E. apply processJob_cases in E as (sr & w1 & t1 & E1 & E).
  cbn [job_URL job_Selector job_Output] in *.
  exists sr, w1, t1.
  destruct E as [(err & _ & -> & _ & ->)
                |(markdown & p & w2 & t2 & _ & E2 & E)].
  { exists []. rewrite app_nil_r. repeat split; [exact E1|]. constructor. reflexivity. }
  apply GetOutputPath_cases in E2
      as [(err & Hu & -> & -> & ->) | (parsed & e & Hu & Hm & -> & ->)].
  { destruct E as [(err' & _ & -> & _ & ->) | (path & e & t3 & [=] & _)].
    exists []. repeat split; [exact E1|]. constructor. reflexivity. }
  cbn zeta in *.
  destruct E as [(err' & Hp & -> & _ & ->) | (path & we & t3 & Hp & E3 & -> & ->)].
  { destruct e as [err|]; [|discriminate Hp].
    eexists. repeat split; [exact E1|]. eapply filed_mkdir_failed; [exact Hu | reflexivity]. }
  destruct e as [err|]; [discriminate Hp|]. injection Hp as <-.
  rewrite SaveMarkdown_run in E3.
  destruct (Create (fs s) _ w2) as [[err|f] w3].
  { injection E3 as <- _ <-. eexists. repeat split; [exact E1|].
    eapply filed_create_failed; [exact Hu | reflexivity]. }
  destruct (WriteString (fs s) f markdown w3) as [e w4].
  injection E3 as <- _ <-. eexists. repeat split; [exact E1|].
  eapply filed_written; [exact Hu | destruct e; reflexivity | intros ->; reflexivity].
Qed.

(** [ScrapeURL] stays within the network: what it opens it closes, and
    it asks the file system for nothing. *)
Lemma ScrapeURL_effects (u : string) (w : W) sr w1 t1 :
  ScrapeURL pkg s u selector w = (sr, w1, t1) ->
  t1 <> [] /\ fileSystemCalls t1 = []
  /\ bodiesClosed t1 = bodiesReceived t1
  /\ requested t1 = repeat u (attempts t1)
  /\ Z.of_nat (attempts t1) <= Z.max 0 (MaxRetries (config s) + 1)
  /\ sleeps t1 = flat_map pauseOf
                   (flat_map (ticksOfAttempt backoffDuration)
                      (seqZ 0 (Z.of_nat (attempts t1)))).
Proof.
  intros E. pose proof (ScrapeURL_trace pkg s _ _ _ _ _ _ E) as (_ & _ & Hfs).
  rewrite ScrapeURL_run in E. cbn zeta in E.
  destruct (FetchWithRetries s u _) as [[fr w0] tf] eqn:Ef.
  apply FetchWithRetries_fetchRun in Ef.
  destruct (fetchRun_budget s u _ _ _ _ Ef) as (Hn & Hreq & Hsch).
  rewrite Z.sub_0_r in Hn.
  assert (Hsl : sleeps tf = flat_map pauseOf
                              (flat_map (ticksOfAttempt backoffDuration)
                                 (seqZ 0 (Z.of_nat (attempts tf)))))
    by (rewrite FetchProofs.sleeps_schedule, Hsch; reflexivity).
  destruct fr as [err|resp].
  - destruct (fetchRun_failure s u _ _ _ _ Ef err eq_refl) as (Hb & _).
    injection E as _ _ <-. repeat split; try assumption. discriminate.
  - destruct (fetchRun_success s u _ _ _ _ Ef resp eq_refl) as (_ & t0 & -> & _ & Hb).
    destruct (ReadAll (client s) (Body resp) w0) as [b w2].
    injection E as _ _ <-.
    change (EvPrintf "Scraping: %s" [VString u] :: ?l)
      with ([@EvPrintf B F "Scraping: %s" [VString u]] ++ l)%list in *.
    rewrite !attempts_app, !requested_app, !bodiesClosed_app, !bodiesReceived_app,
      !sleeps_app in *.
    cbn [attempts requested bodiesClosed bodiesReceived sleeps flat_map List.filter
         isGet length app Nat.add] in *.
    rewrite ?app_nil_r, ?Nat.add_0_r in *. rewrite Hb.
    repeat split; try assumption. discriminate.
Qed.

(** What a job does. *)
Lemma processJob_effects (u : string) (w : W) r w' t :
  processJob pkg s (mkJob u selector output) w = (r, w', t) ->
  (t <> [] /\ settled t = true)
  /\ (bodiesClosed t = bodiesReceived t /\ filesClosed t = (filesOpened t).*2)
  /\ (requested t = repeat u (attempts t)
      /\ Z.of_nat (attempts t) <= Z.max 0 (MaxRetries (config s) + 1)
      /\ sleeps t = flat_map pauseOf
                      (flat_map (ticksOfAttempt backoffDuration)
                         (seqZ 0 (Z.of_nat (attempts t)))))
  /\ (Forall (resolvedFor pkg output u) (filesOpened t).*1
      /\ Forall (fun d => exists path,
                    resolvedFor pkg output u path /\ d = GoFilepath.Dir path)
           (dirsAsked t))
  /\ (stored t).*1 = (if Success r then [OutputPath r] else []).
Proof.
  intros E. apply processJob_pieces in E as (sr & w1 & t1 & t2 & E1 & -> & Hf).
  apply ScrapeURL_effects in E1 as (Hne & Hfs & Hb & Hreq & Hn & Hsl).
  destruct (no_file_system_calls _ Hfs) as (F1 & F2 & F3 & F4 & F5).
  rewrite !bodiesClosed_app, !bodiesReceived_app, !filesClosed_app, !filesOpened_app,
    !requested_app, !attempts_app, !sleeps_app, !dirsAsked_app, (stored_app _ _ F5),
    F1, F2, F3, F4, Hb.
  assert (Hnet : bodiesClosed t2 = [] /\ bodiesReceived t2 = [] /\ requested t2 = []
                 /\ attempts t2 = O /\ sleeps t2 = [])
    by (destruct Hf; repeat split).
  destruct Hnet as (N1 & N2 & N3 & N4 & N5).
  rewrite N1, N2, N3, N4, N5, !app_nil_r, Nat.add_0_r. cbn [app].
  split.
  { split; [destruct t1; [contradiction | discriminate]|].
    destruct Hf; rewrite ?app_nil_r; try exact F5; rewrite settled_app by discriminate;
      reflexivity. }
  split; [split; [reflexivity | destruct Hf; reflexivity]|].
  split; [auto|].
  split.
  { destruct Hf; cbn; repeat constructor; unfold resolvedFor; eauto. }
  destruct Hf as [r0 Hs | r0 parsed err Hu Hs | r0 parsed err Hu Hs
                 | r0 parsed f markdown e Hu Hs Hp];
    cbn [stored fmap list_fmap]; rewrite ?Hs; try reflexivity.
  destruct e as [err|]; [reflexivity|]. rewrite (Hp eq_refl). reflexivity.
Qed.

End WithService.



(** X12.  A batch asks the network and the file system for nothing but
    what the submitted identifiers stand for: every request is for a
    submitted identifier, every file created is at the path resolved for
    one, and every directory made is the directory of such a path. *)
Theorem batch_touches_only_what_was_submitted
    {W B F Doc Node : Type} (pkg : Packages Doc Node) (s : Service W B F)
    (urls : list string) (selector output : string) (w : W)
    (run : option error * W * list (Event B F)) :
  ScrapeURLs pkg s urls selector output w run ->
  Forall (fun u => In u urls) (requested run.2)
  /\ Forall (fun path => exists u, In u urls /\ resolvedFor pkg output u path)
       (filesOpened run.2).*1
  /\ Forall (fun d => exists u path,
                In u urls /\ resolvedFor pkg output u path /\ d = GoFilepath.Dir path)
       (dirsAsked run.2).
Proof.
  intros H.
  set (Inv := fun (_ : list Result) (_ : W) (t : list (Event B F)) =>
                Forall (fun u => In u urls) (requested t)
                /\ Forall (fun path => exists u, In u urls /\ resolvedFor pkg output u path)
                     (filesOpened t).*1
                /\ Forall (fun d => exists u path,
                              In u urls /\ resolvedFor pkg output u path
                              /\ d = GoFilepath.Dir path)
                     (dirsAsked t)).
  assert (Hlog : forall rs w0 t f a,
             Inv rs w0 t -> Inv rs (Printf (logger s) f a w0) (t ++ [EvPrintf f a])%list).
  { intros rs w0 t f a (H1 & H2 & H3). unfold Inv.
    rewrite requested_app, filesOpened_app, dirsAsked_app. cbn.
    rewrite !app_nil_r. auto. }
  assert (Hjob : forall rs w0 t u r w' t',
             In u urls -> Inv rs w0 t ->
             processJob pkg s (mkJob u selector output) w0 = (r, w', t') ->
             Inv (rs ++ [r])%list w' (t ++ t')%list).
  { intros rs w0 t u r w' t' Hu (H1 & H2 & H3) E. unfold Inv.
    apply processJob_effects in E as (_ & _ & (E1 & _) & (E2 & E3) & _).
    rewrite requested_app, filesOpened_app, dirsAsked_app, fmap_app, !Forall_app, E1.
    repeat split; try assumption.
    - apply List.Forall_forall. intros x Hx. apply repeat_spec in Hx. subst x. exact Hu.
    - eapply Forall_impl; [exact E2|]. cbn. eauto.
    - eapply Forall_impl; [exact E3|]. cbn. intros d (path & Hp & ->). eauto. }
  assert (Hinit : Inv [] w []) by (repeat split; constructor).
  destruct (ScrapeURLs_invariant pkg s selector output urls Inv Hlog Hjob w run Hinit H)
    as (rs & HI & _).
  exact HI.
Qed.

Lemma batch_touches_only_what_was_submitted_witness :
  let run := scrapeSequential MiniDOM.packages (Fixtures.service 3 1) Fixtures.mixedURLs
               "div" "/tmp/test" Fixtures.mixedPages in
  Forall (fun u => In u Fixtures.mixedURLs) (requested run.2)
  /\ Forall (fun path => exists u, In u Fixtures.mixedURLs
                                   /\ resolvedFor MiniDOM.packages "/tmp/test" u path)
       (filesOpened run.2).*1
  /\ Forall (fun d => exists u path,
                In u Fixtures.mixedURLs /\ resolvedFor MiniDOM.packages "/tmp/test" u path
                /\ d = GoFilepath.Dir path)
       (dirsAsked run.2).
Proof.
  apply (batch_touches_only_what_was_submitted MiniDOM.packages (Fixtures.service 3 1)
           Fixtures.mixedURLs "div" "/tmp/test" Fixtures.mixedPages).
  apply run_sequential. cbn. lia.
Defined.



(** X14.  With [MaxRetries] not negative and not the largest [int], a
    batch makes at most [MaxRetries + 1] requests for each identifier
    submitted, and every pause is the backoff of one of the attempts 1 to
    [MaxRetries]. *)
Theorem batch_requests_within_budget
    {W B F Doc Node : Type} (pkg : Packages Doc Node) (s : Service W B F)
    (urls : list string) (selector output : string) (w : W)
    (run : option error * W * list (Event B F)) :
  0 <= MaxRetries (config s) < 2 ^ 63 - 1 ->
  ScrapeURLs pkg s urls selector output w run ->
  Z.of_nat (attempts run.2) <= (MaxRetries (config s) + 1) * Z.of_nat (length urls)
  /\ Forall (fun d => exists k, 1 <= k <= MaxRetries (config s) /\ d = backoffDuration k)
       (sleeps run.2).
Proof.
  intros HN H.
  set (Inv := fun (rs : list Result) (_ : W) (t : list (Event B F)) =>
                Z.of_nat (attempts t) <= (MaxRetries (config s) + 1) * Z.of_nat (length rs)
                /\ Forall (fun d => exists k, 1 <= k <= MaxRetries (config s)
                                               /\ d = backoffDuration k) (sleeps t)).
  assert (Hlog : forall rs w0 t f a,
             Inv rs w0 t -> Inv rs (Printf (logger s) f a w0) (t ++ [EvPrintf f a])%list).
  { intros rs w0 t f a (H1 & H2). unfold Inv.
    rewrite attempts_app, sleeps_app. cbn. rewrite app_nil_r, Nat.add_0_r. auto. }
  assert (Hjob : forall rs w0 t u r w' t',
             In u urls -> Inv rs w0 t ->
             processJob pkg s (mkJob u selector output) w0 = (r, w', t') ->
             Inv (rs ++ [r])%list w' (t ++ t')%list).
  { intros rs w0 t u r w' t' _ (H1 & H2) E. unfold Inv.
    apply processJob_effects in E as (_ & _ & (_ & E1 & E2) & _).
    rewrite attempts_app, sleeps_app, length_app, Forall_app. cbn [length].
    split; [lia|]. split; [exact H2|]. rewrite E2. clear E2.
    assert (Hk : Forall (fun k => 0 <= k <= MaxRetries (config s))
                   (seqZ 0 (Z.of_nat (attempts t')))) by (apply Forall_seqZ; lia).
    induction Hk as [|k l Hk _ IH]; [constructor|].
    cbn [flat_map]. unfold ticksOfAttempt at 1.
    destruct (Z.ltb_spec 0 k); cbn [app flat_map pauseOf]; [|exact IH].
    constructor; [|exact IH]. exists k. split; [lia | reflexivity]. }
  assert (Hinit : Inv [] w []) by (split; [cbn; lia | constructor]).
  destruct (ScrapeURLs_invariant pkg s selector output urls Inv Hlog Hjob w run Hinit H)
    as (rs & (H1 & H2) & _ & Hperm).
  split; [|exact H2]. apply Permutation_length in Hperm.
  rewrite length_fmap in Hperm. rewrite <- Hperm. exact H1.
Qed.

Lemma batch_requests_within_budget_witness :
  let run := scrapeSequential MiniDOM.packages (Fixtures.service 3 1) Fixtures.mixedURLs
               "div" "/tmp/test" Fixtures.mixedPages in
  Z.of_nat (attempts run.2) <= (3 + 1) * Z.of_nat (length Fixtures.mixedURLs)
  /\ Forall (fun d => exists k, 1 <= k <= 3 /\ d = backoffDuration k) (sleeps run.2).
Proof.
  apply (batch_requests_within_budget MiniDOM.packages (Fixtures.service 3 1)
           Fixtures.mixedURLs "div" "/tmp/test" Fixtures.mixedPages).
  - cbn. lia.
  - apply run_sequential. cbn. lia.
Defined.

End EffectsMore.

(** ** Order and workers *)

Module OrderMore.

Import GoFmt GoTime GoInt Collab Collab.Notations Scraper BatchProofs PoolProofs.
Import FetchMore ItemMore BatchMore.

Section WithService.

Context {W B F Doc Node : Type}.
Variable pkg : Packages Doc Node.
Variable s : Service W B F.
Variables selector output : string.

Lemma itemMarks_app (l1 l2 : list (string * list (value error))) :
  itemMarks (l1 ++ l2) = (itemMarks l1 ++ itemMarks l2)%list.
Proof. apply flat_map_app. Qed.

Lemma itemMarks_progress (lines : list (string * list (value error))) :
  Forall progressLine lines -> itemMarks lines = inl <$> scraped lines.
Proof.
  induction 1 as [|[f a] rest Hl _ IH]; [reflexivity|].
  change ((f, a) :: rest) with ([(f, a)] ++ rest)%list.
  rewrite itemMarks_app, scraped_app, fmap_app, IH. f_equal.
  assert (Ho : outcomeLine (f, a) = []).
  { destruct Hl as [H|H]; cbn [fst] in H; subst f; reflexivity. }
  unfold itemMarks. cbn [flat_map]. rewrite Ho. cbn [fmap list_fmap].
  rewrite !app_nil_r. reflexivity.
Qed.

Lemma sequentialLoop_in_turn :
  forall (urls : list string) (sc ec : Z) (w : W) c' w' t,
    sequentialLoop pkg s selector output (sc, ec) urls w = (c', w', t) ->
    exists bs,
      length bs = length urls
      /\ itemMarks (logged t) = inTurn urls bs
      /\ c' = (sc + countTrue bs, ec + countFalse bs).
Proof.
  induction urls as [|u urls IH]; intros sc ec w c' w' t E; cbn [sequentialLoop] in E.
  - run_inv E. exists []. repeat split. unfold countTrue, countFalse. cbn. f_equal; lia.
  - apply bind_inv in E as (c1 & w1 & t1 & t2 & E1 & E & ->).
    apply sequentialItem_processJob in E1
        as (result & w0 & t0 & f & a & EJ & -> & -> & (Ho & Hs & _) & ->).
    pose proof (processJob_logged _ _ _ _ _ _ _ EJ) as Hl.
    apply processJob_spec in EJ as (_ & Hst & _). cbn [job_URL] in Hst.
    destruct (if Success result then (sc + 1, ec) else (sc, ec + 1)) as [sc1 ec1] eqn:Ec.
    apply IH in E as (bs & Hlen & Hm & ->).
    exists (Success result :: bs). split; [cbn; lia|]. split.
    + rewrite !logged_app, !itemMarks_app, (itemMarks_progress _ Hl), Hm.
      unfold started in Hst. rewrite Hst.
      cbn [logged flat_map app itemMarks]. rewrite Hs, Ho. reflexivity.
    + unfold countTrue, countFalse. cbn [List.filter].
      destruct (Success result); injection Ec as <- <-; cbn [negb length];
        f_equal; lia.
Qed.

End WithService.

(** X15.  The sequential batch takes the identifiers in the order given
    and finishes one before it starts the next: the log shows, for each
    identifier in turn, its start and then its outcome, and it ends with
    the summary that counts the outcomes shown. *)
Theorem sequential_items_in_turn
    {W B F Doc Node : Type} (pkg : Packages Doc Node) (s : Service W B F)
    (urls : list string) (selector output : string) (w : W) :
  let t := (scrapeSequential pkg s urls selector output w).2 in
  exists bs,
    length bs = length urls
    /\ itemMarks (logged t) = inTurn urls bs
    /\ last (logged t)
       = Some ("Completed: %d successful, %d errors",
               [VInt (countTrue bs); VInt (countFalse bs)]).
Proof.
  cbn zeta. unfold scrapeSequential.
  destruct (bind _ _ w) as [[r w'] t] eqn:E. cbn [snd].
  apply bind_inv in E as ([sc ec] & w1 & t1 & t2 & E1 & E & ->).
  apply sequentialLoop_in_turn in E1 as (bs & Hlen & Hm & [= -> ->]).
  run_inv E. exists bs. split; [exact Hlen|]. split.
  - rewrite logged_app, itemMarks_app, Hm. cbn. rewrite app_nil_r. reflexivity.
  - rewrite logged_app. cbn [logged flat_map app fst snd]. rewrite last_snoc.
    rewrite !Z.add_0_l. reflexivity.
Qed.

(** X16.  The concurrent batch first logs the number of workers it
    starts, the smaller of the configured number and the number of
    identifiers, and at no time are more workers at work than that. *)
Theorem workers_are_announced
    {W B F Doc Node : Type} (pkg : Packages Doc Node) (s : Service W B F)
    (urls : list string) (selector output : string) (w : W) (p : Pool W B F) :
  rtc (step pkg s selector output) (startPool s urls w) p ->
  hd_error (trace p)
  = Some (EvPrintf "Starting %d workers to process %d URLs"
            [VInt (Z.min (Workers (config s)) (Z.of_nat (length urls)));
             VInt (Z.of_nat (length urls))])
  /\ Z.of_nat (running p) <= Z.max 0 (Z.min (Workers (config s)) (Z.of_nat (length urls))).
Proof.
  assert (Hmin : numWorkersOf s urls = Z.min (Workers (config s)) (Z.of_nat (length urls))).
  { unfold numWorkersOf.
    destruct (Z.ltb_spec (Z.of_nat (length urls)) (Workers (config s))); lia. }
  intros H. revert p H. apply rtc_ind_r.
  - unfold startPool, call_Printf. cbn [trace running hd_error]. rewrite Hmin.
    split; [reflexivity | lia].
  - intros p1 p2 _ Hstep [H1 H2].
    assert (Hhd : forall (t t' : list (Event B F)) x,
               hd_error t = Some x -> hd_error (t ++ t') = Some x).
    { intros t t' x Ht. destruct t; [discriminate Ht | exact Ht]. }
    inversion Hstep; subst; cbn [trace running] in *; split;
      try exact H1; try exact H2; try lia; apply Hhd; exact H1.
Qed.

Lemma workers_are_announced_witness :
  let p := runPool MiniDOM.packages (Fixtures.service 3 2) "div" "/tmp/test" 5
             (startPool (Fixtures.service 3 2) Fixtures.mixedURLs Fixtures.mixedPages) in
  hd_error (trace p)
  = Some (EvPrintf "Starting %d workers to process %d URLs"
            [VInt (Z.min 2 (Z.of_nat (length Fixtures.mixedURLs)));
             VInt (Z.of_nat (length Fixtures.mixedURLs))])
  /\ Z.of_nat (running p) <= Z.max 0 (Z.min 2 (Z.of_nat (length Fixtures.mixedURLs))).
Proof.
  apply (workers_are_announced MiniDOM.packages (Fixtures.service 3 2) Fixtures.mixedURLs
           "div" "/tmp/test" Fixtures.mixedPages).
  apply TestCases.runPool_rtc.
Defined.

End OrderMore.

(** ** The sitemap *)

Module SitemapMore.

Import GoFmt Collab Collab.Notations Sitemap.

Lemma filterLoop_filter (pathFilter : string) (urls : list URL) :
  forall acc, filterLoop urls pathFilter acc
              = (acc ++ (Loc <$> List.filter (kept pathFilter) urls))%list.
Proof.
  induction urls as [|u urls IH]; intros acc; cbn [filterLoop List.filter].
  - cbn. rewrite app_nil_r. reflexivity.
  - unfold kept at 1. destruct (String.eqb pathFilter "" || _).
    + rewrite IH. cbn. rewrite <- app_assoc. reflexivity.
    + apply IH.
Qed.

(** X17.  [FilterURLs] returns the locations that contain the filter, in
    the order of the sitemap; with the empty filter these are all the
    locations and nothing is logged, with another filter the one line
    logged tells how many were kept. *)
Theorem filter_keeps_matching_locations
    {W B : Type} (s : Service W B) (sitemap : Sitemap) (pathFilter : string) (w : W) :
  let filtered := Loc <$> List.filter (kept pathFilter) (URLs sitemap) in
  (FilterURLs s sitemap pathFilter w).1.1 = filtered
  /\ (FilterURLs s sitemap "" w = (Loc <$> URLs sitemap, w, []))
  /\ (logged (FilterURLs s sitemap pathFilter w).2
      = if String.eqb pathFilter "" then []
        else [("Filtered to %d URLs matching path filter '%s'",
               [VInt (Z.of_nat (length filtered)); VString pathFilter])]).
Proof.
  cbn zeta. unfold FilterURLs, bind, call_Printf, ret.
  rewrite !filterLoop_filter. cbn [app].
  split; [destruct (String.eqb pathFilter ""); reflexivity|]. split.
  - cbn [String.eqb negb]. f_equal. f_equal.
    induction (URLs sitemap) as [|u l IH]; [reflexivity|]. cbn. f_equal. exact IH.
  - destruct (String.eqb pathFilter ""); reflexivity.
Qed.

(** X18.  [FetchSitemap] announces the fetch, requests the sitemap once
    and never pauses or retries; it reads a body only from a response with
    a 2xx status, and when it returns it has closed the body of the
    response it received. *)
Theorem sitemap_is_requested_once
    {W B : Type} (xml_Decode : string -> GoXML.DecodeError + Sitemap) (s : Service W B)
    (sitemapURL : string) (w : W) :
  let t := (FetchSitemap xml_Decode s sitemapURL w).2 in
  hd_error t = Some (EvPrintf "Fetching sitemap: %s" [VString sitemapURL])
  /\ requested t = [sitemapURL]
  /\ sleeps t = []
  /\ bodiesClosed t = bodiesReceived t
  /\ (bodiesRead t = []
      \/ exists resp r,
           In (EvGet sitemapURL (inr resp)) t /\ 200 <= StatusCode resp < 300
           /\ bodiesRead t = [Body resp] /\ In (EvReadAll (Body resp) r) t).
Proof.
  cbn zeta. unfold FetchSitemap, bind, call_Printf, call_Get, call_ReadAll, call_BodyClose, ret.
  destruct (Get (client s) sitemapURL _) as [[err|resp] w1].
  { cbn. auto 10. }
  destruct (Z.ltb_spec (StatusCode resp) 200) as [H1|H1]; cbn [orb].
  { cbn. auto 10. }
  destruct (Z.leb_spec 300 (StatusCode resp)) as [H2|H2].
  { cbn. auto 10. }
  destruct (ReadAll (client s) (Body resp) w1) as [[err|body] w2].
  { cbn. split; [reflexivity|]. split; [reflexivity|]. split; [reflexivity|].
    split; [reflexivity|]. right. exists resp, (inl err). repeat split; auto; lia. }
  destruct (xml_Decode body) as [err|sitemap].
  - destruct (GoStrings.Contains (GoXML.Error err) "expected element type");
      cbn; (split; [reflexivity|]); (split; [reflexivity|]); (split; [reflexivity|]);
      (split; [reflexivity|]); right; exists resp, (inr body); repeat split; auto; lia.
  - cbn. split; [reflexivity|]. split; [reflexivity|]. split; [reflexivity|].
    split; [reflexivity|]. right. exists resp, (inr body). repeat split; auto; lia.
Qed.

(** X19.  When the sitemap is fetched with a 2xx status, read and decoded,
    [GetURLsFromSitemap] returns the locations of the decoded sitemap that
    contain the filter, in order, and the log tells how many locations the
    sitemap has. *)
Theorem sitemap_urls_are_the_filtered_locations
    {W B : Type} (xml_Decode : string -> GoXML.DecodeError + Sitemap) (s : Service W B)
    (sitemapURL pathFilter : string) (w w1 w2 : W) (resp : Response B) (body : string)
    (sitemap : Sitemap) :
  Get (client s) sitemapURL (announced s sitemapURL w) = (inr resp, w1) ->
  200 <= StatusCode resp < 300 ->
  ReadAll (client s) (Body resp) w1 = (inr body, w2) ->
  xml_Decode body = inr sitemap ->
  (GetURLsFromSitemap xml_Decode s sitemapURL pathFilter w).1.1
  = inr (Loc <$> List.filter (kept pathFilter) (URLs sitemap))
  /\ In ("Found %d URLs in sitemap", [VInt (Z.of_nat (length (URLs sitemap)))])
       (logged (GetURLsFromSitemap xml_Decode s sitemapURL pathFilter w).2).
Proof.
  intros HG Hst HR HD.
  unfold GetURLsFromSitemap, FetchSitemap, bind, call_Printf, call_Get, call_ReadAll,
    call_BodyClose, ret.
  fold (announced s sitemapURL w). rewrite HG.
  destruct (Z.ltb_spec (StatusCode resp) 200); [lia|].
  destruct (Z.leb_spec 300 (StatusCode resp)); [lia|].
  cbn [orb]. rewrite HR, HD.
  unfold FilterURLs, bind, call_Printf, ret. rewrite filterLoop_filter. cbn [app].
  destruct (negb (String.eqb pathFilter "")); cbn; auto.
Qed.

Lemma sitemap_urls_are_the_filtered_locations_witness :
  (GetURLsFromSitemap MiniDOM.decodeSitemap Fixtures.sitemapService
     "https://example.com/sitemap.xml" "/docs" Fixtures.sitemapServed).1.1
  = inr (Loc <$> List.filter (kept "/docs")
                   [mkURL "https://example.com/"; mkURL "https://example.com/docs/";
                    mkURL "https://example.com/docs/features"])
  /\ In ("Found %d URLs in sitemap", [VInt (Z.of_nat 3)])
       (logged (GetURLsFromSitemap MiniDOM.decodeSitemap Fixtures.sitemapService
                  "https://example.com/sitemap.xml" "/docs" Fixtures.sitemapServed).2).
Proof.
  eapply (sitemap_urls_are_the_filtered_locations MiniDOM.decodeSitemap
            Fixtures.sitemapService "https://example.com/sitemap.xml" "/docs"
            Fixtures.sitemapServed _ _ (mkResponse 200 "https://example.com/sitemap.xml")
            Fixtures.threeLocations
            (mkSitemap [mkURL "https://example.com/"; mkURL "https://example.com/docs/";
                        mkURL "https://example.com/docs/features"])).
  - apply call_eta. vm_compute. reflexivity.
  - cbn. lia.
  - apply call_eta. vm_compute. reflexivity.
  - vm_compute. reflexivity.
Defined.

End SitemapMore.

(** ** Over the mocks of the tests *)

Module ClosureMore.

Import GoFmt GoTime GoInt Collab Collab.Notations Scraper BatchProofs PoolProofs.
Import FetchMore ItemMore BatchMore.

Section WithService.

Context {W B F Doc Node : Type}.
Variable pkg : Packages Doc Node.
Variable s : Service W B F.

(** A relation between the state before, the calls and the state after
    that every call of a collaborator keeps, and that is kept when calls
    follow one another, holds of every run of a method of the service. *)
Variable R : W -> list (Event B F) -> W -> Prop.

Hypothesis R_nil : forall w, R w [] w.
Hypothesis R_app :
  forall w t1 w1 t2 w2, R w t1 w1 -> R w1 t2 w2 -> R w (t1 ++ t2) w2.
Hypothesis R_Printf : forall f a w, R w [EvPrintf f a] (Printf (logger s) f a w).
Hypothesis R_Sleep : forall d w, R w [EvSleep d] (Sleep (sleeper s) d w).
Hypothesis R_Get :
  forall url w r w', Get (client s) url w = (r, w') -> R w [EvGet url r] w'.
Hypothesis R_ReadAll :
  forall b w r w', ReadAll (client s) b w = (r, w') -> R w [EvReadAll b r] w'.
Hypothesis R_BodyClose : forall b w, R w [EvBodyClose b] (BodyClose (client s) b w).
Hypothesis R_MkdirAll :
  forall path perm w r w',
    MkdirAll (fs s) path perm w = (r, w') -> R w [EvMkdirAll path perm r] w'.
Hypothesis R_Create :
  forall name w r w', Create (fs s) name w = (r, w') -> R w [EvCreate name r] w'.
Hypothesis R_WriteString :
  forall f content w r w',
    WriteString (fs s) f content w = (r, w') -> R w [EvWriteString f content r] w'.
Hypothesis R_FileClose : forall f w, R w [EvFileClose f] (FileClose (fs s) f w).

Lemma R_cons (e : Event B F) (w w1 w2 : W) (t : list (Event B F)) :
  R w [e] w1 -> R w1 t w2 -> R w (e :: t) w2.
Proof. intros H1 H2. exact (R_app w [e] w1 t w2 H1 H2). Qed.

Lemma fetchLoop_kept (url : string) :
  forall (n : nat) (a : Z) (lastErr : option error) (w : W) r w' t,
    fetchLoop s url n a lastErr w = (r, w', t) -> R w t w'.
Proof.
  induction n as [|n IH]; intros a lastErr w r w' t E; cbn [fetchLoop] in E.
  - run_inv E. apply R_nil.
  - destruct (a <=? MaxRetries (config s)); [|run_inv E; apply R_nil].
    apply bind_inv in E as (u & w0 & t0 & t1 & E0 & E & ->).
    assert (H0 : R w t0 w0).
    { destruct (0 <? a); run_inv E0; [|apply R_nil].
      eapply R_app; [apply R_Printf | apply R_Sleep]. }
    eapply R_app; [exact H0|]. clear E0 H0.
    apply bind_inv in E as (g & w1 & tg & t2 & EG & E & ->).
    apply call_Get_inv in EG as [EG ->]. apply R_Get in EG.
    eapply R_app; [exact EG|].
    destruct g as [err|resp]; [eapply IH; exact E|].
    destruct ((200 <=? StatusCode resp) && (StatusCode resp <? 300));
      [run_inv E; apply R_nil|].
    destruct (StatusCode resp =? 404).
    + run_inv E. rewrite app_nil_r. apply R_BodyClose.
    + run_inv E. eapply R_cons; [apply R_BodyClose|]. eapply IH; exact E.
Qed.





End WithService.

End ClosureMore.

Module MocksMore.

Import GoFmt GoTime GoInt Collab Collab.Notations Scraper BatchProofs PoolProofs.
Import FetchMore ItemMore BatchMore EffectsMore ClosureMore ScraperMocks.

(** What the mocks recorded between two states is what the trace shows. *)
Definition recorded (w : World) (t : list (Event string nat)) (w' : World) : Prop :=
  messages w' = (messages w ++ logged t)%list
  /\ sleepDurations w' = (sleepDurations w ++ sleeps t)%list
  /\ createdFiles (mockFS w') = (createdFiles (mockFS w) ++ (filesOpened t).*1)%list
  /\ createdDirs (mockFS w') = (createdDirs (mockFS w) ++ dirsMade t)%list
  /\ (forall u, GetCallCount u (mockClient w')
                = GetCallCount u (mockClient w)
                  + Z.of_nat (count_occ String.string_dec (requested t) u))
  /\ createError (mockFS w') = createError (mockFS w)
  /\ mkdirError (mockFS w') = mkdirError (mockFS w).

Lemma dirsMade_app {B F : Type} (t1 t2 : list (Event B F)) :
  dirsMade (t1 ++ t2) = (dirsMade t1 ++ dirsMade t2)%list.
Proof. apply flat_map_app. Qed.

Lemma recorded_nil (w : World) : recorded w [] w.
Proof.
  unfold recorded. cbn. rewrite !app_nil_r. repeat split. intros u. lia.
Qed.

Lemma recorded_app (w : World) t1 w1 t2 w2 :
  recorded w t1 w1 -> recorded w1 t2 w2 -> recorded w (t1 ++ t2) w2.
Proof.
  intros (A1 & A2 & A3 & A4 & A5 & A6 & A7) (B1 & B2 & B3 & B4 & B5 & B6 & B7).
  unfold recorded.
  rewrite logged_app, sleeps_app, filesOpened_app, fmap_app, dirsMade_app, requested_app.
  rewrite B1, A1, B2, A2, B3, A3, B4, A4, B6, A6, B7, A7, !app_assoc.
  repeat split. intros u. rewrite B5, A5, count_occ_app. lia.
Qed.

Section OverTheMocks.

Context {Doc Node : Type}.
Variable pkg : Packages Doc Node.
Variable conv : Converter.
Variable cfg : Config.

Abbreviation svc := (ScraperMocks.NewService conv cfg).

Lemma recorded_Printf f a w : recorded w [EvPrintf f a] (Printf (logger svc) f a w).
Proof.
  unfold recorded. cbn. rewrite !app_nil_r. repeat split. intros u. lia.
Qed.

Lemma recorded_Sleep d w : recorded w [EvSleep d] (Sleep (sleeper svc) d w).
Proof.
  unfold recorded. cbn. rewrite !app_nil_r. repeat split. intros u. lia.
Qed.

Lemma recorded_Get url w r w' :
  Get (client svc) url w = (r, w') -> recorded w [EvGet url r] w'.
Proof.
  cbn [client ScraperMocks.NewService mockHTTPClient Get]. unfold mock_Get.
  intros E.
  assert (Hw : w' = mkWorld
                     (mkMockHTTPClient (responses (mockClient w)) (errors (mockClient w))
                        (<[url := GetCallCount url (mockClient w) + 1]>
                           (callCount (mockClient w))))
                     (mockFS w) (writers w) (sleepDurations w) (messages w)).
  { destruct (errors (mockClient w) !! url); [congruence|].
    destruct (responses (mockClient w) !! url); congruence. }
  subst w'. clear E. unfold recorded.
  cbn [logged sleeps filesOpened dirsMade requested flat_map app fmap list_fmap
       messages sleepDurations mockFS mockClient].
  rewrite !app_nil_r. repeat split. intros u.
  unfold GetCallCount. cbn [callCount count_occ].
  destruct (String.string_dec url u) as [->|Hne].
  - rewrite lookup_insert_eq. cbn. lia.
  - rewrite lookup_insert_ne by exact Hne. cbn. lia.
Qed.


Lemma recorded_BodyClose b w : recorded w [EvBodyClose b] (BodyClose (client svc) b w).
Proof.
  cbn [client ScraperMocks.NewService mockHTTPClient BodyClose]. unfold mock_BodyClose.
  unfold recorded. cbn. rewrite !app_nil_r. repeat split. intros u. lia.
Qed.






Lemma FetchWithRetries_recorded url w r w' t :
  FetchWithRetries svc url w = (r, w', t) -> recorded w t w'.
Proof.
  unfold FetchWithRetries.
  apply (fetchLoop_kept svc recorded recorded_nil recorded_app
           recorded_Printf recorded_Sleep recorded_Get recorded_BodyClose).
Qed.











End OverTheMocks.





End MocksMore.

(** ** The command line *)

Module MainMore.

Import GoFmt GoTime GoInt Collab Collab.Notations Scraper BatchProofs PoolProofs.
Import FetchMore ItemMore BatchMore EffectsMore.

Lemma count_occ_repeat (u v : string) (n : nat) :
  count_occ String.string_dec (repeat u n) v = if String.string_dec u v then n else O.
Proof.
  destruct (String.string_dec u v) as [->|Hne].
  - apply count_occ_repeat_eq. reflexivity.
  - apply count_occ_repeat_neq. intros Heq. apply Hne. symmetry. exact Heq.
Qed.

(** X22.  The scrape command asks for a URL at most four times for each
    time the URL was submitted, and it pauses for one, two or four
    seconds only, whatever the collaborators answer and however many
    workers it runs. *)
Theorem command_line_requests_and_pauses
    {W B F Doc Node : Type} (pkg : Packages Doc Node)
    (client : HTTPClient W B) (fs : FileSystem W F) (sleeper : Sleeper W)
    (logger : Logger W) (converter : Converter)
    (urls : list string) (selector output : string) (workers : Z) (w : W)
    (run : option error * W * list (Event B F)) :
  Main.runScrapeCommand pkg client fs sleeper logger converter urls selector output
    workers w run ->
  (forall u, (count_occ String.string_dec (requested run.2) u
              <= 4 * count_occ String.string_dec urls u)%nat)
  /\ Forall (fun d => d = 1 * Second \/ d = 2 * Second \/ d = 4 * Second) (sleeps run.2).
Proof.
  unfold Main.runScrapeCommand. cbn zeta.
  set (s := mkService client converter fs sleeper logger (mkConfig (30 * Second) 3 workers)).
  intros H.
  set (Inv := fun (rs : list Result) (_ : W) (t : list (Event B F)) =>
                (forall u, (count_occ String.string_dec (requested t) u
                            <= 4 * count_occ String.string_dec (URL <$> rs) u)%nat)
                /\ Forall (fun d => d = 1 * Second \/ d = 2 * Second \/ d = 4 * Second)
                     (sleeps t)).
  assert (Hlog : forall rs w0 t f a,
             Inv rs w0 t -> Inv rs (Printf (Scraper.logger s) f a w0)
                              (t ++ [EvPrintf f a])%list).
  { intros rs w0 t f a (H1 & H2). unfold Inv.
    rewrite requested_app, sleeps_app. cbn. rewrite !app_nil_r. auto. }
  assert (Hjob : forall rs w0 t u r w' t',
             In u urls -> Inv rs w0 t ->
             processJob pkg s (mkJob u selector output) w0 = (r, w', t') ->
             Inv (rs ++ [r])%list w' (t ++ t')%list).
  { intros rs w0 t u r w' t' _ (H1 & H2) E. unfold Inv.
    pose proof (processJob_spec _ _ _ _ _ _ _ E) as (HU & _ & _). cbn [job_URL] in HU.
    apply processJob_effects in E as (_ & _ & (E0 & E1 & E2) & _).
    change (MaxRetries (config s)) with 3 in E1.
    rewrite requested_app, sleeps_app, fmap_app, Forall_app. cbn [fmap list_fmap].
    split.
    - intros v. rewrite !count_occ_app, E0, count_occ_repeat, HU. specialize (H1 v).
      cbn [count_occ]. destruct (String.string_dec u v); lia.
    - split; [exact H2|]. rewrite E2. clear E2.
      assert (Hk : Forall (fun k => 0 <= k <= 3) (seqZ 0 (Z.of_nat (attempts t'))))
        by (apply Forall_seqZ; lia).
      induction Hk as [|k l Hk _ IH]; [constructor|].
      cbn [flat_map]. unfold ticksOfAttempt at 1.
      destruct (Z.ltb_spec 0 k); cbn [app flat_map pauseOf]; [|exact IH].
      constructor; [|exact IH].
      rewrite FetchProofs.backoffDuration_seconds by lia.
      assert (Hc : k = 1 \/ k = 2 \/ k = 3) by lia.
      destruct Hc as [-> | [-> | ->]]; cbn; auto. }
  assert (Hinit : Inv [] w []) by (split; [intros u; cbn; lia | constructor]).
  destruct (ScrapeURLs_invariant pkg s selector output urls Inv Hlog Hjob w run Hinit H)
    as (rs & (H1 & H2) & _ & Hperm).
  split; [|exact H2]. intros u. specialize (H1 u).
  rewrite (Permutation_count_occ String.string_dec) in Hperm.
  rewrite <- (Hperm u). exact H1.
Qed.

Lemma command_line_requests_and_pauses_witness :
  let run := scrapeSequential MiniDOM.packages (Fixtures.service 3 1) Fixtures.mixedURLs
               "div" "/tmp/test" Fixtures.mixedPages in
  (forall u, (count_occ String.string_dec (requested run.2) u
              <= 4 * count_occ String.string_dec Fixtures.mixedURLs u)%nat)
  /\ Forall (fun d => d = 1 * Second \/ d = 2 * Second \/ d = 4 * Second) (sleeps run.2).
Proof.
  apply (command_line_requests_and_pauses MiniDOM.packages
           ScraperMocks.mockHTTPClient ScraperMocks.mockFileSystem
           ScraperMocks.mockSleeper ScraperMocks.mockLogger MiniDOM.plainConverter
           Fixtures.mixedURLs "div" "/tmp/test" 1 Fixtures.mixedPages).
  unfold Main.runScrapeCommand. cbn zeta.
  apply (run_sequential MiniDOM.packages (Fixtures.service 3 1)). cbn. lia.
Defined.

End MainMore.
